(** * Multi-database query dispatcher: guard, formatter, adapters, dispatcher
    and descriptor store, embedded from mcp_server/tools/db_tools.

    Python objects are modelled as follows.
    - [str] is [string]; query texts are taken over 7-bit ASCII, so that
      [str.upper] only moves the letters a-z and [str.strip] removes the
      ASCII white space of CPython (9-13, 28-32).
    - [int] is [Z], printed in decimal as [str(int)] does.
    - a [dict] is an insertion-ordered association list ([pydict]);
      dict objects that the code shares and mutates (result rows, connection
      descriptors) live in a heap and are passed around by address ([loc]).
    - an exception is a value of [exn]; a call that may raise returns [res].
    - a method that changes its object or the outside world takes and
      returns them: the adapter or manager, and the [world] of databases,
      heap and config file.
    - the drivers, the csv writer and [BaseTool.__init__] are not part of
      the code at hand; they are the fields of the class [Runtime].

    The first part holds the definitions, module by module as the components
    are laid out: strings and dictionaries, the query guard, the result
    formatter, the adapters, the dispatcher, the config tool. The second part
    holds the properties. *)

From stdpp Require Import base list strings.
From Stdlib Require Import ZArith DecimalString DecimalZ DecimalPos Ascii Lia.

Local Open Scope Z_scope.

(** ** Strings *)

Module PyStr.

Definition is_lower (c : ascii) : bool :=
  let n := nat_of_ascii c in Nat.leb 97 n && Nat.leb n 122.

Definition upper_char (c : ascii) : ascii :=
  if is_lower c then ascii_of_nat (nat_of_ascii c - 32) else c.

Definition is_upper (c : ascii) : bool :=
  let n := nat_of_ascii c in Nat.leb 65 n && Nat.leb n 90.

Definition lower_char (c : ascii) : ascii :=
  if is_upper c then ascii_of_nat (nat_of_ascii c + 32) else c.

(** [s.upper()] and [s.lower()] *)
Fixpoint upper (s : string) : string :=
  match s with
  | EmptyString => EmptyString
  | String c r => String (upper_char c) (upper r)
  end.

Fixpoint lower (s : string) : string :=
  match s with
  | EmptyString => EmptyString
  | String c r => String (lower_char c) (lower r)
  end.

(** White space as [str.strip()] sees it. *)
Definition isspace (c : ascii) : bool :=
  let n := nat_of_ascii c in
  (Nat.leb 9 n && Nat.leb n 13) || (Nat.leb 28 n && Nat.leb n 32).

Fixpoint lstrip_by (p : ascii -> bool) (s : string) : string :=
  match s with
  | EmptyString => EmptyString
  | String c r => if p c then lstrip_by p r else s
  end.

Fixpoint rstrip_by (p : ascii -> bool) (s : string) : string :=
  match s with
  | EmptyString => EmptyString
  | String c r =>
      match rstrip_by p r with
      | EmptyString => if p c then EmptyString else String c EmptyString
      | r' => String c r'
      end
  end.

(** [s.strip()] *)
Definition strip (s : string) : string := rstrip_by isspace (lstrip_by isspace s).

(** [s.rstrip(c)] for a one-character argument *)
Definition rstrip_char (c : ascii) (s : string) : string :=
  rstrip_by (fun x => if ascii_dec x c then true else false) s.

(** [s.startswith(p)] *)
Definition startswith (s p : string) : bool := String.prefix p s.

(** [needle in hay] *)
Fixpoint contains (needle hay : string) : bool :=
  String.prefix needle hay ||
  match hay with
  | EmptyString => false
  | String _ r => contains needle r
  end.

(** [str(n)] for an [int] *)
Definition str_of_Z (n : Z) : string := NilZero.string_of_int (Z.to_int n).

(** [sep.join(parts)] *)
Fixpoint join (sep : string) (parts : list string) : string :=
  match parts with
  | [] => ""
  | [p] => p
  | p :: rest => p +:+ sep +:+ join sep rest
  end.

(** [s.split(sep)] for a one-character separator: the pieces between the
    separators, empty pieces included. *)
Fixpoint split (sep : ascii) (s : string) : list string :=
  match s with
  | EmptyString => [""]
  | String c r =>
      if ascii_dec c sep then "" :: split sep r
      else match split sep r with
           | [] => [String c ""]
           | p :: ps => String c p :: ps
           end
  end.

(** [s.ljust(w)] *)
Definition ljust (w : nat) (s : string) : string :=
  s +:+ String.string_of_list_ascii (repeat " "%char (w - String.length s)).

(** [c * n] *)
Definition replicate_char (c : ascii) (n : nat) : string :=
  String.string_of_list_ascii (repeat c n).

Definition is_digit (c : ascii) : bool :=
  let n := nat_of_ascii c in Nat.leb 48 n && Nat.leb n 57.

Definition digit_val (c : ascii) : Z := Z.of_nat (nat_of_ascii c - 48).

(** The digits of an integer literal as [int(s)] reads them: groups of
    digits that single underscores may separate. [prev] tells whether the
    previous character was a digit, [acc] is the value read so far. *)
Fixpoint int_digits (prev : bool) (acc : Z) (s : string) : option Z :=
  match s with
  | EmptyString => if prev then Some acc else None
  | String c r =>
      if is_digit c then int_digits true (10 * acc + digit_val c) r
      else if ascii_dec c "_"%char then
        (if prev then int_digits false acc r else None)
      else None
  end.

(** [int(s)] on a [str]: [None] stands for [ValueError]. *)
Definition int_of_str (s : string) : option Z :=
  match strip s with
  | String "+" r => int_digits false 0 r
  | String "-" r => Z.opp <$> int_digits false 0 r
  | t => int_digits false 0 t
  end.

End PyStr.

(** ** Values, exceptions, dictionaries *)

Inductive value : Type :=
| VNone
| VBool (b : bool)
| VInt (z : Z)
| VStr (s : string)
| VOther (repr : string).   (* any other object, known by its [str()] *)

Inductive exn : Type :=
| DatabaseConnectionError (msg : string)
| DatabaseQueryError (msg : string)
| OtherError (msg : string).   (* ValueError, ImportError, driver errors, ... *)

(** [str(e)] *)
Definition exn_msg (e : exn) : string :=
  match e with
  | DatabaseConnectionError m | DatabaseQueryError m | OtherError m => m
  end.

Inductive res (A : Type) : Type :=
| Ok (a : A)
| Raise (e : exn).
Arguments Ok {A} a.
Arguments Raise {A} e.

(** [str(v)] *)
Definition py_str (v : value) : string :=
  match v with
  | VNone => "None"
  | VBool true => "True"
  | VBool false => "False"
  | VInt z => PyStr.str_of_Z z
  | VStr s => s
  | VOther r => r
  end.

(** A [dict] with [str] keys, in insertion order. *)
Abbreviation pydict V := (list (string * V)).

Module PyDict.
Section Dict.
Context {V : Type}.

(** [d.get(k)] *)
Fixpoint get (k : string) (d : pydict V) : option V :=
  match d with
  | [] => None
  | (k', v) :: r => if String.eqb k k' then Some v else get k r
  end.

(** [k in d] *)
Definition has (k : string) (d : pydict V) : bool :=
  match get k d with Some _ => true | None => false end.

(** [d[k] = v]: an existing key keeps its place, a new key goes last. *)
Fixpoint set (k : string) (v : V) (d : pydict V) : pydict V :=
  match d with
  | [] => [(k, v)]
  | (k', v') :: r => if String.eqb k k' then (k, v) :: r else (k', v') :: set k v r
  end.

(** [del d[k]] for a key that is present *)
Fixpoint del (k : string) (d : pydict V) : pydict V :=
  match d with
  | [] => []
  | (k', v') :: r => if String.eqb k k' then r else (k', v') :: del k r
  end.

(** [d.update(e)] *)
Definition update (e d : pydict V) : pydict V :=
  fold_left (fun acc kv => set (fst kv) (snd kv) acc) e d.

Definition keys (d : pydict V) : list string := map fst d.

(** A list of pairs is a dictionary when no key occurs twice. *)
Definition wf (d : pydict V) : Prop := List.NoDup (keys d).

End Dict.
End PyDict.


(** ** Query guard (base.py and snowflake.py) *)

Module Guard.

Definition dangerous_patterns : list string :=
  [ "DROP"; "DELETE"; "TRUNCATE"; "INSERT"; "UPDATE";
    "CREATE"; "ALTER"; "GRANT"; "REVOKE"; "EXEC";
    "EXECUTE"; "CALL"; "MERGE"; "UPSERT" ].

(** The loop over [dangerous_patterns]: the first pattern [p] with
    [" p " in " query_upper "], if any. *)
Fixpoint first_forbidden (patterns : list string) (query_upper : string) : option string :=
  match patterns with
  | [] => None
  | pattern :: rest =>
      if PyStr.contains (" " +:+ pattern +:+ " ") (" " +:+ query_upper +:+ " ")
      then Some pattern
      else first_forbidden rest query_upper
  end.

(** [BaseDatabaseTool._validate_query] *)
Definition _validate_query (query : string) : res unit :=
  let query_upper := PyStr.strip (PyStr.upper query) in
  match first_forbidden dangerous_patterns query_upper with
  | Some pattern =>
      Raise (DatabaseQueryError ("Query contains forbidden operation: " +:+ pattern))
  | None =>
      if negb (PyStr.startswith query_upper "SELECT") && negb (PyStr.startswith query_upper "WITH")
      then Raise (DatabaseQueryError "Only SELECT and WITH queries are allowed")
      else Ok tt
  end.

(** [BaseDatabaseTool._apply_limit] *)
Definition _apply_limit (query : string) (limit : Z) : string :=
  let query_upper := PyStr.upper query in
  if PyStr.contains "LIMIT" query_upper then query
  else PyStr.rstrip_char ";" query +:+ " LIMIT " +:+ PyStr.str_of_Z limit.

(** [SnowflakeTool._apply_limit], the override *)
Definition snowflake_apply_limit (query : string) (limit : Z) : string :=
  let query_upper := PyStr.upper query in
  if PyStr.contains "LIMIT" query_upper then query
  else PyStr.rstrip_char ";" query +:+ " LIMIT " +:+ PyStr.str_of_Z limit.

End Guard.

(** ** The store of dict objects and the outside world *)

Abbreviation loc := nat.

(** Every dict object the code shares: result rows and connection descriptors. *)
Abbreviation heap := (list (pydict value)).

Definition deref (h : heap) (l : loc) : pydict value := default [] (h !! l).

(** Allocation of a new dict object: its address and the extended heap. *)
Definition alloc (d : pydict value) (h : heap) : loc * heap := (length h, h ++ [d]).

Fixpoint alloc_all (ds : list (pydict value)) (h : heap) : list loc * heap :=
  match ds with
  | [] => ([], h)
  | d :: rest =>
      let '(l, h1) := alloc d h in
      let '(ls, h2) := alloc_all rest h1 in
      (l :: ls, h2)
  end.

(** What the code relies on without defining it: the database drivers, the
    [csv] writer, the import-time driver flags of sql.py and snowflake.py, and
    [BaseTool.__init__] of tools/base.py. A driver call returns the new state
    of the databases and either the text of the exception it raised or its
    result. *)
Class Runtime := {
  db : Type;
  (** the try-body of [SQLDatabaseTool.connect] for a database type and
      connection parameters *)
  sql_connect : string -> pydict value -> db -> db * option string;
  (** the try-body of [SQLDatabaseTool.execute_query]: statement timeout, the
      statement, [fetchall()] and [result.keys()] *)
  sql_run : string -> pydict value -> string -> Z -> db ->
            db * (string + (list (pydict value) * list string));
  (** the try-body of [SnowflakeTool.connect] *)
  snowflake_connect : pydict value -> db -> db * option string;
  (** [_execute] of [SnowflakeTool.execute_query] for a warehouse and a cache
      flag: the rows of [fetchall()] and the names of [cursor.description] *)
  snowflake_run : pydict value -> option string -> bool -> string -> Z -> db ->
                  db * (string + (list (pydict value) * list string));
  (** [csv.DictWriter(fieldnames=columns)]: header and rows written *)
  csv_dictwriter : list string -> list (pydict value) -> string + string;
  SQLALCHEMY_AVAILABLE : bool;
  ASYNCPG_AVAILABLE : bool;
  AIOMYSQL_AVAILABLE : bool;
  AIOSQLITE_AVAILABLE : bool;
  SNOWFLAKE_AVAILABLE : bool;
  (** [BaseTool.__init__(name, description)]: [Some msg] when it raises *)
  base_tool_init : string -> string -> option string
}.

Record world `{Runtime} := {
  dbs : db;                                  (* the database servers *)
  objs : heap;                               (* the dict objects *)
  file : option (pydict (pydict value))      (* what the config file holds *)
}.

(** ** Result formatter (base.py) *)

Inductive formatted : Type :=
| FRows (rows : list loc)     (* the list of row dicts itself *)
| FText (text : string).

Module Formatter.
Section WithRuntime.
Context `{Runtime}.

Definition nl : string := String (ascii_of_nat 10) "".

(** [str(row.get(col, ''))] *)
Definition cell (row : pydict value) (col : string) : string :=
  py_str (default (VStr "") (PyDict.get col row)).

(** [widths[col]] after the first loop of [_create_ascii_table] *)
Definition width (rows : list (pydict value)) (col : string) : nat :=
  fold_left (fun w row => Nat.max w (String.length (cell row col))) rows (String.length col).

(** [BaseDatabaseTool._create_ascii_table] *)
Definition _create_ascii_table (rows : list (pydict value)) (columns : list string) : string :=
  match rows with
  | [] => "No results found."
  | _ =>
      let header :=
        "| " +:+ PyStr.join " | " (map (fun col => PyStr.ljust (width rows col) col) columns) +:+ " |" in
      let separator :=
        "+-" +:+ PyStr.join "-+-" (map (fun col => PyStr.replicate_char "-" (width rows col)) columns) +:+ "-+" in
      let row_str row :=
        "| " +:+ PyStr.join " | " (map (fun col => PyStr.ljust (width rows col) (cell row col)) columns) +:+ " |" in
      PyStr.join nl ([separator; header; separator] ++ map row_str rows ++ [separator])
  end.

(** [BaseDatabaseTool._format_results]; [h] is the heap the rows live in. *)
Definition _format_results (h : heap) (rows : list loc) (columns : list string)
    (format : string) : res formatted :=
  if String.eqb format "json" then Ok (FRows rows)
  else if String.eqb format "csv" then
    match rows with
    | [] => Ok (FText "")
    | _ =>
        match csv_dictwriter columns (map (deref h) rows) with
        | inl msg => Raise (OtherError msg)
        | inr text => Ok (FText text)
        end
    end
  else if String.eqb format "table" then
    match rows with
    | [] => Ok (FText "No results found.")
    | _ => Ok (FText (_create_ascii_table (map (deref h) rows) columns))
    end
  else Ok (FRows rows).

End WithRuntime.
End Formatter.

(** ** Backend adapters (base.py, sql.py, snowflake.py) *)

Inductive tool_class : Type :=
| SQLDatabaseTool | PostgreSQLTool | MySQLTool | SQLiteTool | SnowflakeTool.

(** An adapter object. The engine (or connection) handle is not [None]
    whenever [_is_connected] holds, so that the tests the code makes on both
    come down to the flag. *)
Record adapter := {
  cls : tool_class;
  name : string;                 (* [self.name] *)
  database_type : string;        (* [self.database_type] of the SQL tools *)
  connection_params : loc;       (* the descriptor dict, shared with the store *)
  _is_connected : bool
}.

Definition set_connected (b : bool) (a : adapter) : adapter :=
  {| cls := cls a; name := name a; database_type := database_type a;
     connection_params := connection_params a; _is_connected := b |}.

Record metadata := {
  md_database_type : string;
  md_limit_applied : Z;
  md_format : string;
  (** the two extra keys of the Snowflake tool: warehouse and cached_result *)
  md_snowflake : option (option string * bool)
}.

(** The dict a successful [execute] returns ([execution_time_seconds], a
    wall-clock reading, is left out). *)
Record query_result := {
  query : string;
  row_count : nat;
  columns : list string;
  results : formatted;
  meta : metadata;
  connection_name : option string;   (* both added by the manager *)
  connection_type : option string
}.

Module Adapter.
Section WithRuntime.
Context `{Runtime}.

Definition is_snowflake (a : adapter) : bool :=
  match cls a with SnowflakeTool => true | _ => false end.

Definition set_dbs (d : db) (w : world) : world :=
  {| dbs := d; objs := objs w; file := file w |}.

Definition set_objs (h : heap) (w : world) : world :=
  {| dbs := dbs w; objs := h; file := file w |}.

(** [SQLDatabaseTool.connect] *)
Definition sql_tool_connect (a : adapter) (w : world) : adapter * world * res unit :=
  if _is_connected a then (a, w, Ok tt)
  else
    match sql_connect (database_type a) (deref (objs w) (connection_params a)) (dbs w) with
    | (d, None) => (set_connected true a, set_dbs d w, Ok tt)
    | (d, Some msg) =>
        (set_connected false a, set_dbs d w,
         Raise (DatabaseConnectionError
                  ("Failed to connect to " +:+ database_type a +:+ ": " +:+ msg)))
    end.

(** [SnowflakeTool.connect] *)
Definition snowflake_tool_connect (a : adapter) (w : world) : adapter * world * res unit :=
  if _is_connected a then (a, w, Ok tt)
  else
    match snowflake_connect (deref (objs w) (connection_params a)) (dbs w) with
    | (d, None) => (set_connected true a, set_dbs d w, Ok tt)
    | (d, Some msg) =>
        (set_connected false a, set_dbs d w,
         Raise (DatabaseConnectionError ("Failed to connect to Snowflake: " +:+ msg)))
    end.

(** [self.connect()]: the method of the class of the adapter *)
Definition connect (a : adapter) (w : world) : adapter * world * res unit :=
  if is_snowflake a then snowflake_tool_connect a w else sql_tool_connect a w.

(** [SQLDatabaseTool.execute_query]: the rows come back as new dict objects,
    with the column names. *)
Definition sql_execute_query (a : adapter) (w : world) (query : string) (timeout : Z)
    : adapter * world * res (list loc * list string) :=
  match sql_tool_connect a w with
  | (a1, w1, Raise e) => (a1, w1, Raise e)
  | (a1, w1, Ok _) =>
      match sql_run (database_type a1) (deref (objs w1) (connection_params a1))
              query timeout (dbs w1) with
      | (d, inl msg) =>
          (a1, set_dbs d w1, Raise (DatabaseQueryError ("Query execution failed: " +:+ msg)))
      | (d, inr (raw, keys)) =>
          let columns := match raw with [] => [] | _ => keys end in
          let '(rows_as_dicts, h) := alloc_all raw (objs w1) in
          (a1, set_objs h (set_dbs d w1), Ok (rows_as_dicts, columns))
      end
  end.

(** [SnowflakeTool.execute_query] *)
Definition snowflake_execute_query (a : adapter) (w : world) (query : string) (timeout : Z)
    (warehouse : option string) (use_cached_result : bool)
    : adapter * world * res (list loc * list string) :=
  match snowflake_tool_connect a w with
  | (a1, w1, Raise e) => (a1, w1, Raise e)
  | (a1, w1, Ok _) =>
      match snowflake_run (deref (objs w1) (connection_params a1)) warehouse use_cached_result
              query timeout (dbs w1) with
      | (d, inl msg) =>
          (a1, set_dbs d w1,
           Raise (DatabaseQueryError ("Snowflake query execution failed: " +:+ msg)))
      | (d, inr (raw, description)) =>
          let '(rows, h) := alloc_all raw (objs w1) in
          (a1, set_objs h (set_dbs d w1), Ok (rows, description))
      end
  end.

(** [self.execute_query(query, timeout)]: the method of the class of the
    adapter, the Snowflake one with its default warehouse and cache flag *)
Definition execute_query (a : adapter) (w : world) (query : string) (timeout : Z)
    : adapter * world * res (list loc * list string) :=
  if is_snowflake a then snowflake_execute_query a w query timeout None true
  else sql_execute_query a w query timeout.

(** [self._apply_limit(query, limit)] *)
Definition apply_limit (a : adapter) : string -> Z -> string :=
  if is_snowflake a then Guard.snowflake_apply_limit else Guard._apply_limit.

(** The handler of both [execute] methods: whatever the body raises is raised
    again as a query error. *)
Definition reraise (r : adapter * world * res query_result)
    : adapter * world * res query_result :=
  match r with
  | (a1, w1, Raise e) =>
      (a1, w1, Raise (DatabaseQueryError ("Query execution failed: " +:+ exn_msg e)))
  | _ => r
  end.

(** [BaseDatabaseTool.execute], the one the SQL tools inherit *)
Definition base_execute (a : adapter) (w : world) (q : string) (limit : Z)
    (format : string) (timeout : Z) : adapter * world * res query_result :=
  reraise
    match (if _is_connected a then (a, w, Ok tt) else connect a w) with
    | (a1, w1, Raise e) => (a1, w1, Raise e)
    | (a1, w1, Ok _) =>
        match Guard._validate_query q with
        | Raise e => (a1, w1, Raise e)
        | Ok _ =>
            let limited_query := apply_limit a1 q limit in
            match execute_query a1 w1 limited_query timeout with
            | (a2, w2, Raise e) => (a2, w2, Raise e)
            | (a2, w2, Ok (rows, cols)) =>
                match Formatter._format_results (objs w2) rows cols format with
                | Raise e => (a2, w2, Raise e)
                | Ok formatted_results =>
                    (a2, w2,
                     Ok {| query := limited_query;
                           row_count := length rows;
                           columns := cols;
                           results := formatted_results;
                           meta := {| md_database_type := name a2;
                                      md_limit_applied := limit;
                                      md_format := format;
                                      md_snowflake := None |};
                           connection_name := None;
                           connection_type := None |})
                end
            end
        end
    end.

(** [SnowflakeTool.execute] *)
Definition snowflake_execute (a : adapter) (w : world) (q : string) (limit : Z)
    (format : string) (timeout : Z) (warehouse : option string) (use_cached_result : bool)
    : adapter * world * res query_result :=
  reraise
    match (if _is_connected a then (a, w, Ok tt) else snowflake_tool_connect a w) with
    | (a1, w1, Raise e) => (a1, w1, Raise e)
    | (a1, w1, Ok _) =>
        match Guard._validate_query q with
        | Raise e => (a1, w1, Raise e)
        | Ok _ =>
            let limited_query := Guard.snowflake_apply_limit q limit in
            match snowflake_execute_query a1 w1 limited_query timeout
                    warehouse use_cached_result with
            | (a2, w2, Raise e) => (a2, w2, Raise e)
            | (a2, w2, Ok (rows, cols)) =>
                match Formatter._format_results (objs w2) rows cols format with
                | Raise e => (a2, w2, Raise e)
                | Ok formatted_results =>
                    (a2, w2,
                     Ok {| query := limited_query;
                           row_count := length rows;
                           columns := cols;
                           results := formatted_results;
                           meta := {| md_database_type := name a2;
                                      md_limit_applied := limit;
                                      md_format := format;
                                      md_snowflake := Some (warehouse, use_cached_result) |};
                           connection_name := None;
                           connection_type := None |})
                end
            end
        end
    end.

End WithRuntime.
End Adapter.

(** ** Connection registry and dispatcher (manager.py) *)

Record kwargs := {
  kw_warehouse : option string;
  kw_use_cached_result : option bool
}.

Definition no_kwargs : kwargs := {| kw_warehouse := None; kw_use_cached_result := None |}.

(** One query specification of a fan-out request; [limit] and [format] are
    optional keys. *)
Record query_spec := {
  qs_connection_name : string;
  qs_query : string;
  qs_limit : option Z;
  qs_format : option string
}.

(** The values of the fan-out result map. *)
Inductive entry : Type :=
| EResult (r : query_result)
| EError (error : string)                         (* status "error" *)
| ECombined (total_rows : nat) (data : list loc).

Module Manager.
Section WithRuntime.
Context `{Runtime}.

(** [DatabaseManagerTool]: connection name to adapter object. *)
Record manager := { connections : pydict adapter }.

Definition with_connection (r : query_result) (cname ctype : string) : query_result :=
  {| query := query r; row_count := row_count r; columns := columns r;
     results := results r; meta := meta r;
     connection_name := Some cname; connection_type := Some ctype |}.

(** The call in the try-body of [execute]: the Snowflake tool is passed
    [kwargs.get('warehouse')] and [kwargs.get('use_cached_result', True)]
    besides the common arguments. *)
Definition tool_execute (db_tool : adapter) (w : world) (q : string) (limit : Z)
    (format : string) (timeout : Z) (kw : kwargs) : adapter * world * res query_result :=
  if Adapter.is_snowflake db_tool
  then Adapter.snowflake_execute db_tool w q limit format timeout
         (kw_warehouse kw) (default true (kw_use_cached_result kw))
  else Adapter.base_execute db_tool w q limit format timeout.

(** [DatabaseManagerTool.execute] *)
Definition execute (m : manager) (w : world) (cname : string) (q : string)
    (limit : Z) (format : string) (timeout : Z) (kw : kwargs)
    : manager * world * res query_result :=
  match PyDict.get cname (connections m) with
  | None => (m, w, Raise (DatabaseConnectionError ("Unknown connection: " +:+ cname)))
  | Some db_tool =>
      match tool_execute db_tool w q limit format timeout kw with
      | (tool, w1, Ok result) =>
          ({| connections := PyDict.set cname tool (connections m) |}, w1,
           Ok (with_connection result cname (name tool)))
      | (tool, w1, Raise e) =>
          ({| connections := PyDict.set cname tool (connections m) |}, w1,
           Raise (DatabaseQueryError ("Query failed on " +:+ cname +:+ ": " +:+ exn_msg e)))
      end
  end.

(** The key of the [i]-th specification, [i] counted from 0 as [enumerate] does. *)
Definition query_key (i : nat) (cname : string) : string :=
  "query_" +:+ PyStr.str_of_Z (Z.of_nat i + 1) +:+ "_" +:+ cname.

(** The two assignments to one row dict. *)
Definition tag_row (cname : string) (i : nat) (row : pydict value) : pydict value :=
  PyDict.set "_source_query" (VInt (Z.of_nat i + 1))
    (PyDict.set "_source_connection" (VStr cname) row).

(** [for row in query_results: ...], on the row objects in the heap. *)
Definition tag_rows (cname : string) (i : nat) (rows : list loc) (h : heap) : heap :=
  fold_left (fun h l => alter (tag_row cname i) l h) rows h.

Record fan_state := {
  fs_manager : manager;
  fs_world : world;
  fs_results : pydict entry;      (* [results] *)
  fs_combined : list loc          (* [combined_data] *)
}.

(** The body of the loop over [enumerate(queries)]. *)
Definition fan_step (combine_results : bool) (i : nat) (query_spec : query_spec)
    (st : fan_state) : fan_state :=
  let cname := qs_connection_name query_spec in
  let q := qs_query query_spec in
  let limit := default 100 (qs_limit query_spec) in
  let format_type := default "json" (qs_format query_spec) in
  match execute (fs_manager st) (fs_world st) cname q limit format_type 30 no_kwargs with
  | (m, w, Ok result) =>
      let results1 := PyDict.set (query_key i cname) (EResult result) (fs_results st) in
      if combine_results && String.eqb format_type "json" then
        match results result with
        | FRows query_results =>
            {| fs_manager := m;
               fs_world := Adapter.set_objs (tag_rows cname i query_results (objs w)) w;
               fs_results := results1;
               fs_combined := fs_combined st ++ query_results |}
        | FText "" =>
            {| fs_manager := m; fs_world := w; fs_results := results1;
               fs_combined := fs_combined st |}
        | FText _ =>
            (* item assignment on a character raises, the handler below runs *)
            {| fs_manager := m; fs_world := w;
               fs_results :=
                 PyDict.set (query_key i cname)
                   (EError "'str' object does not support item assignment") results1;
               fs_combined := fs_combined st |}
        end
      else
        {| fs_manager := m; fs_world := w; fs_results := results1;
           fs_combined := fs_combined st |}
  | (m, w, Raise e) =>
      {| fs_manager := m; fs_world := w;
         fs_results := PyDict.set (query_key i cname) (EError (exn_msg e)) (fs_results st);
         fs_combined := fs_combined st |}
  end.

(** The loop, from index [i] on. *)
Fixpoint fan_loop (combine_results : bool) (i : nat) (queries : list query_spec)
    (st : fan_state) : fan_state :=
  match queries with
  | [] => st
  | query_spec :: rest =>
      fan_loop combine_results (S i) rest (fan_step combine_results i query_spec st)
  end.

(** [DatabaseManagerTool.execute_cross_database_query] *)
Definition execute_cross_database_query (m : manager) (w : world)
    (queries : list query_spec) (combine_results : bool)
    : manager * world * pydict entry :=
  let st := fan_loop combine_results 0 queries
              {| fs_manager := m; fs_world := w; fs_results := []; fs_combined := [] |} in
  let results :=
    if combine_results
    then PyDict.set "combined_results"
           (ECombined (length (fs_combined st)) (fs_combined st)) (fs_results st)
    else fs_results st in
  (fs_manager st, fs_world st, results).

(** *** Construction of the adapters *)

(** [s.title()] on ASCII text *)
Fixpoint title_from (prev_cased : bool) (s : string) : string :=
  match s with
  | EmptyString => EmptyString
  | String c r =>
      let cased := PyStr.is_lower c || PyStr.is_upper c in
      String (if prev_cased then PyStr.lower_char c else PyStr.upper_char c)
             (title_from cased r)
  end.
Definition title (s : string) : string := title_from false s.

(** [config.get(key, dflt).lower()]: a value that is not a [str] has no
    method [lower]. *)
Definition get_lower (key dflt : string) (config : pydict value) : res string :=
  match PyDict.get key config with
  | None => Ok (PyStr.lower dflt)
  | Some (VStr s) => Ok (PyStr.lower s)
  | Some _ => Raise (OtherError "object has no attribute 'lower'")
  end.

(** [BaseDatabaseTool.__init__] *)
Definition base_database_tool_init (c : tool_class) (tool_name description dbtype : string)
    (params : loc) : res adapter :=
  match base_tool_init tool_name description with
  | Some msg => Raise (OtherError msg)
  | None =>
      Ok {| cls := c; name := tool_name; database_type := dbtype;
            connection_params := params; _is_connected := false |}
  end.

(** [SQLDatabaseTool.__init__], also run by its three subclasses *)
Definition sql_database_tool_init (c : tool_class) (h : heap) (params : loc) : res adapter :=
  if negb SQLALCHEMY_AVAILABLE
  then Raise (OtherError "SQLAlchemy not available. Install with: pip install sqlalchemy")
  else
    match get_lower "database_type" "postgresql" (deref h params) with
    | Raise e => Raise e
    | Ok db_type =>
        if String.eqb db_type "postgresql" && negb ASYNCPG_AVAILABLE
        then Raise (OtherError "PostgreSQL driver not available. Install with: pip install asyncpg")
        else if String.eqb db_type "mysql" && negb AIOMYSQL_AVAILABLE
        then Raise (OtherError "MySQL driver not available. Install with: pip install aiomysql")
        else if String.eqb db_type "sqlite" && negb AIOSQLITE_AVAILABLE
        then Raise (OtherError "SQLite driver not available. Install with: pip install aiosqlite")
        else
          base_database_tool_init c ("sql_database_" +:+ db_type)
            ("Execute SQL queries against " +:+ title db_type +:+ " database") db_type params
    end.

(** [PostgreSQLTool], [MySQLTool] and [SQLiteTool] first write the database
    type into the descriptor they were given. *)
Definition sql_subclass_init (c : tool_class) (dbtype : string) (h : heap) (params : loc)
    : heap * res adapter :=
  let h1 := alter (PyDict.set "database_type" (VStr dbtype)) params h in
  (h1, sql_database_tool_init c h1 params).

(** [SnowflakeTool.__init__] *)
Definition snowflake_tool_init (params : loc) : res adapter :=
  if negb SNOWFLAKE_AVAILABLE
  then Raise (OtherError
    "Snowflake connector not available. Install with: pip install snowflake-connector-python")
  else
    base_database_tool_init SnowflakeTool "snowflake"
      "Execute SQL queries against Snowflake data warehouse" "" params.

(** The try-body of the loop of [_initialize_connections] *)
Definition make_tool (h : heap) (config : loc) : heap * res adapter :=
  match get_lower "database_type" "" (deref h config) with
  | Raise e => (h, Raise e)
  | Ok db_type =>
      if String.eqb db_type "postgresql" then sql_subclass_init PostgreSQLTool "postgresql" h config
      else if String.eqb db_type "mysql" then sql_subclass_init MySQLTool "mysql" h config
      else if String.eqb db_type "sqlite" then sql_subclass_init SQLiteTool "sqlite" h config
      else if String.eqb db_type "snowflake" then (h, snowflake_tool_init config)
      else (h, sql_database_tool_init SQLDatabaseTool h config)
  end.

(** [_initialize_connections]: a connection whose tool cannot be built is
    logged and skipped. *)
Fixpoint _initialize_connections (configs : pydict loc) (conns : pydict adapter) (h : heap)
    : pydict adapter * heap :=
  match configs with
  | [] => (conns, h)
  | (cname, config) :: rest =>
      match make_tool h config with
      | (h1, Ok tool) => _initialize_connections rest (PyDict.set cname tool conns) h1
      | (h1, Raise _) => _initialize_connections rest conns h1
      end
  end.

(** [DatabaseManagerTool.__init__] *)
Definition new (database_configs : pydict loc) (h : heap) : heap * res manager :=
  match base_tool_init "database_manager"
          "Execute SQL queries against multiple database types (PostgreSQL, MySQL, SQLite, Snowflake)" with
  | Some msg => (h, Raise (OtherError msg))
  | None =>
      let '(conns, h1) := _initialize_connections database_configs [] h in
      (h1, Ok {| connections := conns |})
  end.

(** [get_available_connections] *)
Definition get_available_connections (m : manager) : list string :=
  PyDict.keys (connections m).

(** [get_connection_types] *)
Definition get_connection_types (m : manager) : pydict string :=
  map (fun kv => (fst kv, name (snd kv))) (connections m).

End WithRuntime.
End Manager.

(** ** Config tool (config.py) *)

(** The [status] and [message] a mutating action answers with. *)
Record action_result := { status : string; message : string }.

Record connection_list := {
  total_connections : nat;
  listed : pydict (pydict value)      (* the key [connections] *)
}.

Module Config.
Section WithRuntime.
Context `{Runtime}.

(** [DatabaseConfigTool]: the descriptor store maps a connection name to
    its descriptor object. *)
Record config_tool := {
  config_file : option string;
  database_configs : pydict loc;
  manager : option Manager.manager
}.

Definition set_store (s : pydict loc) (t : config_tool) : config_tool :=
  {| config_file := config_file t; database_configs := s; manager := manager t |}.

Definition set_manager (m : option Manager.manager) (t : config_tool) : config_tool :=
  {| config_file := config_file t; database_configs := database_configs t; manager := m |}.

(** The descriptors by value, as [json.dump] or a reader of the store sees them. *)
Definition view (s : pydict loc) (h : heap) : pydict (pydict value) :=
  map (fun kv => (fst kv, deref h (snd kv))) s.

(** [_save_to_file] *)
Definition _save_to_file (t : config_tool) (w : world) : world :=
  match config_file t with
  | None => w
  | Some _ =>
      {| dbs := dbs w; objs := objs w; file := Some (view (database_configs t) (objs w)) |}
  end.

(** One step of the first loop of [_load_from_environment]: [db_vars] after
    the variable [key=value]. *)
Definition env_step (db_vars : pydict (pydict value)) (kv : string * string)
    : pydict (pydict value) :=
  let '(key, value) := kv in
  if PyStr.startswith key "DB_" then
    let parts := PyStr.split "_" key in
    if Nat.leb 3 (length parts) then
      let db_name := PyStr.lower (default "" (parts !! 1%nat)) in
      let setting := PyStr.lower (PyStr.join "_" (drop 2 parts)) in
      let db_vars1 :=
        if PyDict.has db_name db_vars then db_vars else PyDict.set db_name [] db_vars in
      let value1 :=
        if String.eqb setting "port" then
          match PyStr.int_of_str value with
          | Some n => VInt n
          | None => VStr value
          end
        else VStr value in
      PyDict.set db_name (PyDict.set setting value1 (default [] (PyDict.get db_name db_vars1)))
        db_vars1
    else db_vars
  else db_vars.

(** The second loop: the groups that name a database type enter the store. *)
Fixpoint env_store (db_vars : pydict (pydict value)) (s : pydict loc) (h : heap)
    : pydict loc * heap :=
  match db_vars with
  | [] => (s, h)
  | (db_name, config) :: rest =>
      if PyDict.has "database_type" config then
        let '(l, h1) := alloc config h in
        env_store rest (PyDict.set db_name l s) h1
      else env_store rest s h
  end.

(** [_load_from_environment], on the variables of [os.environ] in order *)
Definition _load_from_environment (environ : list (string * string))
    (t : config_tool) (w : world) : config_tool * world :=
  let db_vars := fold_left env_step environ [] in
  let '(s, h) := env_store db_vars (database_configs t) (objs w) in
  (set_store s t, Adapter.set_objs h w).

Definition sensitive_keys : list string :=
  [ "password"; "private_key"; "private_key_passphrase" ].

(** The body of the inner loop of [_list_connections] *)
Definition redact_step (safe_config : pydict value) (sensitive_key : string) : pydict value :=
  if PyDict.has sensitive_key safe_config
  then PyDict.set sensitive_key (VStr "***hidden***") safe_config
  else safe_config.

(** The inner loop, on the copy of one descriptor *)
Definition redact (config : pydict value) : pydict value :=
  fold_left redact_step sensitive_keys config.

(** [_list_connections] *)
Definition _list_connections (t : config_tool) (w : world) : connection_list :=
  let conns :=
    fold_left (fun acc kv => PyDict.set (fst kv) (redact (deref (objs w) (snd kv))) acc)
      (database_configs t) [] in
  {| total_connections := length conns; listed := conns |}.

(** [_add_connection]; [config] is the dict the caller passes. *)
Definition _add_connection (cname : string) (config : pydict value)
    (t : config_tool) (w : world) : config_tool * world * action_result :=
  if PyDict.has cname (database_configs t) then
    (t, w, {| status := "error";
              message := "Connection " +:+ cname +:+
                         " already exists. Use update_connection to modify it." |})
  else if negb (PyDict.has "database_type" config) then
    (t, w, {| status := "error"; message := "Missing required field: database_type" |})
  else
    let '(l, h1) := alloc config (objs w) in
    let t1 := set_store (PyDict.set cname l (database_configs t)) t in
    match Manager.new (database_configs t1) h1 with
    | (h2, Raise e) =>
        (set_store (PyDict.del cname (database_configs t1)) t1, Adapter.set_objs h2 w,
         {| status := "error"; message := "Failed to create connection: " +:+ exn_msg e |})
    | (h2, Ok m) =>
        let t2 := set_manager (Some m) t1 in
        (t2, _save_to_file t2 (Adapter.set_objs h2 w),
         {| status := "success"; message := "Connection " +:+ cname +:+ " added successfully" |})
    end.

(** [_remove_connection] *)
Definition _remove_connection (cname : string) (t : config_tool) (w : world)
    : config_tool * world * action_result :=
  if negb (PyDict.has cname (database_configs t)) then
    (t, w, {| status := "error"; message := "Connection " +:+ cname +:+ " not found" |})
  else
    let t1 := set_store (PyDict.del cname (database_configs t)) t in
    let '(t2, h2) :=
      match database_configs t1 with
      | [] => (set_manager None t1, objs w)
      | _ =>
          match Manager.new (database_configs t1) (objs w) with
          | (h, Ok m) => (set_manager (Some m) t1, h)
          | (h, Raise _) => (t1, h)      (* logged *)
          end
      end in
    (t2, _save_to_file t2 (Adapter.set_objs h2 w),
     {| status := "success"; message := "Connection " +:+ cname +:+ " removed successfully" |}).

(** [_update_connection] *)
Definition _update_connection (cname : string) (config : pydict value)
    (t : config_tool) (w : world) : config_tool * world * action_result :=
  match PyDict.get cname (database_configs t) with
  | None =>
      (t, w, {| status := "error";
                message := "Connection " +:+ cname +:+
                           " not found. Use add_connection to create it." |})
  | Some l =>
      (* old_config = self.database_configs[name].copy() *)
      let '(old_config, h1) := alloc (deref (objs w) l) (objs w) in
      (* self.database_configs[name].update(config), on the object itself *)
      let h2 := alter (PyDict.update config) l h1 in
      match Manager.new (database_configs t) h2 with
      | (h3, Raise e) =>
          (set_store (PyDict.set cname old_config (database_configs t)) t,
           Adapter.set_objs h3 w,
           {| status := "error"; message := "Failed to update connection: " +:+ exn_msg e |})
      | (h3, Ok m) =>
          let t2 := set_manager (Some m) t in
          (t2, _save_to_file t2 (Adapter.set_objs h3 w),
           {| status := "success";
              message := "Connection " +:+ cname +:+ " updated successfully" |})
      end
  end.

(** One assignment of [self.database_configs.update(file_configs)]: the
    descriptor that [json.load] has read is a new object. *)
Definition file_step (acc : pydict loc * heap) (kv : string * pydict value)
    : pydict loc * heap :=
  let '(s, h) := acc in
  let '(l, h1) := alloc (snd kv) h in
  (PyDict.set (fst kv) l s, h1).

(** [_load_from_file]. The file holds a JSON object of JSON objects, as
    [_save_to_file] writes it; a file that cannot be opened (no path, an
    empty path, or no file there) is logged. *)
Definition _load_from_file (t : config_tool) (w : world) : config_tool * world :=
  match config_file t, file w with
  | Some path, Some file_configs =>
      if String.eqb path "" then (t, w)
      else
        let '(s, h) := fold_left file_step file_configs (database_configs t, objs w) in
        (set_store s t, Adapter.set_objs h w)
  | _, _ => (t, w)
  end.

(** [_load_configurations]: the environment, then the file when a path is
    set and the file exists, then the manager when there is a descriptor. *)
Definition _load_configurations (environ : list (string * string))
    (t : config_tool) (w : world) : config_tool * world :=
  let '(t1, w1) := _load_from_environment environ t w in
  let '(t2, w2) :=
    match config_file t1, file w1 with
    | Some path, Some _ => if String.eqb path "" then (t1, w1) else _load_from_file t1 w1
    | _, _ => (t1, w1)
    end in
  match database_configs t2 with
  | [] => (t2, w2)
  | _ =>
      match Manager.new (database_configs t2) (objs w2) with
      | (h, Ok m) => (set_manager (Some m) t2, Adapter.set_objs h w2)
      | (h, Raise _) => (t2, Adapter.set_objs h w2)      (* logged *)
      end
  end.

(** [DatabaseConfigTool.__init__] *)
Definition new (path : option string) (environ : list (string * string)) (w : world)
    : world * res config_tool :=
  match base_tool_init "database_config" "Manage database configurations and connections" with
  | Some msg => (w, Raise (OtherError msg))
  | None =>
      let '(t, w1) :=
        _load_configurations environ
          {| config_file := path; database_configs := []; manager := None |} w in
      (w1, Ok t)
  end.


End WithRuntime.
End Config.

(** ** The words of the specification, for comparison with the code *)

Module GuardSpec.

(** [tok] occurs in [text]. *)
Definition occurs (tok text : string) : Prop :=
  exists a b, text = a +:+ tok +:+ b.

Definition begins_with (text p : string) : Prop :=
  exists rest, text = p +:+ rest.

(** The text before an occurrence is empty or ends with a character of [p];
    the text after it is empty or starts with one. *)
Definition left_ok (p : ascii -> bool) (a : string) : Prop :=
  a = "" \/ exists a' c, a = a' +:+ String c "" /\ p c = true.

Definition right_ok (p : ascii -> bool) (b : string) : Prop :=
  b = "" \/ exists c b', b = String c b' /\ p c = true.

Definition occurs_bounded (p : ascii -> bool) (tok text : string) : Prop :=
  exists a b, text = a +:+ tok +:+ b /\ left_ok p a /\ right_ok p b.

Definition is_space_char (c : ascii) : bool :=
  if ascii_dec c " "%char then true else false.

(** Letters, digits and the underscore: what an identifier is made of. *)
Definition is_ident_char (c : ascii) : bool :=
  PyStr.is_lower c || PyStr.is_upper c || PyStr.is_digit c ||
  (if ascii_dec c "_"%char then true else false).

(** A token on its own: no identifier character touches it. *)
Definition token_bounded : string -> string -> Prop :=
  occurs_bounded (fun c => negb (is_ident_char c)).

(** A token between space characters (or the ends of the text). *)
Definition space_bounded : string -> string -> Prop :=
  occurs_bounded is_space_char.

(** [s] without its last character when that character is [c]. *)
Fixpoint remove_one_trailing (c : ascii) (s : string) : string :=
  match s with
  | EmptyString => EmptyString
  | String x EmptyString => if ascii_dec x c then EmptyString else s
  | String x r => String x (remove_one_trailing c r)
  end.

(** [s] ends with the character [c]. *)
Definition ends_with_char (c : ascii) (s : string) : Prop :=
  exists s', s = s' +:+ String c "".

(** [applyLimit] as the specification words it: one trailing terminator
    removed, then the suffix. *)
Definition applyLimit (text : string) (limit : Z) : string :=
  if PyStr.contains "LIMIT" (PyStr.upper text) then text
  else remove_one_trailing ";" text +:+ " LIMIT " +:+ PyStr.str_of_Z limit.

End GuardSpec.

(** ** What a call does to the heap *)

Section Frames.
Context `{Runtime}.

(** What a step leaves alone: it may add objects to the heap, nothing else
    of the heap, the file or the identity of the adapter changes. *)
Definition extends (a a' : adapter) (w w' : world) (new : heap) : Prop :=
  objs w' = objs w ++ new /\ file w' = file w /\
  cls a' = cls a /\ name a' = name a /\ database_type a' = database_type a /\
  connection_params a' = connection_params a.

(** [execute_query] only adds objects to the heap, and the rows it returns
    are exactly the objects it added, in order. *)
Definition returns_new_rows (w : world) (new : heap) (out : res (list loc * list string))
    : Prop :=
  forall rows cols, out = Ok (rows, cols) -> rows = seq (length (objs w)) (length new).

(** What a successful [execute] has done to the heap: the rows it counts
    are new objects, and rows it hands out are these objects. In format
    [json] it hands out rows. *)
Definition result_rows_new (w : world) (new : heap) (format : string)
    (out : res query_result) : Prop :=
  forall r, out = Ok r ->
    row_count r = length new /\
    (forall rows, results r = FRows rows -> rows = seq (length (objs w)) (length new)) /\
    (format = "json" -> exists rows, results r = FRows rows).

End Frames.

(** ** What the backend returns *)

Section DriverRun.
Context `{Runtime}.

(** The driver call that [self.execute_query(query, timeout)] makes for an
    adapter: the raw rows of the backend, before they become row objects and
    before any formatting. *)
Definition driver_run (a : adapter) (params : pydict value) (q : string) (timeout : Z)
    (d : db) : db * (string + (list (pydict value) * list string)) :=
  if Adapter.is_snowflake a
  then snowflake_run params None true q timeout d
  else sql_run (database_type a) params q timeout d.

End DriverRun.

(** ** Descriptors that differ in their secrets only *)

Module ConfigSpec.

(** Two descriptors have the same keys in the same order, and the same
    value under every key outside [hidden]. *)
Definition same_outside (hidden : list string) (c1 c2 : pydict value) : Prop :=
  Forall2 (fun e1 e2 => fst e1 = fst e2 /\ (In (fst e1) hidden \/ snd e1 = snd e2)) c1 c2.

(** Two stores, read by value, hold the same connections in the same order,
    and their descriptors differ at most in the values of the
    secret-bearing fields. *)
Definition same_but_secrets (s1 s2 : pydict (pydict value)) : Prop :=
  Forall2 (fun e1 e2 => fst e1 = fst e2 /\
                        same_outside Config.sensitive_keys (snd e1) (snd e2)) s1 s2.

(** Every address in the store is that of an object. *)
Definition locs_valid (s : pydict loc) (h : heap) : Prop :=
  Forall (fun e => (snd e < length h)%nat) s.

(** A store as the tool keeps it: names are distinct, and every name has its
    own descriptor object. *)
Definition store_ok (s : pydict loc) (h : heap) : Prop :=
  PyDict.wf s /\ locs_valid s h /\ List.NoDup (map snd s).

(** An environment variable [DB_<name>_<setting>=<value>], by its parts. *)
Record env_var := { ev_name : string; ev_setting : string; ev_value : string }.

Definition env_key (v : env_var) : string :=
  "DB_" +:+ ev_name v +:+ "_" +:+ ev_setting v.

Definition environ_of (vars : list env_var) : list (string * string) :=
  map (fun v => (env_key v, ev_value v)) vars.

(** The value as the loader stores it: only [port] becomes an integer. *)
Definition loaded_value (setting text : string) : value :=
  if String.eqb setting "port" then
    match PyStr.int_of_str text with
    | Some n => VInt n
    | None => VStr text
    end
  else VStr text.

(** The value as the specification has it: whatever reads as an integer
    becomes one. *)
Definition coerced_value (text : string) : value :=
  match PyStr.int_of_str text with
  | Some n => VInt n
  | None => VStr text
  end.

(** The settings of the group [g], added to [d0]: names compared in lower
    case, settings lower-cased, a later variable overriding an earlier one. *)
Definition group_from (d0 : pydict value) (g : string) (vars : list env_var) : pydict value :=
  fold_left
    (fun d v =>
       if String.eqb (PyStr.lower (ev_name v)) g
       then PyDict.set (PyStr.lower (ev_setting v))
              (loaded_value (PyStr.lower (ev_setting v)) (ev_value v)) d
       else d)
    vars d0.

Definition group (g : string) (vars : list env_var) : pydict value := group_from [] g vars.

Definition mentioned (g : string) (vars : list env_var) : bool :=
  existsb (fun v => String.eqb (PyStr.lower (ev_name v)) g) vars.

End ConfigSpec.

(** ** The fan-out, query by query *)

Module FanSpec.
Section WithRuntime.
Context `{Runtime}.

Definition init_state (m : Manager.manager) (w : world) : Manager.fan_state :=
  {| Manager.fs_manager := m; Manager.fs_world := w;
     Manager.fs_results := []; Manager.fs_combined := [] |}.

(** The state in which query [i] runs: the one the queries before it, in
    input order, have left, whether they succeeded or not. *)
Definition state_before (combine : bool) (m : Manager.manager) (w : world)
    (queries : list query_spec) (i : nat) : Manager.fan_state :=
  Manager.fan_loop combine 0 (take i queries) (init_state m w).

(** The call of [execute] for one query specification. *)
Definition run_spec (st : Manager.fan_state) (sp : query_spec)
    : Manager.manager * world * res query_result :=
  Manager.execute (Manager.fs_manager st) (Manager.fs_world st)
    (qs_connection_name sp) (qs_query sp)
    (default 100 (qs_limit sp)) (default "json" (qs_format sp)) 30 no_kwargs.

(** What query [i] comes to. *)
Definition outcome (combine : bool) (m : Manager.manager) (w : world)
    (queries : list query_spec) (i : nat) (sp : query_spec)
    : Manager.manager * world * res query_result :=
  run_spec (state_before combine m w queries i) sp.

(** The entry of the result map for an outcome. *)
Definition entry_of (out : Manager.manager * world * res query_result) : entry :=
  match out with
  | (_, _, Ok r) => EResult r
  | (_, _, Raise e) => EError (exn_msg e)
  end.

(** The world an outcome leaves. *)
Definition world_of (out : Manager.manager * world * res query_result) : world :=
  snd (fst out).

(** The rows an outcome gives to the combined set: those of a successful
    query in format [json]. *)
Definition json_rows (sp : query_spec)
    (out : Manager.manager * world * res query_result) : list loc :=
  match out with
  | (_, _, Ok r) =>
      if String.eqb (default "json" (qs_format sp)) "json" then
        match results r with
        | FRows rows => rows
        | FText _ => []
        end
      else []
  | (_, _, Raise _) => []
  end.

(** The rows of the first [n] queries, query after query. *)
Fixpoint combined_upto (combine : bool) (m : Manager.manager) (w : world)
    (queries : list query_spec) (n : nat) : list loc :=
  match n with
  | O => []
  | S k =>
      combined_upto combine m w queries k ++
      match queries !! k with
      | Some sp => json_rows sp (outcome combine m w queries k sp)
      | None => []
      end
  end.

(** The entries of the queries, in input order. *)
Definition entries (combine : bool) (m : Manager.manager) (w : world)
    (queries : list query_spec) : pydict entry :=
  imap (fun i sp => (Manager.query_key i (qs_connection_name sp),
                     entry_of (outcome combine m w queries i sp))) queries.

End WithRuntime.
End FanSpec.

(** ** Runtimes for the examples *)

Module Demo.

Definition one_row : pydict value := [("one", VInt 1)].

(** Every driver is installed and every connection succeeds; a statement
    returns the single row [{one: 1}], unless it contains [nosuch], which the
    database rejects. [init_error] is what [BaseTool.__init__] raises, if
    anything. *)
Definition runtime_with (init_error : option string) : Runtime := {|
  db := unit;
  sql_connect := fun _ _ d => (d, None);
  sql_run := fun _ _ q _ d =>
    if PyStr.contains "nosuch" q then (d, inl "no such table")
    else (d, inr ([one_row], ["one"]));
  snowflake_connect := fun _ d => (d, None);
  snowflake_run := fun _ _ _ q _ d =>
    if PyStr.contains "nosuch" q then (d, inl "no such table")
    else (d, inr ([one_row], ["one"]));
  csv_dictwriter := fun _ _ => inr "";
  SQLALCHEMY_AVAILABLE := true;
  ASYNCPG_AVAILABLE := true;
  AIOMYSQL_AVAILABLE := true;
  AIOSQLITE_AVAILABLE := true;
  SNOWFLAKE_AVAILABLE := true;
  base_tool_init := fun _ _ => init_error
|}.

Definition runtime : Runtime := runtime_with None.
Definition broken_runtime : Runtime := runtime_with (Some "init failed").

Definition sqlite_descriptor : pydict value :=
  [("database_type", VStr "sqlite"); ("database", VStr "/tmp/a.db")].

Definition postgres_descriptor : pydict value :=
  [("database_type", VStr "postgresql"); ("host", VStr "localhost");
   ("port", VInt 5432); ("password", VStr "secret")].

Definition sqlite_adapter (params : loc) : adapter :=
  {| cls := SQLiteTool; name := "sql_database_sqlite"; database_type := "sqlite";
     connection_params := params; _is_connected := false |}.

Definition snowflake_adapter (params : loc) : adapter :=
  {| cls := SnowflakeTool; name := "snowflake"; database_type := "";
     connection_params := params; _is_connected := false |}.

(** Two SQLite connections, [A] and [B], over two descriptor objects. *)
Definition world0 : @world runtime :=
  {| dbs := tt : @db runtime; objs := [sqlite_descriptor; sqlite_descriptor]; file := None |}.

Definition manager0 : Manager.manager :=
  {| Manager.connections := [("A", sqlite_adapter 0); ("B", sqlite_adapter 1)] |}.

(** A store with the one connection [pg], whose descriptor is the object 0. *)
Definition pg_tool : Config.config_tool :=
  {| Config.config_file := None; Config.database_configs := [("pg", 0%nat)];
     Config.manager := None |}.

Definition pg_world (descriptor : pydict value) : @world runtime :=
  {| dbs := tt : @db runtime; objs := [descriptor]; file := None |}.

Definition other_descriptor : pydict value :=
  [("database_type", VStr "postgresql"); ("host", VStr "localhost");
   ("port", VInt 5432); ("password", VStr "hunter2")].

Definition empty_tool : Config.config_tool :=
  {| Config.config_file := None; Config.database_configs := []; Config.manager := None |}.

(** [DB_PROD_DATABASE_TYPE=postgresql], [DB_PROD_PORT=5432], [DB_PROD_TIMEOUT=30] *)
Definition prod_vars : list ConfigSpec.env_var :=
  [ {| ConfigSpec.ev_name := "PROD"; ConfigSpec.ev_setting := "DATABASE_TYPE";
       ConfigSpec.ev_value := "postgresql" |};
    {| ConfigSpec.ev_name := "PROD"; ConfigSpec.ev_setting := "PORT";
       ConfigSpec.ev_value := "5432" |};
    {| ConfigSpec.ev_name := "PROD"; ConfigSpec.ev_setting := "TIMEOUT";
       ConfigSpec.ev_value := "30" |} ].

(** Two SQLite connections [x] and [y] with their manager, for a runtime in
    which the manager cannot be built again. *)
Definition xy_tool : Config.config_tool :=
  {| Config.config_file := None;
     Config.database_configs := [("x", 0%nat); ("y", 1%nat)];
     Config.manager :=
       Some {| Manager.connections := [("x", sqlite_adapter 0); ("y", sqlite_adapter 1)] |} |}.

Definition broken_world : @world broken_runtime :=
  {| dbs := tt : @db broken_runtime; objs := [sqlite_descriptor; sqlite_descriptor];
     file := None |}.

Definition spec_A : query_spec :=
  {| qs_connection_name := "A"; qs_query := "SELECT 1"; qs_limit := None;
     qs_format := Some "json" |}.

Definition spec_B : query_spec :=
  {| qs_connection_name := "B"; qs_query := "bad sql"; qs_limit := None;
     qs_format := Some "json" |}.

End Demo.

(** ** Words for further properties *)

Module FormatterSpec.
(** The length of every line of a table: the widths of the columns, three
    characters between two columns and two at each end. *)
Definition line_width (rows : list (pydict value)) (columns : list string) : nat :=
  (4 + foldr Nat.add 0 (map (Formatter.width rows) columns)
     + 3 * Nat.pred (length columns))%nat.
End FormatterSpec.

Module RegistrySpec.
Section WithRuntime.
Context `{Runtime}.

(** The database types that have a tool class of their own in sql.py. *)
Definition canonical (t : string) : bool :=
  String.eqb t "postgresql" || String.eqb t "mysql" || String.eqb t "sqlite".

(** A descriptor with its database type in canonical form: the type of a
    PostgreSQL, MySQL or SQLite descriptor in lower case, any other
    descriptor as it is. *)
Definition normalise (d : pydict value) : pydict value :=
  match PyDict.get "database_type" d with
  | Some (VStr s) =>
      if canonical (PyStr.lower s)
      then PyDict.set "database_type" (VStr (PyStr.lower s)) d
      else d
  | _ => d
  end.

(** The database type a descriptor stands for: the one it names, in lower
    case, and PostgreSQL when it names none. *)
Definition type_of (d : pydict value) : option string :=
  match PyDict.get "database_type" d with
  | None => Some "postgresql"
  | Some (VStr s) => Some (PyStr.lower s)
  | Some _ => None
  end.

(** The drivers a database type needs. *)
Definition drivers_available (t : string) : bool :=
  if String.eqb t "snowflake" then SNOWFLAKE_AVAILABLE
  else SQLALCHEMY_AVAILABLE &&
       (if String.eqb t "postgresql" then ASYNCPG_AVAILABLE
        else if String.eqb t "mysql" then AIOMYSQL_AVAILABLE
        else if String.eqb t "sqlite" then AIOSQLITE_AVAILABLE
        else true).

(** The registry entry of a descriptor of the store, if its tool can be
    built. *)
Definition built (h : heap) (kv : string * loc) : option (string * adapter) :=
  match snd (Manager.make_tool h (snd kv)) with
  | Ok tool => Some (fst kv, tool)
  | Raise _ => None
  end.

End WithRuntime.
End RegistrySpec.

Module FanCount.
Section WithRuntime.
Context `{Runtime}.

(** The rows a query counts for the combined set: the [row_count] of its
    result when it succeeds in format [json]. *)
Definition counted (sp : query_spec)
    (out : Manager.manager * world * res query_result) : nat :=
  match out with
  | (_, _, Ok r) =>
      if String.eqb (default "json" (qs_format sp)) "json" then row_count r else 0%nat
  | (_, _, Raise _) => 0%nat
  end.

(** The sum over the first [n] queries. *)
Fixpoint counted_upto (m : Manager.manager) (w : world) (queries : list query_spec)
    (n : nat) : nat :=
  match n with
  | O => 0%nat
  | S k =>
      (counted_upto m w queries k +
       match queries !! k with
       | Some sp => counted sp (FanSpec.outcome true m w queries k sp)
       | None => 0
       end)%nat
  end.

End WithRuntime.
End FanCount.

Module StoreSpec.
Section WithRuntime.
Context `{Runtime}.


(** The store read by value, every descriptor with its database type in
    canonical form. *)
Definition normalised_view (s : pydict loc) (h : heap) : pydict (pydict value) :=
  map (fun kv => (fst kv, RegistrySpec.normalise (snd kv))) (Config.view s h).

End WithRuntime.
End StoreSpec.

(** ** More runtimes and stores for the examples *)

Module Cases.

(** The drivers are installed and [BaseTool.__init__] accepts every tool;
    [connect_error] is what opening a connection raises, if anything, and
    [rows] are the rows every statement returns, under the column [one]. *)
Definition runtime_of (connect_error : option string) (rows : list (pydict value))
    : Runtime := {|
  db := unit;
  sql_connect := fun _ _ d => (d, connect_error);
  sql_run := fun _ _ _ _ d => (d, inr (rows, ["one"]));
  snowflake_connect := fun _ d => (d, connect_error);
  snowflake_run := fun _ _ _ _ _ d => (d, inr (rows, ["one"]));
  csv_dictwriter := fun _ _ => inr "";
  SQLALCHEMY_AVAILABLE := true;
  ASYNCPG_AVAILABLE := true;
  AIOMYSQL_AVAILABLE := true;
  AIOSQLITE_AVAILABLE := true;
  SNOWFLAKE_AVAILABLE := true;
  base_tool_init := fun _ _ => None
|}.

(** Every statement returns no row. *)
Definition quiet_runtime : Runtime := runtime_of None [].

(** No connection can be opened. *)
Definition refusing_runtime : Runtime := runtime_of (Some "connection refused") [].

(** Every statement returns the one row of [Demo.one_row]. *)
Definition runtime : Runtime := runtime_of None [Demo.one_row].

(** A world of these runtimes: the dict objects and the config file. *)
Definition world_of (connect_error : option string) (rows : list (pydict value))
    (h : heap) (f : option (pydict (pydict value)))
    : @world (runtime_of connect_error rows) :=
  {| dbs := tt : @db (runtime_of connect_error rows); objs := h; file := f |}.

(** The connection [A], whose adapter is connected. *)
Definition connected_manager : Manager.manager :=
  {| Manager.connections := [("A", set_connected true (Demo.sqlite_adapter 0))] |}.

(** A descriptor that names its database type in mixed case. *)
Definition mixed_descriptor : pydict value :=
  [("database_type", VStr "PostgreSQL"); ("host", VStr "localhost")].

(** The store of [Demo.pg_tool], with a config file. *)
Definition file_tool : Config.config_tool :=
  {| Config.config_file := Some "db.json"; Config.database_configs := [("pg", 0%nat)];
     Config.manager := None |}.

(** A config file that describes [pg] anew and [lite] besides. *)
Definition file_configs : pydict (pydict value) :=
  [("pg", [("database_type", VStr "postgresql"); ("host", VStr "db.example.org")]);
   ("lite", Demo.sqlite_descriptor)].

End Cases.

(** ** Proof steps *)



(** * Properties *)

(** ** Strings *)

Section StringFacts.

Lemma sapp_nil_l (s : string) : "" +:+ s = s.
Proof. reflexivity. Qed.

Lemma sapp_cons (c : ascii) (s t : string) : String c s +:+ t = String c (s +:+ t).
Proof. reflexivity. Qed.

Lemma sapp_nil_r (s : string) : s +:+ "" = s.
Proof. induction s as [|c s IH]; [reflexivity|]. rewrite sapp_cons, IH. reflexivity. Qed.

Lemma sapp_assoc (s t u : string) : (s +:+ t) +:+ u = s +:+ (t +:+ u).
Proof.
  induction s as [|c s IH]; [reflexivity|].
  rewrite !sapp_cons, IH. reflexivity.
Qed.

Lemma slength_app (s t : string) :
  String.length (s +:+ t) = (String.length s + String.length t)%nat.
Proof. induction s as [|c s IH]; [reflexivity|]. rewrite sapp_cons. simpl. lia. Qed.

(** Every string is empty or ends with a last character. *)
Lemma snoc_cases (s : string) : s = "" \/ exists s' c, s = s' +:+ String c "".
Proof.
  induction s as [|c s IH]; [left; reflexivity|right].
  destruct IH as [->|(s' & d & ->)].
  - exists "", c. reflexivity.
  - exists (String c s'), d. reflexivity.
Qed.

Lemma snoc_inj (s t : string) (c d : ascii) :
  s +:+ String c "" = t +:+ String d "" -> s = t /\ c = d.
Proof.
  revert t. induction s as [|x s IH]; intros [|y t] Heq; rewrite ?sapp_cons, ?sapp_nil_l in Heq.
  - injection Heq as ->. split; reflexivity.
  - injection Heq as -> Heq. destruct t; discriminate Heq.
  - injection Heq as -> Heq. destruct s; discriminate Heq.
  - injection Heq as -> Heq. apply IH in Heq as [-> ->]. split; reflexivity.
Qed.

Lemma prefix_iff (p s : string) :
  String.prefix p s = true <-> exists t, s = p +:+ t.
Proof.
  revert s. induction p as [|c p IH]; intros s.
  - split; [intros _; exists s; reflexivity|]. destruct s; reflexivity.
  - destruct s as [|d s]; simpl.
    + split; [discriminate|]. intros [t Ht]. discriminate Ht.
    + destruct (ascii_dec c d) as [->|Hne].
      * rewrite IH. split; intros [t Ht]; exists t.
        -- rewrite sapp_cons, <- Ht. reflexivity.
        -- rewrite sapp_cons in Ht. injection Ht as ->. reflexivity.
      * split; [discriminate|]. intros [t Ht]. rewrite sapp_cons in Ht.
        injection Ht as -> _. contradiction Hne. reflexivity.
Qed.

Lemma contains_iff (needle hay : string) :
  PyStr.contains needle hay = true <-> GuardSpec.occurs needle hay.
Proof.
  unfold GuardSpec.occurs. induction hay as [|c hay IH].
  - cbn [PyStr.contains]. rewrite orb_false_r, prefix_iff. split.
    + intros [t Ht]. exists "", t. exact Ht.
    + intros (a & b & Hab). destruct a; [exists b; exact Hab|discriminate Hab].
  - cbn [PyStr.contains]. rewrite orb_true_iff, prefix_iff, IH. split.
    + intros [[t Ht]|(a & b & Hab)].
      * exists "", t. exact Ht.
      * exists (String c a), b. rewrite sapp_cons, <- Hab. reflexivity.
    + intros (a & b & Hab). destruct a as [|d a].
      * left. exists b. exact Hab.
      * right. rewrite sapp_cons in Hab. injection Hab as -> Hab. exists a, b. exact Hab.
Qed.

Example strip_example : PyStr.strip (String (ascii_of_nat 9) "  a b  ") = "a b".
Proof. vm_compute. reflexivity. Qed.

Example int_of_str_examples :
  PyStr.int_of_str " +1_000 " = Some 1000 /\ PyStr.int_of_str "-42" = Some (-42) /\
  PyStr.int_of_str "5432" = Some 5432 /\ PyStr.int_of_str "1__0" = None /\
  PyStr.int_of_str "12a" = None /\ PyStr.int_of_str "" = None.
Proof. vm_compute. repeat split. Qed.

Example split_example : PyStr.split "_" "DB_A__x_" = ["DB"; "A"; ""; "x"; ""].
Proof. vm_compute. reflexivity. Qed.

End StringFacts.

(** ** Query guard *)

Section GuardFacts.
Import GuardSpec.

Lemma is_space_char_true (c : ascii) : is_space_char c = true -> c = " "%char.
Proof. unfold is_space_char. destruct (ascii_dec c " "); [auto|discriminate]. Qed.

(** What follows a part of a text that a space was appended to. *)
Lemma padded_tail (U m y : string) :
  U +:+ " " = m +:+ " " +:+ y ->
  exists b, U = m +:+ b /\ right_ok is_space_char b.
Proof.
  intros Heq. destruct (snoc_cases y) as [->|(y' & c & ->)].
  - exists "". rewrite sapp_nil_r in *. apply snoc_inj in Heq as [-> _].
    split; [reflexivity|left; reflexivity].
  - change (m +:+ " " +:+ y' +:+ String c "") with (m +:+ (" " +:+ (y' +:+ String c ""))) in Heq.
    rewrite <- !sapp_assoc in Heq. apply snoc_inj in Heq as [-> _].
    exists (" " +:+ y'). split; [rewrite sapp_assoc; reflexivity|].
    right. exists " "%char, y'. split; reflexivity.
Qed.

(** The test [" p " in " U "] finds exactly the occurrences of [p] in [U]
    that spaces or the ends of [U] delimit. *)
Lemma padded_contains_iff (p U : string) :
  PyStr.contains (" " +:+ p +:+ " ") (" " +:+ U +:+ " ") = true <-> space_bounded p U.
Proof.
  rewrite contains_iff. unfold occurs, space_bounded, occurs_bounded. split.
  - intros (x & y & Heq). destruct x as [|c x].
    + rewrite sapp_nil_l in Heq. change (" " +:+ U +:+ " ") with (String " " (U +:+ " ")) in Heq.
      change ((" " +:+ p +:+ " ") +:+ y) with (String " " ((p +:+ " ") +:+ y)) in Heq.
      injection Heq as Heq. rewrite sapp_assoc in Heq.
      apply padded_tail in Heq as (b & -> & Hb).
      exists "", b. split; [reflexivity|]. split; [left; reflexivity|exact Hb].
    + change (" " +:+ U +:+ " ") with (String " " (U +:+ " ")) in Heq.
      rewrite sapp_cons in Heq. injection Heq as <- Heq.
      change (" " +:+ p +:+ " ") with (" " +:+ (p +:+ " ")) in Heq.
      rewrite !sapp_assoc in Heq. rewrite <- (sapp_assoc x " "), <- (sapp_assoc _ p) in Heq.
      apply padded_tail in Heq as (b & -> & Hb).
      exists (x +:+ " "), b. split; [rewrite !sapp_assoc; reflexivity|].
      split; [|exact Hb]. right. exists x, " "%char. split; reflexivity.
  - intros (a & b & -> & Ha & Hb).
    assert (exists y, b +:+ " " = " " +:+ y) as [y Hy].
    { destruct Hb as [->|(c & b' & -> & Hc)]; [exists ""; reflexivity|].
      apply is_space_char_true in Hc as ->. exists (b' +:+ " "). reflexivity. }
    destruct Ha as [->|(a' & c & -> & Hc)].
    + exists "", y. rewrite !sapp_nil_l, !sapp_assoc, Hy. reflexivity.
    + apply is_space_char_true in Hc as ->. exists (" " +:+ a'), y.
      rewrite !sapp_assoc, Hy. reflexivity.
Qed.

Lemma first_forbidden_none (patterns : list string) (U : string) :
  Guard.first_forbidden patterns U = None <->
  forall p, In p patterns -> ~ space_bounded p U.
Proof.
  induction patterns as [|p0 rest IH]; cbn [Guard.first_forbidden].
  - split; [intros _ p []|reflexivity].
  - destruct (PyStr.contains _ _) eqn:Hc.
    + apply padded_contains_iff in Hc. split; [discriminate|].
      intros Hall. exfalso. apply (Hall p0); [left; reflexivity|exact Hc].
    + rewrite IH. split.
      * intros Hall p [<-|Hin]; [|apply Hall, Hin].
        intros Hb. apply padded_contains_iff in Hb. congruence.
      * intros Hall p Hin. apply Hall. right. exact Hin.
Qed.

Lemma first_forbidden_some (patterns : list string) (U p : string) :
  Guard.first_forbidden patterns U = Some p -> In p patterns /\ space_bounded p U.
Proof.
  induction patterns as [|p0 rest IH]; cbn [Guard.first_forbidden]; [discriminate|].
  destruct (PyStr.contains _ _) eqn:Hc.
  - intros [= <-]. split; [left; reflexivity|apply padded_contains_iff, Hc].
  - intros Hs. apply IH in Hs as [Hin Hb]. split; [right; exact Hin|exact Hb].
Qed.

(** C1, as amended: with "token-bounded" read as "delimited by a space
    character or by an end of the stripped, upper-cased text" the guard is as
    claimed. A text that does not begin with SELECT or WITH is rejected with a
    query error; a text that begins with one of them and has no forbidden
    word between spaces is accepted; a text with a forbidden word between
    spaces is rejected with a query error. *)
Theorem validate_query_space_bounded (q : string) :
  let U := PyStr.strip (PyStr.upper q) in
  (~ (begins_with U "SELECT" \/ begins_with U "WITH") ->
     exists msg, Guard._validate_query q = Raise (DatabaseQueryError msg)) /\
  (begins_with U "SELECT" \/ begins_with U "WITH" ->
     (forall p, In p Guard.dangerous_patterns -> ~ space_bounded p U) ->
     Guard._validate_query q = Ok tt) /\
  (forall p, In p Guard.dangerous_patterns -> space_bounded p U ->
     exists msg, Guard._validate_query q = Raise (DatabaseQueryError msg)).
Proof.
  intros U. unfold Guard._validate_query. fold U.
  unfold PyStr.startswith, begins_with. repeat split.
  - intros Hno. destruct (Guard.first_forbidden _ U); [eexists; reflexivity|].
    destruct (String.prefix "SELECT" U) eqn:Hs.
    { exfalso. apply Hno. left. apply prefix_iff, Hs. }
    destruct (String.prefix "WITH" U) eqn:Hw.
    { exfalso. apply Hno. right. apply prefix_iff, Hw. }
    eexists. reflexivity.
  - intros Hbeg Hfree. apply first_forbidden_none in Hfree. rewrite Hfree.
    destruct Hbeg as [Hb|Hb]; apply prefix_iff in Hb; rewrite Hb; simpl;
      [reflexivity|rewrite andb_false_r; reflexivity].
  - intros p Hin Hb. destruct (Guard.first_forbidden _ U) eqn:Hf; [eexists; reflexivity|].
    exfalso. exact (proj1 (first_forbidden_none _ _) Hf p Hin Hb).
Qed.

(** C1, as stated, fails: in [SELECT 1;DROP TABLE t] the word DROP stands on
    its own, after a semicolon, and the guard accepts the text. *)
Lemma validate_query_misses_token :
  ~ (forall q p, In p Guard.dangerous_patterns ->
       token_bounded p (PyStr.strip (PyStr.upper q)) ->
       exists msg, Guard._validate_query q = Raise (DatabaseQueryError msg)).
Proof.
  intros Hclaim.
  destruct (Hclaim "SELECT 1;DROP TABLE t" "DROP") as [msg Hmsg].
  - simpl. tauto.
  - exists "SELECT 1;", " TABLE T". split; [vm_compute; reflexivity|]. split.
    + right. exists "SELECT 1", ";"%char. split; reflexivity.
    + right. exists " "%char, "TABLE T". split; reflexivity.
  - vm_compute in Hmsg. discriminate Hmsg.
Qed.

Example validate_accepts_select :
  Guard._validate_query "  select created_at from updates  " = Ok tt.
Proof. vm_compute. reflexivity. Qed.

Example validate_rejects_spaced_drop :
  Guard._validate_query "SELECT 1 ; DROP TABLE t"
  = Raise (DatabaseQueryError "Query contains forbidden operation: DROP").
Proof. vm_compute. reflexivity. Qed.

Example validate_accepts_unspaced_drop :
  Guard._validate_query "SELECT 1;DROP TABLE t" = Ok tt.
Proof. vm_compute. reflexivity. Qed.

Example validate_rejects_show :
  Guard._validate_query "SHOW TABLES"
  = Raise (DatabaseQueryError "Only SELECT and WITH queries are allowed").
Proof. vm_compute. reflexivity. Qed.

End GuardFacts.

Section LimitFacts.
Import GuardSpec.

(** [s.rstrip(c)] takes every trailing [c] away and nothing else. *)
Lemma rstrip_char_spec (c : ascii) (s : string) :
  exists k, s = PyStr.rstrip_char c s +:+ PyStr.replicate_char c k /\
            ~ ends_with_char c (PyStr.rstrip_char c s).
Proof.
  unfold PyStr.rstrip_char, ends_with_char.
  induction s as [|x r (k & Hr & Hend)]; cbn [PyStr.rstrip_by].
  - exists 0%nat. split; [reflexivity|]. intros [[|? ?] Hs']; discriminate Hs'.
  - destruct (PyStr.rstrip_by _ r) as [|y R] eqn:HR.
    + rewrite sapp_nil_l in Hr. destruct (ascii_dec x c) as [->|Hne].
      * exists (S k). split; [rewrite Hr; reflexivity|].
        intros [[|? ?] Hs']; discriminate Hs'.
      * exists k. split; [rewrite Hr; reflexivity|].
        intros [s' Hs']. apply (snoc_inj "" s') in Hs' as [_ Hxc]. contradiction.
    + exists k. split; [rewrite sapp_cons, <- Hr; reflexivity|].
      intros [[|z s'] Hs'].
      * rewrite sapp_nil_l in Hs'. discriminate Hs'.
      * rewrite sapp_cons in Hs'. injection Hs' as _ Hs'. apply Hend. exists s'. exact Hs'.
Qed.

(** C2, as amended: a text whose upper-casing contains LIMIT comes back
    unchanged; any other text comes back with all of its trailing semicolons
    removed (not just one) and the suffix [ LIMIT <limit>] appended. The
    Snowflake override computes the same. *)
Theorem apply_limit_strips_all_terminators (q : string) (limit : Z) :
  (occurs "LIMIT" (PyStr.upper q) -> Guard._apply_limit q limit = q) /\
  (~ occurs "LIMIT" (PyStr.upper q) ->
     exists body k,
       q = body +:+ PyStr.replicate_char ";" k /\
       ~ ends_with_char ";" body /\
       Guard._apply_limit q limit = body +:+ " LIMIT " +:+ PyStr.str_of_Z limit) /\
  Guard.snowflake_apply_limit q limit = Guard._apply_limit q limit.
Proof.
  unfold Guard._apply_limit, Guard.snowflake_apply_limit. repeat split.
  - intros Hocc. apply contains_iff in Hocc. rewrite Hocc. reflexivity.
  - intros Hno. destruct (PyStr.contains "LIMIT" (PyStr.upper q)) eqn:Hc.
    { exfalso. apply Hno, contains_iff, Hc. }
    destruct (rstrip_char_spec ";" q) as (k & Hq & Hend).
    exists (PyStr.rstrip_char ";" q), k. repeat split; [exact Hq|exact Hend].
Qed.

(** C2, as stated, fails: of the two semicolons that end [SELECT 1;;] the
    code removes both, the claim exactly one. *)
Lemma apply_limit_removes_more_than_one :
  Guard._apply_limit "SELECT 1;;" 5 = "SELECT 1 LIMIT 5" /\
  applyLimit "SELECT 1;;" 5 = "SELECT 1; LIMIT 5" /\
  Guard._apply_limit "SELECT 1;;" 5 <> applyLimit "SELECT 1;;" 5.
Proof. vm_compute. repeat split. discriminate. Qed.

Example apply_limit_appends :
  Guard._apply_limit "SELECT * FROM t;" 100 = "SELECT * FROM t LIMIT 100".
Proof. vm_compute. reflexivity. Qed.

(** LIMIT is looked for as a piece of text: inside an identifier it counts. *)
Example apply_limit_identifier :
  Guard._apply_limit "select limit_value from t" 100 = "select limit_value from t".
Proof. vm_compute. reflexivity. Qed.

End LimitFacts.

(** ** Heap and dictionaries *)

Section HeapFacts.

Lemma alloc_all_spec (raw : list (pydict value)) (h : heap) :
  alloc_all raw h = (seq (length h) (length raw), h ++ raw).
Proof.
  revert h. induction raw as [|d raw IH]; intros h; simpl.
  - rewrite app_nil_r. reflexivity.
  - rewrite IH. rewrite length_app. simpl. rewrite Nat.add_1_r.
    rewrite <- app_assoc. reflexivity.
Qed.

Lemma deref_app_l (h new : heap) (l : loc) :
  (l < length h)%nat -> deref (h ++ new) l = deref h l.
Proof. intros Hl. unfold deref. rewrite lookup_app_l by exact Hl. reflexivity. Qed.

Lemma deref_alloc (h : heap) (d : pydict value) : deref (h ++ [d]) (length h) = d.
Proof. unfold deref. rewrite list_lookup_middle by reflexivity. reflexivity. Qed.

End HeapFacts.

Section DictFacts.
Context {V : Type}.
Implicit Types (d : pydict V) (k : string) (v : V).

Lemma get_set_eq k v d : PyDict.get k (PyDict.set k v d) = Some v.
Proof.
  induction d as [|[k' v'] d IH]; simpl.
  - rewrite String.eqb_refl. reflexivity.
  - destruct (String.eqb k k') eqn:E; simpl; rewrite ?String.eqb_refl, ?E; auto.
Qed.

Lemma get_set_ne k k' v d : k <> k' -> PyDict.get k' (PyDict.set k v d) = PyDict.get k' d.
Proof.
  intros Hne. induction d as [|[k0 v0] d IH]; simpl.
  - destruct (String.eqb k' k) eqn:E; [apply String.eqb_eq in E; congruence|reflexivity].
  - destruct (String.eqb k k0) eqn:E; simpl.
    + apply String.eqb_eq in E as <-.
      destruct (String.eqb k' k) eqn:E'; [apply String.eqb_eq in E'; congruence|reflexivity].
    + rewrite IH. reflexivity.
Qed.

Lemma get_none_not_in k d : PyDict.get k d = None <-> ~ In k (PyDict.keys d).
Proof.
  induction d as [|[k' v'] d IH]; simpl; [tauto|].
  destruct (String.eqb k k') eqn:E.
  - apply String.eqb_eq in E as ->. split; [discriminate|tauto].
  - apply String.eqb_neq in E. rewrite IH. split; [intros ? [?|?]; congruence|tauto].
Qed.

(** A new key goes last. *)
Lemma set_fresh k v d : PyDict.get k d = None -> PyDict.set k v d = d ++ [(k, v)].
Proof.
  induction d as [|[k' v'] d IH]; simpl; [reflexivity|].
  destruct (String.eqb k k'); [discriminate|]. intros Hn. rewrite IH by exact Hn. reflexivity.
Qed.

(** Assigning twice to a key is assigning the last value. *)
Lemma set_set k v v' d : PyDict.set k v (PyDict.set k v' d) = PyDict.set k v d.
Proof.
  induction d as [|[k0 v0] d IH]; simpl.
  - rewrite String.eqb_refl. reflexivity.
  - destruct (String.eqb k k0) eqn:E; simpl; rewrite ?String.eqb_refl, ?E, ?IH; reflexivity.
Qed.

Lemma del_set_fresh k v d : PyDict.get k d = None -> PyDict.del k (PyDict.set k v d) = d.
Proof.
  induction d as [|[k' v'] d IH]; simpl.
  - rewrite String.eqb_refl. reflexivity.
  - destruct (String.eqb k k') eqn:E; [discriminate|]. intros Hn. simpl. rewrite E, IH by exact Hn.
    reflexivity.
Qed.

Lemma keys_set_present k v d :
  PyDict.get k d <> None -> PyDict.keys (PyDict.set k v d) = PyDict.keys d.
Proof.
  induction d as [|[k' v'] d IH]; simpl; [congruence|].
  destruct (String.eqb k k') eqn:E; simpl.
  - apply String.eqb_eq in E as ->. reflexivity.
  - intros Hn. rewrite IH by exact Hn. reflexivity.
Qed.

Lemma has_true k d : PyDict.has k d = true <-> PyDict.get k d <> None.
Proof. unfold PyDict.has. destruct (PyDict.get k d); split; congruence. Qed.

Lemma has_false k d : PyDict.has k d = false <-> PyDict.get k d = None.
Proof. unfold PyDict.has. destruct (PyDict.get k d); split; congruence. Qed.

End DictFacts.

(** ** Result formatter *)

Section FormatterFacts.
Context `{Runtime}.

(** C9: whatever the columns, an empty row list formats to the text
    [No results found.] as a table, to the empty text as csv, and to the
    empty row list itself as json. *)
Theorem format_no_rows (h : heap) (columns : list string) :
  Formatter._format_results h [] columns "table" = Ok (FText "No results found.") /\
  Formatter._format_results h [] columns "csv" = Ok (FText "") /\
  Formatter._format_results h [] columns "json" = Ok (FRows []).
Proof. repeat split. Qed.

(** Only the row list itself is ever returned as rows. *)
Lemma format_results_rows (h : heap) (rows : list loc) (columns : list string)
    (format : string) (rows' : list loc) :
  Formatter._format_results h rows columns format = Ok (FRows rows') -> rows' = rows.
Proof.
  unfold Formatter._format_results. intros Hf.
  repeat case_match; simplify_eq; reflexivity.
Qed.

Lemma format_results_json (h : heap) (rows : list loc) (columns : list string) :
  Formatter._format_results h rows columns "json" = Ok (FRows rows).
Proof. reflexivity. Qed.

End FormatterFacts.

(** ** Adapters *)

Section AdapterFacts.
Context `{Runtime}.

Lemma extends_refl (a : adapter) (w : world) : extends a a w w [].
Proof. unfold extends. rewrite app_nil_r. auto 10. Qed.

Lemma extends_trans (a a1 a2 : adapter) (w w1 w2 : world) (n1 n2 : heap) :
  extends a a1 w w1 n1 -> extends a1 a2 w1 w2 n2 -> extends a a2 w w2 (n1 ++ n2).
Proof.
  unfold extends. intros (Ho & Hf & Hc & Hn & Ht & Hp) (Ho' & Hf' & Hc' & Hn' & Ht' & Hp').
  rewrite Ho', Ho, app_assoc. repeat split; congruence.
Qed.

Lemma sql_tool_connect_frame (a a' : adapter) (w w' : world) (out : res unit) :
  Adapter.sql_tool_connect a w = (a', w', out) ->
  extends a a' w w' [] /\ (forall u, out = Ok u -> _is_connected a' = true).
Proof.
  unfold Adapter.sql_tool_connect, extends. intros Hc.
  repeat case_match; simplify_eq; simpl; rewrite app_nil_r;
    (split; [auto 10|]); intros; simplify_eq; auto.
Qed.

Lemma snowflake_tool_connect_frame (a a' : adapter) (w w' : world) (out : res unit) :
  Adapter.snowflake_tool_connect a w = (a', w', out) ->
  extends a a' w w' [] /\ (forall u, out = Ok u -> _is_connected a' = true).
Proof.
  unfold Adapter.snowflake_tool_connect, extends. intros Hc.
  repeat case_match; simplify_eq; simpl; rewrite app_nil_r;
    (split; [auto 10|]); intros; simplify_eq; auto.
Qed.

Lemma connect_frame (a a' : adapter) (w w' : world) (out : res unit) :
  Adapter.connect a w = (a', w', out) ->
  extends a a' w w' [] /\ (forall u, out = Ok u -> _is_connected a' = true).
Proof.
  unfold Adapter.connect. destruct (Adapter.is_snowflake a);
    [apply snowflake_tool_connect_frame|apply sql_tool_connect_frame].
Qed.

(** The connection step at the head of both [execute] methods. *)
Lemma ensure_connected_frame (a a' : adapter) (w w' : world) (out : res unit)
    (conn : adapter -> world -> adapter * world * res unit) :
  (forall a0 a1 w0 w1 o, conn a0 w0 = (a1, w1, o) ->
     extends a0 a1 w0 w1 [] /\ (forall u, o = Ok u -> _is_connected a1 = true)) ->
  (if _is_connected a then (a, w, Ok tt) else conn a w) = (a', w', out) ->
  extends a a' w w' [] /\ (forall u, out = Ok u -> _is_connected a' = true).
Proof.
  intros Hconn. destruct (_is_connected a) eqn:Hc.
  - intros [= <- <- <-]. split; [apply extends_refl|auto].
  - apply Hconn.
Qed.

Lemma sql_execute_query_heap (a a' : adapter) (w w' : world) (q : string) (timeout : Z)
    (out : res (list loc * list string)) :
  Adapter.sql_execute_query a w q timeout = (a', w', out) ->
  exists new, extends a a' w w' new /\ returns_new_rows w new out.
Proof.
  unfold Adapter.sql_execute_query, returns_new_rows. intros He.
  destruct (Adapter.sql_tool_connect a w) as [[a1 w1] [[]|e]] eqn:Hc;
    apply sql_tool_connect_frame in Hc as [Hext _].
  2:{ simplify_eq. exists []. split; [exact Hext|]. intros; discriminate. }
  pose proof Hext as (Ho & _).  rewrite app_nil_r in Ho.
  destruct (sql_run _ _ _ _ _) as [d [msg|[raw names]]].
  - simplify_eq. exists []. split; [|intros; discriminate].
    destruct Hext as (? & ? & ? & ? & ? & ?). unfold extends. simpl. auto 10.
  - rewrite alloc_all_spec in He. simplify_eq. exists raw. split.
    + destruct Hext as (? & ? & ? & ? & ? & ?). unfold extends. simpl.
      rewrite Ho. auto 10.
    + intros rows cols [= <- _]. rewrite Ho. reflexivity.
Qed.

Lemma snowflake_execute_query_heap (a a' : adapter) (w w' : world) (q : string)
    (timeout : Z) (warehouse : option string) (use_cached_result : bool)
    (out : res (list loc * list string)) :
  Adapter.snowflake_execute_query a w q timeout warehouse use_cached_result = (a', w', out) ->
  exists new, extends a a' w w' new /\ returns_new_rows w new out.
Proof.
  unfold Adapter.snowflake_execute_query, returns_new_rows. intros He.
  destruct (Adapter.snowflake_tool_connect a w) as [[a1 w1] [[]|e]] eqn:Hc;
    apply snowflake_tool_connect_frame in Hc as [Hext _].
  2:{ simplify_eq. exists []. split; [exact Hext|]. intros; discriminate. }
  pose proof Hext as (Ho & _).  rewrite app_nil_r in Ho.
  destruct (snowflake_run _ _ _ _ _ _) as [d [msg|[raw names]]].
  - simplify_eq. exists []. split; [|intros; discriminate].
    destruct Hext as (? & ? & ? & ? & ? & ?). unfold extends. simpl. auto 10.
  - rewrite alloc_all_spec in He. simplify_eq. exists raw. split.
    + destruct Hext as (? & ? & ? & ? & ? & ?). unfold extends. simpl.
      rewrite Ho. auto 10.
    + intros rows cols [= <- _]. rewrite Ho. reflexivity.
Qed.

Lemma execute_query_heap (a a' : adapter) (w w' : world) (q : string) (timeout : Z)
    (out : res (list loc * list string)) :
  Adapter.execute_query a w q timeout = (a', w', out) ->
  exists new, extends a a' w w' new /\ returns_new_rows w new out.
Proof.
  unfold Adapter.execute_query. destruct (Adapter.is_snowflake a);
    [apply snowflake_execute_query_heap|apply sql_execute_query_heap].
Qed.

(** The part both [execute] methods share, after the connection step and
    the validation: run, format, build the result. *)
Lemma execute_tail_heap (a1 a2 a' : adapter) (w w1 w2 w' : world) (new : heap)
    (format : string) (qr : res (list loc * list string)) (out : res query_result)
    (mk : list loc -> list string -> formatted -> query_result) :
  objs w1 = objs w ->
  extends a1 a2 w1 w2 new -> returns_new_rows w1 new qr ->
  (forall rows cols f, row_count (mk rows cols f) = length rows /\
                       results (mk rows cols f) = f) ->
  Adapter.reraise
    match qr with
    | Raise e => (a2, w2, Raise e)
    | Ok (rows, cols) =>
        match Formatter._format_results (objs w2) rows cols format with
        | Raise e => (a2, w2, Raise e)
        | Ok formatted_results => (a2, w2, Ok (mk rows cols formatted_results))
        end
    end = (a', w', out) ->
  a' = a2 /\ w' = w2 /\ result_rows_new w new format out.
Proof.
  intros Ho Hext Hrows Hmk He. unfold result_rows_new.
  destruct qr as [[rows cols]|e]; [|cbn in He; simplify_eq; repeat split; intros; discriminate].
  specialize (Hrows rows cols eq_refl). rewrite Ho in Hrows.
  destruct (Formatter._format_results (objs w2) rows cols format) as [f|e] eqn:Hf;
    cbn in He; simplify_eq; (split; [reflexivity|]); (split; [reflexivity|]);
    [|intros; discriminate].
  intros r [= <-]. destruct (Hmk (seq (length (objs w)) (length new)) cols f) as [-> ->].
  split; [apply length_seq|]. split.
  - intros rows' ->. apply format_results_rows in Hf. exact Hf.
  - intros ->. rewrite format_results_json in Hf. injection Hf as <-. eauto.
Qed.

Lemma base_execute_heap (a a' : adapter) (w w' : world) (q : string) (limit : Z)
    (format : string) (timeout : Z) (out : res query_result) :
  Adapter.base_execute a w q limit format timeout = (a', w', out) ->
  exists new, extends a a' w w' new /\ result_rows_new w new format out.
Proof.
  unfold Adapter.base_execute. intros He.
  destruct (if _is_connected a then _ else _) as [[a1 w1] [[]|e]] eqn:Hc;
    apply (ensure_connected_frame _ _ _ _ _ Adapter.connect connect_frame) in Hc as [Hext _].
  2:{ cbn in He. simplify_eq. exists []. split; [exact Hext|]. intros r Hr; discriminate. }
  destruct (Guard._validate_query q) as [[]|e].
  2:{ cbn in He. simplify_eq. exists []. split; [exact Hext|]. intros r Hr; discriminate. }
  cbv zeta in He.
  destruct (Adapter.execute_query a1 w1 _ timeout) as [[a2 w2] qr] eqn:Hq.
  apply execute_query_heap in Hq as (new & Hext2 & Hrows).
  pose proof Hext as (Ho & _). rewrite app_nil_r in Ho.
  assert (Adapter.reraise
            match qr with
            | Raise e => (a2, w2, Raise e)
            | Ok (rows, cols) =>
                match Formatter._format_results (objs w2) rows cols format with
                | Raise e => (a2, w2, Raise e)
                | Ok formatted_results =>
                    (a2, w2,
                     Ok ((fun rows cols f =>
                            {| query := Adapter.apply_limit a1 q limit;
                               row_count := length rows; columns := cols; results := f;
                               meta := {| md_database_type := name a2;
                                          md_limit_applied := limit; md_format := format;
                                          md_snowflake := None |};
                               connection_name := None; connection_type := None |})
                           rows cols formatted_results))
                end
            end = (a', w', out)) as He'.
  { rewrite <- He. destruct qr as [[rows cols]|e]; reflexivity. }
  eapply execute_tail_heap in He' as (-> & -> & Hres); eauto.
  exists new. split; [|exact Hres].
  pose proof (extends_trans _ _ _ _ _ _ _ _ Hext Hext2) as Ht. exact Ht.
Qed.

Lemma snowflake_execute_heap (a a' : adapter) (w w' : world) (q : string) (limit : Z)
    (format : string) (timeout : Z) (warehouse : option string) (use_cached_result : bool)
    (out : res query_result) :
  Adapter.snowflake_execute a w q limit format timeout warehouse use_cached_result
  = (a', w', out) ->
  exists new, extends a a' w w' new /\ result_rows_new w new format out.
Proof.
  unfold Adapter.snowflake_execute. intros He.
  destruct (if _is_connected a then _ else _) as [[a1 w1] [[]|e]] eqn:Hc;
    apply (ensure_connected_frame _ _ _ _ _ Adapter.snowflake_tool_connect
             snowflake_tool_connect_frame) in Hc as [Hext _].
  2:{ cbn in He. simplify_eq. exists []. split; [exact Hext|]. intros r Hr; discriminate. }
  destruct (Guard._validate_query q) as [[]|e].
  2:{ cbn in He. simplify_eq. exists []. split; [exact Hext|]. intros r Hr; discriminate. }
  cbv zeta in He.
  destruct (Adapter.snowflake_execute_query a1 w1 _ timeout _ _) as [[a2 w2] qr] eqn:Hq.
  apply snowflake_execute_query_heap in Hq as (new & Hext2 & Hrows).
  pose proof Hext as (Ho & _). rewrite app_nil_r in Ho.
  assert (Adapter.reraise
            match qr with
            | Raise e => (a2, w2, Raise e)
            | Ok (rows, cols) =>
                match Formatter._format_results (objs w2) rows cols format with
                | Raise e => (a2, w2, Raise e)
                | Ok formatted_results =>
                    (a2, w2,
                     Ok ((fun rows cols f =>
                            {| query := Guard.snowflake_apply_limit q limit;
                               row_count := length rows; columns := cols; results := f;
                               meta := {| md_database_type := name a2;
                                          md_limit_applied := limit; md_format := format;
                                          md_snowflake := Some (warehouse, use_cached_result) |};
                               connection_name := None; connection_type := None |})
                           rows cols formatted_results))
                end
            end = (a', w', out)) as He'.
  { rewrite <- He. destruct qr as [[rows cols]|e]; reflexivity. }
  eapply execute_tail_heap in He' as (-> & -> & Hres); eauto.
  exists new. split; [|exact Hres].
  pose proof (extends_trans _ _ _ _ _ _ _ _ Hext Hext2) as Ht. exact Ht.
Qed.

End AdapterFacts.

Section RowCount.
Context `{Runtime}.

(** C7: when [execute] succeeds, be it the one of the SQL adapters or the
    one of the Snowflake adapter, and whatever the format, [row_count] is the
    number of rows the driver returned for the rewritten query, run in the
    state the connection step has left; the rewritten query is the one the
    result reports. *)
Theorem row_count_is_raw_row_count (a : adapter) (w : world) (q : string) (limit : Z)
    (format : string) (timeout : Z) (warehouse : option string) (use_cached_result : bool) :
  (forall a' w' r,
     Adapter.base_execute a w q limit format timeout = (a', w', Ok r) ->
     let connected := if _is_connected a then (a, w, Ok tt) else Adapter.connect a w in
     exists raw names,
       driver_run a (deref (objs w) (connection_params a))
         (Adapter.apply_limit a q limit) timeout (dbs (snd (fst connected)))
       = (dbs w', inr (raw, names)) /\
       query r = Adapter.apply_limit a q limit /\
       row_count r = length raw) /\
  (forall a' w' r,
     Adapter.snowflake_execute a w q limit format timeout warehouse use_cached_result
     = (a', w', Ok r) ->
     let connected :=
       if _is_connected a then (a, w, Ok tt) else Adapter.snowflake_tool_connect a w in
     exists raw names,
       snowflake_run (deref (objs w) (connection_params a)) warehouse use_cached_result
         (Guard.snowflake_apply_limit q limit) timeout (dbs (snd (fst connected)))
       = (dbs w', inr (raw, names)) /\
       query r = Guard.snowflake_apply_limit q limit /\
       row_count r = length raw).
Proof.
  split.
  - intros a' w' r. unfold Adapter.base_execute. intros He.
    destruct (if _is_connected a then _ else _) as [[a1 w1] [[]|e]] eqn:Hc;
      [|cbn in He; simplify_eq]. cbn [fst snd].
    apply (ensure_connected_frame _ _ _ _ _ Adapter.connect connect_frame) in Hc
      as [(Ho & _ & Hcls & _ & Hty & Hp) Hcon].
    rewrite app_nil_r in Ho. specialize (Hcon tt eq_refl).
    destruct (Guard._validate_query q) as [[]|e]; [|cbn in He; simplify_eq].
    assert (Adapter.is_snowflake a1 = Adapter.is_snowflake a) as Hsf.
    { unfold Adapter.is_snowflake. rewrite Hcls. reflexivity. }
    cbv zeta in He.
    unfold Adapter.apply_limit, Adapter.execute_query, Adapter.sql_execute_query,
      Adapter.snowflake_execute_query, Adapter.sql_tool_connect,
      Adapter.snowflake_tool_connect in He.
    rewrite Hcon, Hsf in He. unfold driver_run, Adapter.apply_limit.
    rewrite <- Ho, <- Hp, <- Hty.
    destruct (Adapter.is_snowflake a).
    + destruct (snowflake_run _ _ _ _ _ _) as [d [msg|[raw names]]] eqn:Hrun;
        [cbn in He; simplify_eq|].
      rewrite alloc_all_spec in He. exists raw, names.
      destruct (Formatter._format_results _ _ _ _); cbn in He; simplify_eq. simpl.
      rewrite length_seq. auto.
    + destruct (sql_run _ _ _ _ _) as [d [msg|[raw names]]] eqn:Hrun;
        [cbn in He; simplify_eq|].
      rewrite alloc_all_spec in He. exists raw, names.
      destruct (Formatter._format_results _ _ _ _); cbn in He; simplify_eq. simpl.
      rewrite length_seq. auto.
  - intros a' w' r. unfold Adapter.snowflake_execute. intros He.
    destruct (if _is_connected a then _ else _) as [[a1 w1] [[]|e]] eqn:Hc;
      [|cbn in He; simplify_eq]. cbn [fst snd].
    apply (ensure_connected_frame _ _ _ _ _ Adapter.snowflake_tool_connect
             snowflake_tool_connect_frame) in Hc as [(Ho & _ & _ & _ & _ & Hp) Hcon].
    rewrite app_nil_r in Ho. specialize (Hcon tt eq_refl).
    destruct (Guard._validate_query q) as [[]|e]; [|cbn in He; simplify_eq].
    cbv zeta in He.
    unfold Adapter.snowflake_execute_query, Adapter.snowflake_tool_connect in He.
    rewrite Hcon in He. rewrite <- Ho, <- Hp.
    destruct (snowflake_run _ _ _ _ _ _) as [d [msg|[raw names]]] eqn:Hrun;
      [cbn in He; simplify_eq|].
    rewrite alloc_all_spec in He. exists raw, names.
    destruct (Formatter._format_results _ _ _ _); cbn in He; simplify_eq. simpl.
    rewrite length_seq. auto.
Qed.

End RowCount.

(** A SQLite adapter answers [SELECT 1 as one] in table format with one row. *)
Lemma row_count_is_raw_row_count_witness :
  exists raw names,
    @driver_run Demo.runtime (Demo.sqlite_adapter 0)
      (deref (@objs Demo.runtime Demo.world0) 0)
      "SELECT 1 as one LIMIT 100" 30 tt = (tt, inr (raw, names)) /\
    "SELECT 1 as one LIMIT 100" = "SELECT 1 as one LIMIT 100" /\
    1%nat = length raw.
Proof.
  exact (proj1 (@row_count_is_raw_row_count Demo.runtime (Demo.sqlite_adapter 0) Demo.world0
                  "SELECT 1 as one" 100 "table" 30 None true) _ _ _ eq_refl).
Defined.

(** The end-to-end example of the specification: one row, one column, and
    the table around them. *)
Example execute_select_one :
  snd (@Adapter.base_execute Demo.runtime (Demo.sqlite_adapter 0) Demo.world0
         "SELECT 1 as one" 100 "table" 30)
  = Ok {| query := "SELECT 1 as one LIMIT 100";
          row_count := 1;
          columns := ["one"];
          results := FText (PyStr.join Formatter.nl
                              ["+-----+"; "| one |"; "+-----+"; "| 1   |"; "+-----+"]);
          meta := {| md_database_type := "sql_database_sqlite"; md_limit_applied := 100;
                     md_format := "table"; md_snowflake := None |};
          connection_name := None;
          connection_type := None |}.
Proof. vm_compute. reflexivity. Qed.

(** The Snowflake tool on the same query, with a warehouse and in json. *)
Example snowflake_execute_select_one :
  snd (@Adapter.snowflake_execute Demo.runtime (Demo.snowflake_adapter 0) Demo.world0
         "SELECT 1 as one" 100 "json" 30 (Some "WH") false)
  = Ok {| query := "SELECT 1 as one LIMIT 100";
          row_count := 1;
          columns := ["one"];
          results := FRows [2%nat];
          meta := {| md_database_type := "snowflake"; md_limit_applied := 100;
                     md_format := "json"; md_snowflake := Some (Some "WH", false) |};
          connection_name := None;
          connection_type := None |}.
Proof. vm_compute. reflexivity. Qed.

(** ** Dispatcher *)

Section ManagerFacts.
Context `{Runtime}.
Import GuardSpec.

(** C5: for a name that is not registered, [execute] raises a connection
    error and leaves the manager and the world as they were, so that no
    adapter ran; for a registered name, whatever the [execute] of the adapter
    raises comes out as a query error whose message names the connection, and
    nothing else is ever raised. *)
Theorem execute_error_kinds (m : Manager.manager) (w : world) (cname q : string)
    (limit : Z) (format : string) (timeout : Z) (kw : kwargs) :
  (PyDict.get cname (Manager.connections m) = None ->
     Manager.execute m w cname q limit format timeout kw
     = (m, w, Raise (DatabaseConnectionError ("Unknown connection: " +:+ cname)))) /\
  (forall tool a' w' cause,
     PyDict.get cname (Manager.connections m) = Some tool ->
     Manager.tool_execute tool w q limit format timeout kw = (a', w', Raise cause) ->
     exists m',
       Manager.execute m w cname q limit format timeout kw
       = (m', w', Raise (DatabaseQueryError
                           ("Query failed on " +:+ cname +:+ ": " +:+ exn_msg cause)))) /\
  (forall tool m' w' e,
     PyDict.get cname (Manager.connections m) = Some tool ->
     Manager.execute m w cname q limit format timeout kw = (m', w', Raise e) ->
     exists msg, e = DatabaseQueryError msg /\ occurs cname msg).
Proof.
  unfold Manager.execute. repeat split.
  - intros ->. reflexivity.
  - intros tool a' w' cause -> ->. eexists. reflexivity.
  - intros tool m' w' e ->.
    destruct (Manager.tool_execute tool w q limit format timeout kw)
      as [[a' w1] [r|cause]]; intros He; simplify_eq.
    eexists. split; [reflexivity|].
    exists "Query failed on ", (": " +:+ exn_msg cause). reflexivity.
Qed.

(** A failing statement on a registered connection, and an unknown name. *)
Example execute_errors :
  snd (@Manager.execute Demo.runtime Demo.manager0 Demo.world0 "A" "SELECT nosuch" 100
         "table" 30 no_kwargs)
  = Raise (DatabaseQueryError
             "Query failed on A: Query execution failed: Query execution failed: no such table")
  /\ snd (@Manager.execute Demo.runtime Demo.manager0 Demo.world0 "C" "SELECT 1" 100
            "table" 30 no_kwargs)
     = Raise (DatabaseConnectionError "Unknown connection: C").
Proof. vm_compute. split; reflexivity. Qed.

End ManagerFacts.

(** ** Config tool: listing *)

Section ListFacts.
Context `{Runtime}.
Import ConfigSpec.

Import Config.

Lemma redact_step_keys (c : pydict value) (k : string) :
  PyDict.keys (redact_step c k) = PyDict.keys c.
Proof.
  unfold redact_step. destruct (PyDict.has k c) eqn:Hh; [|reflexivity].
  apply keys_set_present, has_true, Hh.
Qed.

Lemma redact_step_get_eq (c : pydict value) (k : string) :
  PyDict.get k c <> None -> PyDict.get k (redact_step c k) = Some (VStr "***hidden***").
Proof.
  intros Hk. unfold redact_step. rewrite (proj2 (has_true k c) Hk). apply get_set_eq.
Qed.

Lemma redact_step_get_ne (c : pydict value) (k k' : string) :
  k <> k' -> PyDict.get k' (redact_step c k) = PyDict.get k' c.
Proof.
  intros Hne. unfold redact_step. destruct (PyDict.has k c); [|reflexivity].
  apply get_set_ne, Hne.
Qed.

Lemma redact_step_hidden (c : pydict value) (k k' : string) :
  PyDict.get k' c = Some (VStr "***hidden***") ->
  PyDict.get k' (redact_step c k) = Some (VStr "***hidden***").
Proof.
  intros Hk'. destruct (String.eqb_spec k k') as [->|Hne].
  - apply redact_step_get_eq. congruence.
  - rewrite redact_step_get_ne by exact Hne. exact Hk'.
Qed.

(** A redacted descriptor shows the placeholder under every secret-bearing
    key it has. *)
Lemma redact_hides (c : pydict value) (k : string) :
  In k Config.sensitive_keys -> PyDict.get k c <> None ->
  PyDict.get k (Config.redact c) = Some (VStr "***hidden***").
Proof.
  unfold Config.redact, Config.sensitive_keys. cbn [fold_left].
  intros Hin Hk. destruct Hin as [<-|[<-|[<-|[]]]].
  - do 2 apply redact_step_hidden. apply redact_step_get_eq, Hk.
  - apply redact_step_hidden. apply redact_step_get_eq.
    rewrite redact_step_get_ne by discriminate. exact Hk.
  - apply redact_step_get_eq. rewrite !redact_step_get_ne by discriminate. exact Hk.
Qed.

(** Every other key keeps its value. *)
Lemma redact_keeps (c : pydict value) (k : string) :
  ~ In k Config.sensitive_keys -> PyDict.get k (Config.redact c) = PyDict.get k c.
Proof.
  unfold Config.redact, Config.sensitive_keys. cbn [fold_left].
  intros Hno. rewrite !redact_step_get_ne; [reflexivity|..];
    intros <-; apply Hno; simpl; tauto.
Qed.

Lemma same_outside_drop (k : string) (S : list string) (c1 c2 : pydict value) :
  ~ In k (PyDict.keys c1) -> same_outside (k :: S) c1 c2 -> same_outside S c1 c2.
Proof.
  intros Hk Hs. induction Hs as [|[k1 v1] [k2 v2] c1 c2 [Hkk Hv] Hs IH]; [constructor|].
  simpl in *. constructor.
  - simpl. split; [exact Hkk|]. destruct Hv as [[->|Hin]|Hv]; [tauto|auto|auto].
  - apply IH. tauto.
Qed.

Lemma same_outside_has (k : string) (S : list string) (c1 c2 : pydict value) :
  same_outside S c1 c2 -> PyDict.has k c1 = PyDict.has k c2.
Proof.
  unfold PyDict.has.
  induction 1 as [|[k1 v1] [k2 v2] c1 c2 [Hkk Hv] Hs IH]; [reflexivity|].
  simpl in *. subst k2. destruct (String.eqb k k1); [reflexivity|exact IH].
Qed.

Lemma same_outside_set (k : string) (S : list string) (v : value) (c1 c2 : pydict value) :
  PyDict.wf c1 -> same_outside (k :: S) c1 c2 ->
  same_outside S (PyDict.set k v c1) (PyDict.set k v c2).
Proof.
  unfold PyDict.wf.
  intros Hwf Hs. induction Hs as [|[k1 v1] [k2 v2] c1 c2 [Hkk Hv] Hs IH].
  - constructor; [simpl; auto|constructor].
  - simpl in Hkk. subst k2. simpl in Hwf. apply List.NoDup_cons_iff in Hwf as [Hk1 Hwf].
    simpl. destruct (String.eqb_spec k k1) as [->|Hne].
    + constructor; [simpl; auto|]. eapply same_outside_drop; eauto.
    + constructor; [|apply IH, Hwf]. simpl in *. split; [reflexivity|].
      destruct Hv as [[Hk|Hin]|Hv]; [congruence|auto|auto].
Qed.

(** One step of the redaction makes two descriptors agree under its key. *)
Lemma same_outside_step (k : string) (S : list string) (c1 c2 : pydict value) :
  PyDict.wf c1 -> same_outside (k :: S) c1 c2 ->
  same_outside S (redact_step c1 k) (redact_step c2 k).
Proof.
  intros Hwf Hs. unfold redact_step. rewrite <- (same_outside_has k _ _ _ Hs).
  destruct (PyDict.has k c1) eqn:Hh.
  - apply same_outside_set; assumption.
  - eapply same_outside_drop; [|exact Hs]. apply get_none_not_in, has_false, Hh.
Qed.

Lemma same_outside_nil (c1 c2 : pydict value) : same_outside [] c1 c2 -> c1 = c2.
Proof.
  induction 1 as [|[k1 v1] [k2 v2] c1 c2 [Hkk Hv] Hs IH]; [reflexivity|].
  simpl in *. destruct Hv as [[]| Hv]. subst. reflexivity.
Qed.

(** Descriptors that differ in their secrets only are redacted to the same. *)
Lemma redact_same (c1 c2 : pydict value) :
  PyDict.wf c1 -> same_outside Config.sensitive_keys c1 c2 ->
  Config.redact c1 = Config.redact c2.
Proof.
  unfold Config.redact, Config.sensitive_keys. cbn [fold_left].
  intros Hwf Hs. apply same_outside_nil.
  apply same_outside_step; [unfold PyDict.wf; rewrite !redact_step_keys; exact Hwf|].
  apply same_outside_step; [unfold PyDict.wf; rewrite !redact_step_keys; exact Hwf|].
  apply same_outside_step; [exact Hwf|exact Hs].
Qed.

(** Assigning the entries of a dictionary, in order, to an empty one
    rebuilds it. *)
Lemma fold_set_fresh {A B : Type} (f : string * A -> B) (l : list (string * A))
    (acc : pydict B) :
  List.NoDup (PyDict.keys acc ++ PyDict.keys l) ->
  fold_left (fun a kv => PyDict.set (fst kv) (f kv) a) l acc
  = acc ++ map (fun kv => (fst kv, f kv)) l.
Proof.
  revert acc. induction l as [|[k v] l IH]; intros acc Hnd; simpl.
  - rewrite app_nil_r. reflexivity.
  - assert (PyDict.get k acc = None) as Hk.
    { apply get_none_not_in. intros Hin. apply List.NoDup_remove_2 in Hnd.
      apply Hnd, in_or_app. left. exact Hin. }
    rewrite set_fresh by exact Hk. rewrite IH.
    + rewrite <- app_assoc. reflexivity.
    + unfold PyDict.keys in *. rewrite map_app, <- app_assoc. exact Hnd.
Qed.

Lemma list_connections_view (t : Config.config_tool) (w : world) :
  listed (Config._list_connections t w)
  = fold_left (fun a e => PyDict.set (fst e) (snd e) a)
      (map (fun e => (fst e, Config.redact (snd e)))
         (Config.view (Config.database_configs t) (objs w))) [].
Proof.
  unfold Config._list_connections, Config.view. cbn [listed].
  generalize (@nil (string * pydict value)).
  induction (Config.database_configs t) as [|[n l] s IH]; intros acc; [reflexivity|].
  simpl. apply IH.
Qed.

Lemma list_connections_eta (t : Config.config_tool) (w : world) :
  Config._list_connections t w
  = {| total_connections := length (listed (Config._list_connections t w));
       listed := listed (Config._list_connections t w) |}.
Proof. reflexivity. Qed.

Lemma redact_view_same (s1 s2 : pydict (pydict value)) :
  (forall n c, In (n, c) s1 -> PyDict.wf c) ->
  same_but_secrets s1 s2 ->
  map (fun e => (fst e, Config.redact (snd e))) s2
  = map (fun e => (fst e, Config.redact (snd e))) s1.
Proof.
  intros Hwf Hsame.
  induction Hsame as [|[n1 c1] [n2 c2] s1 s2 [Hn Hc] Hs IH]; [reflexivity|].
  simpl in *. subst n2. rewrite IH by (intros n c Hin; apply (Hwf n c); right; exact Hin).
  rewrite (redact_same c1 c2); [reflexivity| |exact Hc].
  apply (Hwf n1 c1). left. reflexivity.
Qed.

(** C6: [_list_connections] lists every descriptor of the store, in order,
    with the placeholder under each of the keys [password], [private_key] and
    [private_key_passphrase] that it has and every other field as stored; and
    two stores that differ only in the values of those fields are listed
    alike, so that nothing of a secret's value reaches the output. *)
Theorem list_connections_hides_secrets (t : Config.config_tool) (w : world) :
  PyDict.wf (Config.database_configs t) ->
  (forall n c, In (n, c) (Config.view (Config.database_configs t) (objs w)) -> PyDict.wf c) ->
  let out := Config._list_connections t w in
  total_connections out = length (Config.database_configs t) /\
  listed out = map (fun e => (fst e, Config.redact (snd e)))
                 (Config.view (Config.database_configs t) (objs w)) /\
  (forall c k, In k Config.sensitive_keys -> PyDict.get k c <> None ->
     PyDict.get k (Config.redact c) = Some (VStr "***hidden***")) /\
  (forall c k, ~ In k Config.sensitive_keys ->
     PyDict.get k (Config.redact c) = PyDict.get k c) /\
  (forall t2 w2,
     same_but_secrets (Config.view (Config.database_configs t) (objs w))
                      (Config.view (Config.database_configs t2) (objs w2)) ->
     Config._list_connections t2 w2 = out).
Proof.
  intros Hwf Hcs out.
  assert (listed out = map (fun e => (fst e, Config.redact (snd e)))
                         (Config.view (Config.database_configs t) (objs w))) as Hl.
  { unfold out. rewrite list_connections_view.
    rewrite (fold_set_fresh snd); [rewrite map_map; reflexivity|].
    simpl. unfold Config.view, PyDict.keys. rewrite !map_map. exact Hwf. }
  split; [|split; [exact Hl|split; [exact redact_hides|split; [exact redact_keeps|]]]].
  - change (total_connections out) with (length (listed out)).
    rewrite Hl. unfold Config.view. rewrite !length_map. reflexivity.
  - intros t2 w2 Hsame.
    assert (listed (Config._list_connections t2 w2) = listed out) as Heq.
    { unfold out. rewrite !list_connections_view.
      rewrite (redact_view_same _ _ Hcs Hsame). reflexivity. }
    unfold out. rewrite (list_connections_eta t2 w2), (list_connections_eta t w).
    fold out. rewrite Heq. reflexivity.
Qed.

End ListFacts.

(** Two stores whose one descriptor differs in the password are listed alike. *)
Lemma list_connections_hides_secrets_witness :
  @Config._list_connections Demo.runtime Demo.pg_tool (Demo.pg_world Demo.other_descriptor)
  = @Config._list_connections Demo.runtime Demo.pg_tool (Demo.pg_world Demo.postgres_descriptor).
Proof.
  refine (proj2 (proj2 (proj2 (proj2
    (@list_connections_hides_secrets Demo.runtime Demo.pg_tool
       (Demo.pg_world Demo.postgres_descriptor) _ _))))
    Demo.pg_tool (Demo.pg_world Demo.other_descriptor) _).
  - repeat constructor. simpl. tauto.
  - intros n c [[= <- <-]|[]]. repeat constructor; simpl; intuition discriminate.
  - repeat constructor; simpl; tauto.
Defined.

Example list_connections_pg :
  listed (@Config._list_connections Demo.runtime Demo.pg_tool
            (Demo.pg_world Demo.postgres_descriptor))
  = [("pg", [("database_type", VStr "postgresql"); ("host", VStr "localhost");
             ("port", VInt 5432); ("password", VStr "***hidden***")])].
Proof. reflexivity. Qed.

(** ** Config tool: the environment *)

Section SplitFacts.

Lemma split_nonempty (sep : ascii) (s : string) : PyStr.split sep s <> [].
Proof.
  destruct s as [|c r]; simpl; [discriminate|].
  destruct (ascii_dec c sep); [discriminate|].
  destruct (PyStr.split sep r); discriminate.
Qed.

Lemma join_cons_head (sep : string) (c : ascii) (p : string) (ps : list string) :
  PyStr.join sep (String c p :: ps) = String c (PyStr.join sep (p :: ps)).
Proof. destruct ps; reflexivity. Qed.

(** Joining the pieces of a split gives the text back. *)
Lemma join_split (s : string) : PyStr.join "_" (PyStr.split "_" s) = s.
Proof.
  induction s as [|c r IH]; [reflexivity|]. cbn [PyStr.split].
  pose proof (split_nonempty "_" r) as Hne.
  destruct (PyStr.split "_" r) as [|p ps]; [contradiction|].
  destruct (ascii_dec c "_") as [->|Hc].
  - change (PyStr.join "_" ("" :: p :: ps)) with ("_" +:+ PyStr.join "_" (p :: ps)).
    rewrite IH. reflexivity.
  - rewrite join_cons_head, IH. reflexivity.
Qed.

(** A piece without underscore is the first piece of what it starts. *)
Lemma split_first (n s : string) :
  PyStr.contains "_" n = false ->
  PyStr.split "_" (n +:+ "_" +:+ s) = n :: PyStr.split "_" s.
Proof.
  induction n as [|c n IH]; intros Hn.
  - reflexivity.
  - cbn [PyStr.contains] in Hn. apply orb_false_iff in Hn as [Hc Hn].
    rewrite sapp_cons. cbn [PyStr.split]. rewrite (IH Hn).
    destruct (ascii_dec c "_") as [->|_]; [|reflexivity].
    simpl in Hc. destruct n; discriminate Hc.
Qed.

Lemma split_env_key (v : ConfigSpec.env_var) :
  PyStr.contains "_" (ConfigSpec.ev_name v) = false ->
  PyStr.split "_" (ConfigSpec.env_key v)
  = "DB" :: ConfigSpec.ev_name v :: PyStr.split "_" (ConfigSpec.ev_setting v).
Proof.
  intros Hn. unfold ConfigSpec.env_key.
  change ("DB_" +:+ ConfigSpec.ev_name v +:+ "_" +:+ ConfigSpec.ev_setting v)
    with ("DB" +:+ "_" +:+ (ConfigSpec.ev_name v +:+ "_" +:+ ConfigSpec.ev_setting v)).
  rewrite (split_first "DB") by reflexivity. rewrite (split_first _ _ Hn). reflexivity.
Qed.

End SplitFacts.

Section EnvFacts.
Context `{Runtime}.
Import ConfigSpec.

(** What one variable of the pattern does to [db_vars]. *)
Lemma env_step_pattern (db_vars : pydict (pydict value)) (v : env_var) :
  PyStr.contains "_" (ev_name v) = false ->
  Config.env_step db_vars (env_key v, ev_value v)
  = let g := PyStr.lower (ev_name v) in
    let s := PyStr.lower (ev_setting v) in
    let db_vars1 := if PyDict.has g db_vars then db_vars else PyDict.set g [] db_vars in
    PyDict.set g (PyDict.set s (loaded_value s (ev_value v))
                    (default [] (PyDict.get g db_vars1))) db_vars1.
Proof.
  intros Hn. unfold Config.env_step.
  assert (PyStr.startswith (env_key v) "DB_" = true) as ->.
  { apply prefix_iff. eexists. reflexivity. }
  rewrite (split_env_key v Hn).
  pose proof (split_nonempty "_" (ev_setting v)) as Hne.
  assert (Nat.leb 3 (length ("DB" :: ev_name v :: PyStr.split "_" (ev_setting v))) = true) as ->.
  { destruct (PyStr.split "_" (ev_setting v)); [contradiction|reflexivity]. }
  change (("DB" :: ev_name v :: PyStr.split "_" (ev_setting v)) !! 1%nat)
    with (Some (ev_name v)).
  change (drop 2 ("DB" :: ev_name v :: PyStr.split "_" (ev_setting v)))
    with (PyStr.split "_" (ev_setting v)).
  cbn [default]. rewrite join_split. reflexivity.
Qed.

Lemma env_step_get (db_vars : pydict (pydict value)) (v : env_var) (g : string) :
  PyStr.contains "_" (ev_name v) = false ->
  PyDict.get g (Config.env_step db_vars (env_key v, ev_value v))
  = if String.eqb (PyStr.lower (ev_name v)) g
    then Some (PyDict.set (PyStr.lower (ev_setting v))
                 (loaded_value (PyStr.lower (ev_setting v)) (ev_value v))
                 (default [] (PyDict.get g db_vars)))
    else PyDict.get g db_vars.
Proof.
  intros Hn. rewrite (env_step_pattern _ _ Hn). cbv zeta.
  destruct (String.eqb_spec (PyStr.lower (ev_name v)) g) as [<-|Hne].
  - rewrite get_set_eq. f_equal. f_equal.
    destruct (PyDict.has _ db_vars) eqn:Hh; [reflexivity|].
    rewrite get_set_eq. apply has_false in Hh. rewrite Hh. reflexivity.
  - rewrite get_set_ne by exact Hne.
    destruct (PyDict.has _ db_vars); [reflexivity|]. apply get_set_ne, Hne.
Qed.

Lemma wf_set {V : Type} (k : string) (v : V) (d : pydict V) :
  PyDict.wf d -> PyDict.wf (PyDict.set k v d).
Proof.
  unfold PyDict.wf. intros Hwf. destruct (PyDict.get k d) eqn:Hg.
  - rewrite keys_set_present by congruence. exact Hwf.
  - rewrite set_fresh by exact Hg. unfold PyDict.keys. rewrite map_app. simpl.
    apply List.NoDup_app; [exact Hwf|repeat constructor; simpl; tauto|].
    intros x Hx [<-|[]]. apply get_none_not_in in Hg. contradiction.
Qed.

Lemma env_step_wf (db_vars : pydict (pydict value)) (kv : string * string) :
  PyDict.wf db_vars -> PyDict.wf (Config.env_step db_vars kv).
Proof.
  intros Hwf. unfold Config.env_step. destruct kv as [key val].
  repeat case_match; auto using wf_set.
Qed.

Lemma group_from_not_mentioned (d0 : pydict value) (g : string) (vars : list env_var) :
  mentioned g vars = false -> group_from d0 g vars = d0.
Proof.
  unfold mentioned, group_from. revert d0.
  induction vars as [|v vars IH]; intros d0; simpl; [reflexivity|].
  intros Hm. apply orb_false_iff in Hm as [Hv Hm]. rewrite Hv. apply IH, Hm.
Qed.

Lemma mentioned_cons (g : string) (v : env_var) (vars : list env_var) :
  mentioned g (v :: vars) = String.eqb (PyStr.lower (ev_name v)) g || mentioned g vars.
Proof. reflexivity. Qed.

Lemma group_from_cons (d0 : pydict value) (g : string) (v : env_var) (vars : list env_var) :
  group_from d0 g (v :: vars)
  = group_from (if String.eqb (PyStr.lower (ev_name v)) g
                then PyDict.set (PyStr.lower (ev_setting v))
                       (loaded_value (PyStr.lower (ev_setting v)) (ev_value v)) d0
                else d0) g vars.
Proof. reflexivity. Qed.

(** [db_vars] after the first loop holds, for every name that occurs, the
    group of that name. *)
Lemma env_fold_get (vars : list env_var) (db_vars : pydict (pydict value)) (g : string) :
  (forall v, In v vars -> PyStr.contains "_" (ev_name v) = false) ->
  PyDict.get g (fold_left Config.env_step (environ_of vars) db_vars)
  = if mentioned g vars
    then Some (group_from (default [] (PyDict.get g db_vars)) g vars)
    else PyDict.get g db_vars.
Proof.
  revert db_vars. induction vars as [|v vars IH]; intros db_vars Hpat; [reflexivity|].
  cbn [environ_of map fold_left]. fold (environ_of vars).
  rewrite IH by (intros; apply Hpat; right; assumption).
  rewrite env_step_get by (apply Hpat; left; reflexivity).
  rewrite mentioned_cons, group_from_cons.
  destruct (String.eqb (PyStr.lower (ev_name v)) g) eqn:Hg; cbn [orb default].
  - destruct (mentioned g vars) eqn:Hm; [reflexivity|].
    rewrite (group_from_not_mentioned _ _ _ Hm). reflexivity.
  - reflexivity.
Qed.

Lemma env_fold_wf (environ : list (string * string)) (db_vars : pydict (pydict value)) :
  PyDict.wf db_vars -> PyDict.wf (fold_left Config.env_step environ db_vars).
Proof.
  revert db_vars. induction environ as [|kv environ IH]; intros db_vars Hwf; [exact Hwf|].
  simpl. apply IH, env_step_wf, Hwf.
Qed.

Lemma view_get (s : pydict loc) (h : heap) (g : string) :
  PyDict.get g (Config.view s h) = deref h <$> PyDict.get g s.
Proof.
  induction s as [|[n l] s IH]; simpl; [reflexivity|].
  destruct (String.eqb g n); [reflexivity|exact IH].
Qed.

Lemma view_app_valid (s : pydict loc) (h new : heap) :
  locs_valid s h -> Config.view s (h ++ new) = Config.view s h.
Proof.
  unfold locs_valid, Config.view. induction 1 as [|[n l] s Hl Hs IH]; simpl; [reflexivity|].
  rewrite IH. simpl in Hl. rewrite deref_app_l by exact Hl. reflexivity.
Qed.

Lemma locs_valid_app (s : pydict loc) (h new : heap) :
  locs_valid s h -> locs_valid s (h ++ new).
Proof.
  unfold locs_valid. intros Hs. eapply Forall_impl; [exact Hs|].
  intros [n l] Hl. simpl in *. rewrite length_app. lia.
Qed.

Lemma locs_valid_set (s : pydict loc) (h : heap) (k : string) (l : loc) :
  locs_valid s h -> (l < length h)%nat -> locs_valid (PyDict.set k l s) h.
Proof.
  unfold locs_valid. intros Hs Hl. induction Hs as [|[n l0] s Hl0 Hs IH]; simpl.
  - repeat constructor. exact Hl.
  - destruct (String.eqb k n); constructor; auto.
Qed.

(** The second loop stores the groups that name a database type, and these
    only. *)
Lemma env_store_get (db_vars : pydict (pydict value)) (s s' : pydict loc) (h h' : heap) :
  PyDict.wf db_vars -> locs_valid s h ->
  Config.env_store db_vars s h = (s', h') ->
  locs_valid s' h' /\
  forall g, PyDict.get g (Config.view s' h')
            = match PyDict.get g db_vars with
              | Some c => if PyDict.has "database_type" c then Some c
                          else PyDict.get g (Config.view s h)
              | None => PyDict.get g (Config.view s h)
              end.
Proof.
  unfold PyDict.wf. revert s h.
  induction db_vars as [|[k c] db_vars IH]; intros s h Hwf Hval Hst.
  - simpl in Hst. injection Hst as <- <-. auto.
  - simpl in Hwf. apply List.NoDup_cons_iff in Hwf as [Hk Hwf].
    apply get_none_not_in in Hk. cbn [Config.env_store] in Hst.
    destruct (PyDict.has "database_type" c) eqn:Hty.
    + unfold alloc in Hst.
      apply IH in Hst as [Hval' Hget]; [|exact Hwf|].
      2:{ apply locs_valid_set; [apply locs_valid_app, Hval|].
          rewrite length_app. simpl. lia. }
      split; [exact Hval'|]. intros g. rewrite Hget. cbn [PyDict.get].
      destruct (String.eqb_spec g k) as [->|Hne].
      * rewrite Hk, Hty, view_get, get_set_eq. simpl. rewrite deref_alloc. reflexivity.
      * assert (PyDict.get g (Config.view (PyDict.set k (length h) s) (h ++ [c]))
                = PyDict.get g (Config.view s h)) as ->; [|reflexivity].
        rewrite !view_get, get_set_ne by congruence.
        rewrite <- !view_get, view_app_valid by exact Hval. reflexivity.
    + apply IH in Hst as [Hval' Hget]; [|exact Hwf|exact Hval].
      split; [exact Hval'|]. intros g. rewrite Hget. cbn [PyDict.get].
      destruct (String.eqb_spec g k) as [->|Hne]; [rewrite Hk, Hty|]; reflexivity.
Qed.

(** C8, as amended: of an environment whose keys are [DB_<name>_<setting>]
    the loader keeps, under the lower-cased name, the group of that name, with
    lower-cased settings, and with the value of the setting [port] (and of no
    other setting) turned into an integer when it reads as one; a group
    without the setting [database_type] is not loaded at all. *)
Theorem load_from_environment_groups (vars : list env_var) (t : Config.config_tool)
    (w : world) :
  (forall v, In v vars -> PyStr.contains "_" (ev_name v) = false) ->
  Config.database_configs t = [] ->
  forall g,
    PyDict.get g
      (Config.view
         (Config.database_configs (fst (Config._load_from_environment (environ_of vars) t w)))
         (objs (snd (Config._load_from_environment (environ_of vars) t w))))
    = if PyDict.has "database_type" (group g vars) then Some (group g vars) else None.
Proof.
  intros Hpat Hempty g. unfold Config._load_from_environment. rewrite Hempty.
  destruct (Config.env_store _ [] (objs w)) as [s' h'] eqn:Hst. cbn [fst snd Config.set_store
    Config.database_configs Adapter.set_objs objs].
  apply env_store_get in Hst as [_ Hget].
  - rewrite Hget, (env_fold_get vars [] g Hpat). cbn [PyDict.get default]. fold (group g vars).
    destruct (mentioned g vars) eqn:Hm.
    + destruct (PyDict.has "database_type" (group g vars)); reflexivity.
    + unfold group. rewrite (group_from_not_mentioned _ _ _ Hm). reflexivity.
  - apply env_fold_wf. constructor.
  - constructor.
Qed.

End EnvFacts.

(** The variables of one PostgreSQL connection, with a port and a timeout. *)
Lemma load_from_environment_groups_witness :
  PyDict.get "prod"
    (Config.view
       (Config.database_configs
          (fst (@Config._load_from_environment Demo.runtime
                  (ConfigSpec.environ_of Demo.prod_vars) Demo.empty_tool Demo.world0)))
       (objs (snd (@Config._load_from_environment Demo.runtime
                     (ConfigSpec.environ_of Demo.prod_vars) Demo.empty_tool Demo.world0))))
  = if PyDict.has "database_type" (ConfigSpec.group "prod" Demo.prod_vars)
    then Some (ConfigSpec.group "prod" Demo.prod_vars) else None.
Proof.
  apply (@load_from_environment_groups Demo.runtime Demo.prod_vars Demo.empty_tool Demo.world0).
  - intros v [<-|[<-|[<-|[]]]]; reflexivity.
  - reflexivity.
Defined.

(** C8, as stated, fails: [DB_PROD_TIMEOUT=30] reads as an integer and is
    loaded as the text [30]; only the port became an integer. *)
Lemma load_from_environment_keeps_numeric_text :
  PyDict.get "prod"
    (Config.view
       (Config.database_configs
          (fst (@Config._load_from_environment Demo.runtime
                  (ConfigSpec.environ_of Demo.prod_vars) Demo.empty_tool Demo.world0)))
       (objs (snd (@Config._load_from_environment Demo.runtime
                     (ConfigSpec.environ_of Demo.prod_vars) Demo.empty_tool Demo.world0))))
  = Some [("database_type", VStr "postgresql"); ("port", VInt 5432); ("timeout", VStr "30")]
  /\ ConfigSpec.coerced_value "30" = VInt 30
  /\ VStr "30" <> ConfigSpec.coerced_value "30".
Proof. vm_compute. repeat split. discriminate. Qed.


(** ** Config tool: rollback *)

Section RollbackFacts.
Context `{Runtime}.
Import ConfigSpec.

(** Objects other than [l] are as they were after a copy was added to the
    heap and [l] was changed in place. *)
Lemma deref_alter_copy (h : heap) (f : pydict value -> pydict value) (l l' : loc)
    (d : pydict value) :
  (l' < length h)%nat -> l' <> l -> deref (alter f l (h ++ [d])) l' = deref h l'.
Proof.
  intros Hl' Hne. unfold deref. rewrite list_lookup_alter_ne by congruence.
  rewrite lookup_app_l by exact Hl'. reflexivity.
Qed.

Lemma deref_alter_new (h : heap) (f : pydict value -> pydict value) (l : loc)
    (d : pydict value) :
  (l < length h)%nat -> deref (alter f l (h ++ [d])) (length h) = d.
Proof.
  intros Hl. unfold deref. rewrite list_lookup_alter_ne by lia.
  rewrite list_lookup_middle by reflexivity. reflexivity.
Qed.

Lemma view_frame (s : pydict loc) (h : heap) (f : pydict value -> pydict value) (l : loc)
    (d : pydict value) :
  locs_valid s h -> ~ In l (map snd s) ->
  Config.view s (alter f l (h ++ [d])) = Config.view s h.
Proof.
  unfold locs_valid, Config.view. intros Hval Hl.
  induction Hval as [|[n l0] s Hl0 Hval IH]; simpl in *; [reflexivity|].
  rewrite IH by tauto. rewrite deref_alter_copy by (auto; intros ->; tauto). reflexivity.
Qed.

Lemma get_some_in_locs (s : pydict loc) (k : string) (l : loc) :
  PyDict.get k s = Some l -> In l (map snd s).
Proof.
  induction s as [|[n l0] s IH]; simpl; [discriminate|].
  destruct (String.eqb k n); [intros [= ->]; auto|auto].
Qed.

(** Putting the copy back under the name gives the store its old reading. *)
Lemma view_rollback (s : pydict loc) (h : heap) (f : pydict value -> pydict value)
    (cname : string) (l : loc) :
  store_ok s h -> PyDict.get cname s = Some l ->
  Config.view (PyDict.set cname (length h) s) (alter f l (h ++ [deref h l])) = Config.view s h.
Proof.
  unfold store_ok, PyDict.wf, locs_valid. intros (Hwf & Hval & Hnd) Hget.
  induction s as [|[n l0] s IH]; [discriminate Hget|].
  simpl in Hwf, Hnd, Hget. apply List.NoDup_cons_iff in Hwf as [Hn Hwf].
  apply List.NoDup_cons_iff in Hnd as [Hl0 Hnd].
  apply Forall_cons in Hval as [Hv0 Hval]. simpl in Hv0.
  cbn [PyDict.set]. destruct (String.eqb cname n) eqn:E.
  - injection Hget as ->. cbn [Config.view map fst snd].
    change (map (fun kv : string * loc => (fst kv, deref ?h' (snd kv))) s)
      with (Config.view s h').
    rewrite view_frame by assumption.
    rewrite deref_alter_new by exact Hv0. apply String.eqb_eq in E as ->. reflexivity.
  - cbn [Config.view map fst snd].
    change (map (fun kv : string * loc => (fst kv, deref ?h' (snd kv))) ?s')
      with (Config.view s' h').
    rewrite IH by assumption. rewrite deref_alter_copy; [reflexivity|exact Hv0|].
    intros ->. apply Hl0. eapply get_some_in_locs, Hget.
Qed.

(** C4, as amended: when the manager cannot be built again, [_add_connection]
    and [_update_connection] answer with an error and leave the store as it
    was read before the call, name by name and field by field, the manager in
    place and the file untouched. *)
Theorem failed_rebuild_rolls_back (cname : string) (config : pydict value)
    (t : Config.config_tool) (w : world) :
  store_ok (Config.database_configs t) (objs w) ->
  (forall s h, exists e, Manager.new s h = (h, Raise e)) ->
  (let '(t', w', r) := Config._add_connection cname config t w in
   status r = "error" /\
   Config.database_configs t' = Config.database_configs t /\
   Config.view (Config.database_configs t') (objs w')
   = Config.view (Config.database_configs t) (objs w) /\
   Config.manager t' = Config.manager t /\ file w' = file w) /\
  (let '(t', w', r) := Config._update_connection cname config t w in
   status r = "error" /\
   PyDict.keys (Config.database_configs t') = PyDict.keys (Config.database_configs t) /\
   Config.view (Config.database_configs t') (objs w')
   = Config.view (Config.database_configs t) (objs w) /\
   Config.manager t' = Config.manager t /\ file w' = file w).
Proof.
  intros Hok Hfail. split.
  - unfold Config._add_connection.
    destruct (PyDict.has cname (Config.database_configs t)) eqn:Hhas; [auto 6|].
    destruct (PyDict.has "database_type" config); cbn [negb]; [|auto 6].
    unfold alloc. cbn [Config.set_store Config.database_configs].
    destruct (Hfail (PyDict.set cname (length (objs w)) (Config.database_configs t))
                (objs w ++ [config])) as [e ->].
    cbn [Config.set_store Config.database_configs Config.manager status Adapter.set_objs
         objs file].
    apply has_false in Hhas. rewrite del_set_fresh by exact Hhas.
    destruct Hok as (_ & Hval & _). rewrite view_app_valid by exact Hval. auto 6.
  - unfold Config._update_connection.
    destruct (PyDict.get cname (Config.database_configs t)) as [l|] eqn:Hget; [|auto 6].
    unfold alloc.
    destruct (Hfail (Config.database_configs t)
                (alter (PyDict.update config) l (objs w ++ [deref (objs w) l]))) as [e ->].
    cbn [Config.set_store Config.database_configs Config.manager status Adapter.set_objs
         objs file].
    rewrite keys_set_present by congruence.
    rewrite view_rollback by assumption. auto 6.
Qed.

End RollbackFacts.

(** An update of [x] that cannot be completed leaves the store as it was. *)
Lemma failed_rebuild_rolls_back_witness :
  let '(t', w', r) :=
    @Config._update_connection Demo.broken_runtime "x" [("host", VStr "elsewhere")]
      Demo.xy_tool Demo.broken_world in
  status r = "error" /\
  PyDict.keys (Config.database_configs t') = PyDict.keys (Config.database_configs Demo.xy_tool) /\
  Config.view (Config.database_configs t') (objs w')
  = Config.view (Config.database_configs Demo.xy_tool) (objs Demo.broken_world) /\
  Config.manager t' = Config.manager Demo.xy_tool /\ file w' = file Demo.broken_world.
Proof.
  refine (proj2 (@failed_rebuild_rolls_back Demo.broken_runtime "x"
                   [("host", VStr "elsewhere")] Demo.xy_tool Demo.broken_world _ _)).
  - split; [|split].
    + repeat constructor; simpl; intuition discriminate.
    + repeat constructor; simpl; lia.
    + repeat constructor; simpl; intuition discriminate.
  - intros s h. eexists. reflexivity.
Defined.

(** C4, as stated, fails for [_remove_connection]: the manager cannot be
    built again, yet the descriptor of [x] stays removed, the old manager,
    which still serves [x], stays in place, and the answer is a success. *)
Lemma remove_connection_does_not_roll_back :
  (forall s h, exists e, @Manager.new Demo.broken_runtime s h = (h, Raise e)) /\
  let '(t', w', r) :=
    @Config._remove_connection Demo.broken_runtime "x" Demo.xy_tool Demo.broken_world in
  status r = "success" /\
  Config.view (Config.database_configs t') (objs w')
  <> Config.view (Config.database_configs Demo.xy_tool) (objs Demo.broken_world) /\
  PyDict.get "x" (Config.database_configs t') = None /\
  Config.manager t' = Config.manager Demo.xy_tool.
Proof.
  split; [intros s h; eexists; reflexivity|].
  vm_compute. repeat split. discriminate.
Qed.

(** After the failed update the adapter of [x] in the manager still reads
    its parameters from the object that was changed in place. *)
Example failed_update_reaches_adapter :
  let '(t', w', r) :=
    @Config._update_connection Demo.broken_runtime "x" [("host", VStr "elsewhere")]
      Demo.xy_tool Demo.broken_world in
  deref (objs w') 0 = Demo.sqlite_descriptor ++ [("host", VStr "elsewhere")] /\
  PyDict.get "x" (Config.view (Config.database_configs t') (objs w'))
  = Some Demo.sqlite_descriptor.
Proof. vm_compute. split; reflexivity. Qed.

(** ** Fan-out *)

Section KeyFacts.

Lemma uint_no_underscore (d : Decimal.uint) :
  PyStr.contains "_" (NilEmpty.string_of_uint d) = false.
Proof. induction d; simpl; auto. Qed.

Lemma str_of_Z_no_underscore (z : Z) : 0 < z -> PyStr.contains "_" (PyStr.str_of_Z z) = false.
Proof.
  destruct z as [|p|p]; try lia. intros _. unfold PyStr.str_of_Z. simpl.
  pose proof (DecimalPos.Unsigned.to_uint_nonnil p) as Hnn.
  unfold NilZero.string_of_uint. destruct (Pos.to_uint p) eqn:E; try contradiction;
    rewrite <- E; apply uint_no_underscore.
Qed.

Lemma str_of_Z_inj (a b : Z) : PyStr.str_of_Z a = PyStr.str_of_Z b -> a = b.
Proof.
  unfold PyStr.str_of_Z. intros Heq. apply DecimalZ.to_int_inj.
  assert (forall z, Z.to_int z <> Decimal.Pos Decimal.Nil /\
                    Z.to_int z <> Decimal.Neg Decimal.Nil) as Hnn.
  { intros [|p|p]; simpl; split; try discriminate;
      intros [= E]; exact (DecimalPos.Unsigned.to_uint_nonnil p E). }
  destruct (Hnn a) as [Ha1 Ha2], (Hnn b) as [Hb1 Hb2].
  pose proof (NilZero.isi _ Ha1 Ha2) as Ia. pose proof (NilZero.isi _ Hb1 Hb2) as Ib.
  rewrite Heq in Ia. congruence.
Qed.

(** Two texts without underscore that an underscore follows are the same
    when what they start is the same. *)
Lemma before_underscore (s1 s2 x y : string) :
  PyStr.contains "_" s1 = false -> PyStr.contains "_" s2 = false ->
  s1 +:+ String "_" x = s2 +:+ String "_" y -> s1 = s2.
Proof.
  revert s2. induction s1 as [|c s1 IH]; intros [|d s2] H1 H2 Heq.
  - reflexivity.
  - rewrite sapp_nil_l, sapp_cons in Heq. injection Heq as <- _.
    cbn in H2. destruct s2; discriminate H2.
  - rewrite sapp_nil_l, sapp_cons in Heq. injection Heq as -> _.
    cbn in H1. destruct s1; discriminate H1.
  - rewrite !sapp_cons in Heq. injection Heq as -> Heq.
    cbn [PyStr.contains] in H1, H2.
    apply orb_false_iff in H1 as [_ H1]. apply orb_false_iff in H2 as [_ H2].
    f_equal. exact (IH s2 H1 H2 Heq).
Qed.

(** The keys of two different queries differ. *)
Lemma query_key_inj (i j : nat) (n n' : string) :
  Manager.query_key i n = Manager.query_key j n' -> i = j.
Proof.
  unfold Manager.query_key. intros Heq. apply String.app_inj in Heq.
  apply before_underscore in Heq; try (apply str_of_Z_no_underscore; lia).
  apply str_of_Z_inj in Heq. lia.
Qed.

Lemma query_key_not_combined (i : nat) (n : string) :
  Manager.query_key i n <> "combined_results".
Proof. unfold Manager.query_key. intros Heq. discriminate Heq. Qed.

End KeyFacts.

Section FanFacts.
Context `{Runtime}.
Import FanSpec.

Lemma tool_execute_heap (a a' : adapter) (w w' : world) (q : string) (limit : Z)
    (format : string) (timeout : Z) (kw : kwargs) (out : res query_result) :
  Manager.tool_execute a w q limit format timeout kw = (a', w', out) ->
  exists new, extends a a' w w' new /\ result_rows_new w new format out.
Proof.
  unfold Manager.tool_execute. destruct (Adapter.is_snowflake a);
    [apply snowflake_execute_heap|apply base_execute_heap].
Qed.

Lemma manager_execute_heap (m m' : Manager.manager) (w w' : world) (cname q : string)
    (limit : Z) (format : string) (timeout : Z) (kw : kwargs) (out : res query_result) :
  Manager.execute m w cname q limit format timeout kw = (m', w', out) ->
  exists new,
    objs w' = objs w ++ new /\
    forall r rows, out = Ok r -> results r = FRows rows ->
                   rows = seq (length (objs w)) (length new).
Proof.
  unfold Manager.execute. intros He.
  destruct (PyDict.get cname (Manager.connections m)) as [tool|].
  2:{ simplify_eq. exists []. rewrite app_nil_r. split; [reflexivity|]. intros; discriminate. }
  destruct (Manager.tool_execute tool w q limit format timeout kw) as [[a' w1] [r|e]] eqn:Ha;
    apply tool_execute_heap in Ha as (new & (Ho & _) & Hr); simplify_eq; exists new;
    (split; [exact Ho|]).
  - intros r' rows [= <-] Hres. simpl in Hres.
    destruct (Hr r eq_refl) as (_ & Hrows & _). apply Hrows, Hres.
  - intros; discriminate.
Qed.

(** In format [json] the result holds the rows themselves. *)
Lemma manager_execute_json (m m' : Manager.manager) (w w' : world) (cname q : string)
    (limit : Z) (timeout : Z) (kw : kwargs) (r : query_result) :
  Manager.execute m w cname q limit "json" timeout kw = (m', w', Ok r) ->
  exists rows, results r = FRows rows.
Proof.
  unfold Manager.execute. intros He.
  destruct (PyDict.get cname (Manager.connections m)) as [tool|]; [|discriminate He].
  destruct (Manager.tool_execute tool w q limit "json" timeout kw) as [[a' w1] [r0|e]] eqn:Ha;
    [|discriminate He].
  apply tool_execute_heap in Ha as (new & _ & Hr).
  destruct (Hr r0 eq_refl) as (_ & _ & Hjson). destruct (Hjson eq_refl) as [rows Hrows].
  simplify_eq. simpl. eauto.
Qed.

(** Tagging the rows a query has just added changes these rows only. *)
Lemma tag_rows_seq (cname : string) (i : nat) (h new : heap) :
  Manager.tag_rows cname i (seq (length h) (length new)) (h ++ new)
  = h ++ map (Manager.tag_row cname i) new.
Proof.
  unfold Manager.tag_rows. revert h. induction new as [|x new IH]; intros h; [reflexivity|].
  cbn [length seq fold_left map].
  rewrite alter_app_r_alt by lia. rewrite Nat.sub_diag. cbn [alter list_alter].
  replace (h ++ Manager.tag_row cname i x :: new)
    with ((h ++ [Manager.tag_row cname i x]) ++ new) by (rewrite <- app_assoc; reflexivity).
  replace (S (length h)) with (length (h ++ [Manager.tag_row cname i x]))
    by (rewrite length_app; simpl; lia).
  rewrite IH, <- app_assoc. reflexivity.
Qed.

Lemma fan_loop_snoc (combine : bool) (i : nat) (queries : list query_spec)
    (sp : query_spec) (st : Manager.fan_state) :
  Manager.fan_loop combine i (queries ++ [sp]) st
  = Manager.fan_step combine (i + length queries) sp (Manager.fan_loop combine i queries st).
Proof.
  revert i st. induction queries as [|q queries IH]; intros i st; simpl.
  - rewrite Nat.add_0_r. reflexivity.
  - rewrite IH. f_equal. lia.
Qed.

(** One turn of the loop: the entry of the query is recorded under its key,
    its json rows join the combined rows when combining is on, and the heap
    grows by the rows of the query, which are tagged when they join. *)
Lemma fan_step_spec (combine : bool) (n : nat) (sp : query_spec) (st : Manager.fan_state) :
  let out := run_spec st sp in
  let st' := Manager.fan_step combine n sp st in
  Manager.fs_manager st' = fst (fst out) /\
  Manager.fs_results st'
  = PyDict.set (Manager.query_key n (qs_connection_name sp)) (entry_of out)
      (Manager.fs_results st) /\
  Manager.fs_combined st'
  = Manager.fs_combined st ++ (if combine then json_rows sp out else []) /\
  exists new,
    objs (world_of out) = objs (Manager.fs_world st) ++ new /\
    objs (Manager.fs_world st')
    = objs (Manager.fs_world st) ++
      (if combine && negb (Nat.eqb (length (json_rows sp out)) 0)
       then map (Manager.tag_row (qs_connection_name sp) n) new else new) /\
    (forall l, In l (json_rows sp out) ->
       (length (objs (Manager.fs_world st)) <= l
        < length (objs (Manager.fs_world st)) + length new)%nat).
Proof.
  intros out st'. subst out st'. unfold Manager.fan_step, run_spec, json_rows.
  destruct (Manager.execute _ _ _ _ _ _ _ _) as [[m w1] [r|e]] eqn:He.
  2:{ apply manager_execute_heap in He as (new & Ho & _). cbn.
      split; [reflexivity|]. split; [reflexivity|].
      split; [destruct combine; rewrite app_nil_r; reflexivity|].
      exists new. rewrite andb_false_r. split; [exact Ho|]. split; [exact Ho|]. intros l []. }
  pose proof He as He'. apply manager_execute_heap in He' as (new & Ho & Hrows).
  specialize (Hrows r). cbn [entry_of world_of fst snd].
  destruct (String.eqb (default "json" (qs_format sp)) "json") eqn:Hfmt.
  2:{ rewrite andb_false_r. cbn.
      split; [reflexivity|]. split; [reflexivity|].
      split; [destruct combine; rewrite app_nil_r; reflexivity|].
      exists new. rewrite andb_false_r. split; [exact Ho|]. split; [exact Ho|]. intros l []. }
  apply String.eqb_eq in Hfmt. rewrite Hfmt in He.
  destruct (manager_execute_json _ _ _ _ _ _ _ _ _ _ He) as [rows Hres].
  rewrite Hres. specialize (Hrows rows eq_refl Hres). subst rows.
  assert (forall l, In l (seq (length (objs (Manager.fs_world st))) (length new)) ->
            (length (objs (Manager.fs_world st)) <= l
             < length (objs (Manager.fs_world st)) + length new)%nat) as Hin.
  { intros l Hl. apply in_seq in Hl. lia. }
  destruct combine; cbn.
  2:{ split; [reflexivity|]. split; [reflexivity|].
      split; [rewrite app_nil_r; reflexivity|].
      exists new. split; [exact Ho|]. split; [exact Ho|exact Hin]. }
  split; [reflexivity|]. split; [reflexivity|]. split; [reflexivity|].
  exists new. split; [exact Ho|]. split; [|exact Hin].
  rewrite Ho, tag_rows_seq, length_seq. destruct new; reflexivity.
Qed.

Lemma state_before_snoc (combine : bool) (m : Manager.manager) (w : world)
    (queries : list query_spec) (x : query_spec) (i : nat) :
  (i <= length queries)%nat ->
  state_before combine m w (queries ++ [x]) i = state_before combine m w queries i.
Proof. intros Hi. unfold state_before. rewrite take_app_le by exact Hi. reflexivity. Qed.

Lemma state_before_all (combine : bool) (m : Manager.manager) (w : world)
    (queries : list query_spec) :
  state_before combine m w queries (length queries)
  = Manager.fan_loop combine 0 queries (init_state m w).
Proof. unfold state_before. rewrite take_ge by reflexivity. reflexivity. Qed.

Lemma outcome_snoc (combine : bool) (m : Manager.manager) (w : world)
    (queries : list query_spec) (x sp : query_spec) (i : nat) :
  (i <= length queries)%nat ->
  outcome combine m w (queries ++ [x]) i sp = outcome combine m w queries i sp.
Proof. intros Hi. unfold outcome. rewrite state_before_snoc by exact Hi. reflexivity. Qed.

Lemma entries_snoc (combine : bool) (m : Manager.manager) (w : world)
    (queries : list query_spec) (x : query_spec) :
  entries combine m w (queries ++ [x])
  = entries combine m w queries ++
    [(Manager.query_key (length queries) (qs_connection_name x),
      entry_of (outcome combine m w queries (length queries) x))].
Proof.
  unfold entries. rewrite imap_app. cbn [imap]. rewrite Nat.add_0_r.
  rewrite outcome_snoc by reflexivity. f_equal.
  apply imap_ext. intros i sp Hi. cbn beta. rewrite outcome_snoc; [reflexivity|].
  apply lookup_lt_Some in Hi. lia.
Qed.

Lemma combined_upto_snoc (combine : bool) (m : Manager.manager) (w : world)
    (queries : list query_spec) (x : query_spec) (n : nat) :
  (n <= length queries)%nat ->
  combined_upto combine m w (queries ++ [x]) n = combined_upto combine m w queries n.
Proof.
  induction n as [|n IH]; intros Hn; [reflexivity|]. cbn [combined_upto].
  rewrite IH by lia. rewrite lookup_app_l by lia.
  destruct (queries !! n); [|reflexivity]. rewrite outcome_snoc by lia. reflexivity.
Qed.

(** No entry of the first queries has the key of a later one. *)
Lemma entries_key_fresh (combine : bool) (m : Manager.manager) (w : world)
    (queries : list query_spec) (n : nat) (cname : string) :
  (length queries <= n)%nat ->
  PyDict.get (Manager.query_key n cname) (entries combine m w queries) = None.
Proof.
  intros Hn. apply get_none_not_in. unfold PyDict.keys, entries. intros Hin.
  apply in_map_iff in Hin as ([k e] & Hk & Hin). simpl in Hk. subst k.
  apply list_elem_of_In, elem_of_lookup_imap in Hin as (i & sp & Heq & Hi).
  apply (f_equal fst) in Heq. cbn [fst] in Heq. apply query_key_inj in Heq. subst i.
  apply lookup_lt_Some in Hi. lia.
Qed.

Lemma deref_app_map (h new : heap) (f : pydict value -> pydict value) (l : loc) :
  (length h <= l < length h + length new)%nat ->
  deref (h ++ map f new) l = f (deref (h ++ new) l).
Proof.
  intros Hl. unfold deref. rewrite !lookup_app_r by lia.
  rewrite list_lookup_fmap.
  destruct (new !! (l - length h)%nat) eqn:E; [reflexivity|].
  apply lookup_ge_None in E. lia.
Qed.

(** The state after the loop over [queries]: the entries of the queries in
    input order, the json rows of the combined set query after query, and
    every one of these rows tagged once, with the name and the number of its
    query. *)
Lemma fan_loop_inv (combine : bool) (m : Manager.manager) (w : world)
    (queries : list query_spec) :
  let st := Manager.fan_loop combine 0 queries (init_state m w) in
  Manager.fs_results st = entries combine m w queries /\
  Manager.fs_combined st
  = (if combine then combined_upto combine m w queries (length queries) else []) /\
  forall i sp l,
    queries !! i = Some sp -> combine = true ->
    In l (json_rows sp (outcome combine m w queries i sp)) ->
    (l < length (objs (Manager.fs_world st)))%nat /\
    deref (objs (Manager.fs_world st)) l
    = Manager.tag_row (qs_connection_name sp) i
        (deref (objs (world_of (outcome combine m w queries i sp))) l).
Proof.
  induction queries as [|x queries IH] using rev_ind; cbv zeta in *.
  - split; [reflexivity|]. split; [destruct combine; reflexivity|].
    intros i sp l Hi. rewrite lookup_nil in Hi. discriminate Hi.
  - destruct IH as (IHr & IHc & IHh). rewrite fan_loop_snoc. cbn [Nat.add].
    set (st := Manager.fan_loop combine 0 queries (init_state m w)) in *.
    assert (outcome combine m w queries (length queries) x = run_spec st x) as Hout.
    { unfold outcome. rewrite state_before_all. reflexivity. }
    destruct (fan_step_spec combine (length queries) x st)
      as (_ & Hr & Hc & new & Ho & Ho' & Hin).
    split; [|split].
    + rewrite Hr, IHr, entries_snoc, Hout. apply set_fresh, entries_key_fresh. reflexivity.
    + rewrite Hc, IHc. destruct combine; [|reflexivity].
      rewrite length_app. cbn [length]. rewrite Nat.add_1_r. cbn [combined_upto].
      rewrite combined_upto_snoc by reflexivity.
      rewrite list_lookup_middle by reflexivity. rewrite outcome_snoc, Hout by reflexivity.
      reflexivity.
    + intros i sp l Hi Hcomb Hl. apply lookup_snoc_Some in Hi as [[Hlt Hi]|[-> <-]].
      * rewrite outcome_snoc in * by lia.
        destruct (IHh i sp l Hi Hcomb Hl) as [Hlen Hd].
        rewrite Ho', length_app, deref_app_l by exact Hlen. split; [lia|exact Hd].
      * rewrite outcome_snoc in * by reflexivity. rewrite Hout in *.
        specialize (Hin l Hl). rewrite Ho', Ho, Hcomb.
        assert (Nat.eqb (length (json_rows x (run_spec st x))) 0 = false) as ->.
        { destruct (json_rows x (run_spec st x)); [destruct Hl|reflexivity]. }
        cbn [andb negb]. rewrite length_app, length_map.
        split; [lia|]. apply deref_app_map. exact Hin.
Qed.

Lemma get_app {V : Type} (k : string) (d e : pydict V) :
  PyDict.get k (d ++ e)
  = match PyDict.get k d with Some v => Some v | None => PyDict.get k e end.
Proof.
  induction d as [|[k' v'] d IH]; simpl; [reflexivity|].
  destruct (String.eqb k k'); [reflexivity|exact IH].
Qed.

(** Under the key of query [i] the entries hold the entry of query [i]. *)
Lemma entries_get (combine : bool) (m : Manager.manager) (w : world)
    (queries : list query_spec) (i : nat) (sp : query_spec) :
  queries !! i = Some sp ->
  PyDict.get (Manager.query_key i (qs_connection_name sp)) (entries combine m w queries)
  = Some (entry_of (outcome combine m w queries i sp)).
Proof.
  induction queries as [|x queries IH] using rev_ind; intros Hi.
  - rewrite lookup_nil in Hi. discriminate Hi.
  - rewrite entries_snoc, get_app.
    apply lookup_snoc_Some in Hi as [[Hlt Hi]|[-> <-]].
    + rewrite (IH Hi), outcome_snoc by lia. reflexivity.
    + rewrite entries_key_fresh by reflexivity. cbn [PyDict.get].
      rewrite String.eqb_refl, outcome_snoc by reflexivity. reflexivity.
Qed.

Lemma entries_no_combined (combine : bool) (m : Manager.manager) (w : world)
    (queries : list query_spec) :
  PyDict.get "combined_results" (entries combine m w queries) = None.
Proof.
  apply get_none_not_in. unfold PyDict.keys, entries. intros Hin.
  apply in_map_iff in Hin as ([k e] & Hk & Hin). simpl in Hk. subst k.
  apply list_elem_of_In, elem_of_lookup_imap in Hin as (i & sp & Heq & Hi).
  apply (f_equal fst) in Heq. cbn [fst] in Heq.
  symmetry in Heq. exact (query_key_not_combined _ _ Heq).
Qed.

Lemma tag_row_fields (cname : string) (i : nat) (row : pydict value) :
  PyDict.get "_source_connection" (Manager.tag_row cname i row) = Some (VStr cname) /\
  PyDict.get "_source_query" (Manager.tag_row cname i row) = Some (VInt (Z.of_nat i + 1)).
Proof.
  unfold Manager.tag_row. split.
  - rewrite get_set_ne by discriminate. apply get_set_eq.
  - apply get_set_eq.
Qed.

(** The result map of the fan-out, in full. *)
Lemma cross_database_results (m : Manager.manager) (w : world)
    (queries : list query_spec) (combine : bool) :
  snd (Manager.execute_cross_database_query m w queries combine)
  = entries combine m w queries ++
    (if combine
     then [("combined_results",
            ECombined (length (combined_upto combine m w queries (length queries)))
              (combined_upto combine m w queries (length queries)))]
     else []).
Proof.
  unfold Manager.execute_cross_database_query. cbn [snd].
  destruct (fan_loop_inv combine m w queries) as (Hr & Hc & _).
  fold (init_state m w). rewrite Hr, Hc.
  destruct combine; [|rewrite app_nil_r; reflexivity].
  apply set_fresh, entries_no_combined.
Qed.

(** C3: the fan-out runs the queries one after the other in input order,
    each in the state the ones before it have left, failed or not; the result
    map holds, in that order, one entry per query under the key
    [query_<index>_<connection>], a result for a success and an error for a
    failure. With [combine_results] the entry [combined_results] follows,
    whose data are the rows of the successful queries in format json, query
    after query and row after row, each with [_source_connection] set to the
    connection and [_source_query] to the index counted from 1; without it
    there is no such entry. *)
Theorem cross_database_query_entries (m : Manager.manager) (w : world)
    (queries : list query_spec) (combine : bool) :
  let run := Manager.execute_cross_database_query m w queries combine in
  let data := combined_upto combine m w queries (length queries) in
  snd run = entries combine m w queries ++
            (if combine then [("combined_results", ECombined (length data) data)] else []) /\
  (forall i sp, queries !! i = Some sp ->
     PyDict.get (Manager.query_key i (qs_connection_name sp)) (snd run)
     = Some (entry_of (outcome combine m w queries i sp))) /\
  (combine = true ->
     PyDict.get "combined_results" (snd run) = Some (ECombined (length data) data) /\
     forall i sp l, queries !! i = Some sp ->
       In l (json_rows sp (outcome combine m w queries i sp)) ->
       PyDict.get "_source_connection" (deref (objs (snd (fst run))) l)
       = Some (VStr (qs_connection_name sp)) /\
       PyDict.get "_source_query" (deref (objs (snd (fst run))) l)
       = Some (VInt (Z.of_nat i + 1))) /\
  (combine = false -> PyDict.get "combined_results" (snd run) = None).
Proof.
  intros run data. subst run data.
  pose proof (cross_database_results m w queries combine) as Hres.
  split; [exact Hres|]. split; [|split].
  - intros i sp Hi. rewrite Hres, get_app, (entries_get _ _ _ _ _ _ Hi). reflexivity.
  - intros ->. split.
    + rewrite Hres, get_app, entries_no_combined. reflexivity.
    + intros i sp l Hi Hl.
      destruct (fan_loop_inv true m w queries) as (_ & _ & Hh).
      destruct (Hh i sp l Hi eq_refl Hl) as [_ Hd].
      unfold Manager.execute_cross_database_query. cbn [fst snd].
      fold (init_state m w). rewrite Hd. apply tag_row_fields.
  - intros ->. rewrite Hres, app_nil_r. apply entries_no_combined.
Qed.

(** C10: with [combine_results] the two fields are written into the row
    objects themselves. The entry of a successful json query holds these same
    objects, so that its rows, read when the fan-out returns, carry
    [_source_connection] and [_source_query]; they differ from the rows as
    [execute] returned them whenever those had no such field. *)
Theorem combine_tags_rows_in_place (m : Manager.manager) (w : world)
    (queries : list query_spec) (i : nat) (sp : query_spec) :
  queries !! i = Some sp ->
  default "json" (qs_format sp) = "json" ->
  let out := outcome true m w queries i sp in
  let run := Manager.execute_cross_database_query m w queries true in
  match snd out with
  | Raise _ => True
  | Ok r =>
      PyDict.get (Manager.query_key i (qs_connection_name sp)) (snd run) = Some (EResult r) /\
      exists rows, results r = FRows rows /\
        forall l, In l rows ->
          deref (objs (snd (fst run))) l
          = Manager.tag_row (qs_connection_name sp) i (deref (objs (world_of out)) l) /\
          PyDict.get "_source_connection" (deref (objs (snd (fst run))) l)
          = Some (VStr (qs_connection_name sp)) /\
          PyDict.get "_source_query" (deref (objs (snd (fst run))) l)
          = Some (VInt (Z.of_nat i + 1)) /\
          (PyDict.get "_source_connection" (deref (objs (world_of out)) l) = None ->
           deref (objs (snd (fst run))) l <> deref (objs (world_of out)) l)
  end.
Proof.
  intros Hi Hfmt out run. subst out run.
  pose proof (cross_database_results m w queries true) as Hres.
  destruct (fan_loop_inv true m w queries) as (_ & _ & Hh).
  specialize (Hh i sp).
  destruct (outcome true m w queries i sp) as [[mi wi] [r|e]] eqn:Hout; cbn [snd]; [|exact I].
  split.
  - rewrite Hres, get_app, (entries_get _ _ _ _ _ _ Hi), Hout. reflexivity.
  - assert (exists rows, results r = FRows rows) as [rows Hrows].
    { unfold outcome, run_spec in Hout. rewrite Hfmt in Hout.
      eapply manager_execute_json, Hout. }
    exists rows. split; [exact Hrows|]. intros l Hl.
    assert (In l (json_rows sp (mi, wi, Ok r))) as Hl'.
    { unfold json_rows. rewrite Hfmt, Hrows. exact Hl. }
    destruct (Hh l Hi eq_refl Hl') as [_ Hd].
    unfold Manager.execute_cross_database_query. cbn [fst snd].
    fold (init_state m w). rewrite Hd.
    destruct (tag_row_fields (qs_connection_name sp) i (deref (objs (world_of (mi, wi, Ok r))) l))
      as [Hc Hq].
    split; [reflexivity|]. split; [exact Hc|]. split; [exact Hq|].
    intros Hnone Heq. rewrite Heq in Hc. congruence.
Qed.

End FanFacts.

(** The fan-out of the two queries [A: SELECT 1] and [B: bad sql], both in
    format json, with [combine_results]. *)
Example cross_database_example :
  let run := @Manager.execute_cross_database_query Demo.runtime Demo.manager0 Demo.world0
               [Demo.spec_A; Demo.spec_B] true in
  PyDict.keys (snd run) = ["query_1_A"; "query_2_B"; "combined_results"] /\
  PyDict.get "query_2_B" (snd run)
  = Some (EError "Query failed on B: Query execution failed: Only SELECT and WITH queries are allowed") /\
  PyDict.get "combined_results" (snd run) = Some (ECombined 1 [2%nat]) /\
  deref (objs (snd (fst run))) 2
  = [("one", VInt 1); ("_source_connection", VStr "A"); ("_source_query", VInt 1)].
Proof. vm_compute. repeat split. Qed.

(** The rows under [query_1_A] are the tagged ones. *)
Lemma combine_tags_rows_in_place_witness :
  let out := @FanSpec.outcome Demo.runtime true Demo.manager0 Demo.world0
               [Demo.spec_A; Demo.spec_B] 0 Demo.spec_A in
  let run := @Manager.execute_cross_database_query Demo.runtime Demo.manager0 Demo.world0
               [Demo.spec_A; Demo.spec_B] true in
  match snd out with
  | Raise _ => True
  | Ok r =>
      PyDict.get (Manager.query_key 0 "A") (snd run) = Some (EResult r) /\
      exists rows, results r = FRows rows /\
        forall l, In l rows ->
          deref (objs (snd (fst run))) l
          = Manager.tag_row "A" 0 (deref (objs (FanSpec.world_of out)) l) /\
          PyDict.get "_source_connection" (deref (objs (snd (fst run))) l) = Some (VStr "A") /\
          PyDict.get "_source_query" (deref (objs (snd (fst run))) l) = Some (VInt 1) /\
          (PyDict.get "_source_connection" (deref (objs (FanSpec.world_of out)) l) = None ->
           deref (objs (snd (fst run))) l <> deref (objs (FanSpec.world_of out)) l)
  end.
Proof.
  exact (@combine_tags_rows_in_place Demo.runtime Demo.manager0 Demo.world0
           [Demo.spec_A; Demo.spec_B] 0 Demo.spec_A eq_refl eq_refl).
Defined.

(** In that run the first query succeeds, with the one row at address 2. *)
Example combine_tags_example :
  exists m1 w1 r,
    @FanSpec.outcome Demo.runtime true Demo.manager0 Demo.world0
      [Demo.spec_A; Demo.spec_B] 0 Demo.spec_A = (m1, w1, Ok r) /\
    results r = FRows [2%nat] /\ deref (objs w1) 2 = Demo.one_row.
Proof. do 3 eexists. vm_compute. repeat split. Qed.

(** * Further properties *)

Lemma triple_eta {A B C : Type} (x : A * B * C) : x = (fst (fst x), snd (fst x), snd x).
Proof. destruct x as [[a b] c]. reflexivity. Qed.

Lemma pair_eta {A B : Type} (x : A * B) : x = (fst x, snd x).
Proof. destruct x as [a b]. reflexivity. Qed.

(** ** The guard and the limit, again *)

Section CaseFacts.






Lemma upper_app (s t : string) : PyStr.upper (s +:+ t) = PyStr.upper s +:+ PyStr.upper t.
Proof.
  induction s as [|c s IH]; [reflexivity|].
  rewrite sapp_cons. simpl. rewrite IH, sapp_cons. reflexivity.
Qed.









End CaseFacts.

Section LimitMoreFacts.

Lemma apply_limit_has_limit (q : string) (limit : Z) :
  PyStr.contains "LIMIT" (PyStr.upper (Guard._apply_limit q limit)) = true.
Proof.
  unfold Guard._apply_limit.
  destruct (PyStr.contains "LIMIT" (PyStr.upper q)) eqn:Hq; [exact Hq|].
  rewrite !upper_app. apply contains_iff.
  exists (PyStr.upper (PyStr.rstrip_char ";" q) +:+ " "),
         (" " +:+ PyStr.upper (PyStr.str_of_Z limit)).
  rewrite !sapp_assoc. reflexivity.
Qed.

(** X2: the text [_apply_limit] returns always contains LIMIT when read in
    upper case, so that applying a limit to it again, whatever the limit,
    changes nothing: a query is limited at most once. The override of the
    Snowflake tool behaves in the same way. *)
Theorem apply_limit_once (q : string) (limit limit' : Z) :
  PyStr.contains "LIMIT" (PyStr.upper (Guard._apply_limit q limit)) = true /\
  Guard._apply_limit (Guard._apply_limit q limit) limit' = Guard._apply_limit q limit /\
  Guard.snowflake_apply_limit (Guard.snowflake_apply_limit q limit) limit'
  = Guard.snowflake_apply_limit q limit.
Proof.
  pose proof (apply_limit_has_limit q limit) as Hc.
  split; [exact Hc|].
  assert (Guard._apply_limit (Guard._apply_limit q limit) limit' = Guard._apply_limit q limit)
    as Hi; [|split; exact Hi].
  unfold Guard._apply_limit at 1. rewrite Hc. reflexivity.
Qed.

End LimitMoreFacts.

(** ** The table *)

Section TableFacts.
Import FormatterSpec.

Lemma length_of_list_ascii (l : list ascii) :
  String.length (String.string_of_list_ascii l) = length l.
Proof. induction l as [|c l IH]; simpl; [|rewrite IH]; reflexivity. Qed.

Lemma length_replicate_char (c : ascii) (n : nat) :
  String.length (PyStr.replicate_char c n) = n.
Proof. unfold PyStr.replicate_char. rewrite length_of_list_ascii. apply repeat_length. Qed.

Lemma length_ljust (w : nat) (s : string) :
  String.length (PyStr.ljust w s) = Nat.max w (String.length s).
Proof.
  unfold PyStr.ljust. rewrite slength_app, length_of_list_ascii, repeat_length. lia.
Qed.

Lemma length_join (sep : string) (parts : list string) :
  String.length (PyStr.join sep parts)
  = (foldr Nat.add 0 (map String.length parts)
     + String.length sep * Nat.pred (length parts))%nat.
Proof.
  induction parts as [|p [|p' rest] IH]; [simpl; lia|simpl; lia|].
  change (PyStr.join sep (p :: p' :: rest)) with (p +:+ sep +:+ PyStr.join sep (p' :: rest)).
  rewrite !slength_app, IH. simpl. lia.
Qed.

Lemma fold_max_ge {A : Type} (f : A -> nat) (l : list A) (w : nat) :
  (w <= fold_left (fun w x => Nat.max w (f x)) l w)%nat /\
  forall x, In x l -> (f x <= fold_left (fun w x => Nat.max w (f x)) l w)%nat.
Proof.
  revert w. induction l as [|y l IH]; intros w; simpl.
  - split; [lia|]. intros x [].
  - destruct (IH (Nat.max w (f y))) as [H1 H2]. split; [lia|].
    intros x [->|Hx]; [lia|]. apply H2, Hx.
Qed.

Lemma width_ge_header (rows : list (pydict value)) (col : string) :
  (String.length col <= Formatter.width rows col)%nat.
Proof. apply (fold_max_ge (fun row => String.length (Formatter.cell row col))). Qed.

Lemma width_ge_cell (rows : list (pydict value)) (col : string) (row : pydict value) :
  In row rows -> (String.length (Formatter.cell row col) <= Formatter.width rows col)%nat.
Proof. apply (fold_max_ge (fun row => String.length (Formatter.cell row col))). Qed.

Lemma sum_map_ext {A : Type} (f g : A -> nat) (l : list A) :
  (forall x, In x l -> f x = g x) ->
  foldr Nat.add 0%nat (map f l) = foldr Nat.add 0%nat (map g l).
Proof.
  induction l as [|x l IH]; intros Hfg; [reflexivity|]. simpl.
  rewrite (Hfg x), IH; [reflexivity| |left; reflexivity].
  intros y Hy. apply Hfg. right. exact Hy.
Qed.

(** A line made of one piece per column, [sep] between two pieces and
    two characters at each end, when every piece fills its column. *)
Lemma table_line_length (rows : list (pydict value)) (columns : list string)
    (l r sep : string) (piece : string -> string) :
  String.length l = 2%nat -> String.length r = 2%nat -> String.length sep = 3%nat ->
  (forall col, String.length (piece col) = Formatter.width rows col) ->
  String.length (l +:+ PyStr.join sep (map piece columns) +:+ r) = line_width rows columns.
Proof.
  intros Hl Hr Hsep Hp. rewrite !slength_app, length_join, Hl, Hr, Hsep, map_map, length_map.
  unfold line_width. rewrite (sum_map_ext _ (Formatter.width rows)); [lia|].
  intros col _. apply Hp.
Qed.

(** X3: the table of a result that has rows is a rectangle. It has one line
    per row and four more (the header and three separators), every line has
    the same length, and every column is as wide as its name and as its
    widest cell, so that no cell is cut. *)
Theorem ascii_table_is_rectangular (rows : list (pydict value)) (columns : list string) :
  rows <> [] ->
  (exists lines,
     Formatter._create_ascii_table rows columns = PyStr.join Formatter.nl lines /\
     length lines = (length rows + 4)%nat /\
     Forall (fun line => String.length line = line_width rows columns) lines) /\
  (forall col, (String.length col <= Formatter.width rows col)%nat) /\
  (forall row col, In row rows ->
     (String.length (Formatter.cell row col) <= Formatter.width rows col)%nat /\
     PyStr.ljust (Formatter.width rows col) (Formatter.cell row col)
     = Formatter.cell row col +:+
       PyStr.replicate_char " "
         (Formatter.width rows col - String.length (Formatter.cell row col))).
Proof.
  intros Hrows. split; [|split].
  - unfold Formatter._create_ascii_table.
    destruct rows as [|row0 rest] eqn:Hr; [congruence|]. rewrite <- Hr. clear Hrows.
    eexists. split; [reflexivity|]. split.
    + rewrite !length_app, length_map. simpl. lia.
    + assert (forall row, In row rows ->
                String.length ("| " +:+ PyStr.join " | "
                  (map (fun col => PyStr.ljust (Formatter.width rows col)
                                     (Formatter.cell row col)) columns) +:+ " |")
                = line_width rows columns) as Hrow.
      { intros row Hin. apply table_line_length; try reflexivity.
        intros col. rewrite length_ljust. pose proof (width_ge_cell rows col row Hin). lia. }
      assert (String.length ("+-" +:+ PyStr.join "-+-"
                (map (fun col => PyStr.replicate_char "-" (Formatter.width rows col)) columns)
                +:+ "-+") = line_width rows columns) as Hsep.
      { apply table_line_length; try reflexivity. intros col. apply length_replicate_char. }
      assert (String.length ("| " +:+ PyStr.join " | "
                (map (fun col => PyStr.ljust (Formatter.width rows col) col) columns)
                +:+ " |") = line_width rows columns) as Hhead.
      { apply table_line_length; try reflexivity.
        intros col. rewrite length_ljust. pose proof (width_ge_header rows col). lia. }
      repeat (apply Forall_cons; split; [assumption|]).
      apply Forall_app. split.
      * apply Forall_map, Forall_forall. intros row Hin. apply Hrow, list_elem_of_In, Hin.
      * apply Forall_cons. split; [exact Hsep|constructor].
  - apply width_ge_header.
  - intros row col Hin. split; [apply width_ge_cell, Hin|reflexivity].
Qed.

End TableFacts.

(** The table of the one row [{one: 1}]: five lines of seven characters. *)
Lemma ascii_table_is_rectangular_witness :
  exists lines,
    Formatter._create_ascii_table [Demo.one_row] ["one"] = PyStr.join Formatter.nl lines /\
    length lines = 5%nat /\
    Forall (fun line => String.length line = 7%nat) lines.
Proof.
  exact (proj1 (ascii_table_is_rectangular [Demo.one_row] ["one"] ltac:(discriminate))).
Defined.

(** ** Errors of a query *)

Section ExecuteErrorFacts.
Context `{Runtime}.

Lemma set_same {V : Type} (k : string) (v : V) (d : pydict V) :
  PyDict.get k d = Some v -> PyDict.set k v d = d.
Proof.
  induction d as [|[k' v'] d IH]; simpl; [discriminate|].
  destruct (String.eqb k k') eqn:Hk.
  - apply String.eqb_eq in Hk as ->. intros [= ->]. reflexivity.
  - intros Hg. rewrite IH; [reflexivity|exact Hg].
Qed.

Lemma manager_eta (m : Manager.manager) :
  {| Manager.connections := Manager.connections m |} = m.
Proof. destruct m. reflexivity. Qed.

Lemma set_connected_same (a : adapter) : set_connected (_is_connected a) a = a.
Proof. destruct a. reflexivity. Qed.

Lemma connect_eq (a : adapter) (w : world) :
  Adapter.connect a w
  = if Adapter.is_snowflake a then Adapter.snowflake_tool_connect a w
    else Adapter.sql_tool_connect a w.
Proof. reflexivity. Qed.

(** What [execute] of an adapter comes to when the guard rejects the query:
    the connection step, then the error. *)
Lemma tool_execute_rejected (tool : adapter) (w : world) (q : string) (limit : Z)
    (format : string) (timeout : Z) (kw : kwargs) (e : exn) :
  Guard._validate_query q = Raise e ->
  Manager.tool_execute tool w q limit format timeout kw
  = match (if _is_connected tool then (tool, w, Ok tt) else Adapter.connect tool w) with
    | (a1, w1, Ok _) =>
        (a1, w1, Raise (DatabaseQueryError ("Query execution failed: " +:+ exn_msg e)))
    | (a1, w1, Raise ce) =>
        (a1, w1, Raise (DatabaseQueryError ("Query execution failed: " +:+ exn_msg ce)))
    end.
Proof.
  intros Hv. unfold Manager.tool_execute, Adapter.snowflake_execute, Adapter.base_execute.
  rewrite connect_eq. destruct (Adapter.is_snowflake tool).
  - destruct (if _is_connected tool then _ else _) as [[a1 w1] [[]|ce]];
      [rewrite Hv|]; reflexivity.
  - destruct (if _is_connected tool then _ else _) as [[a1 w1] [[]|ce]];
      [rewrite Hv|]; reflexivity.
Qed.

(** X4: a query the guard rejects is never sent to a backend. On a connection
    whose adapter is connected, [execute] of the manager changes nothing and
    raises a query error that carries the name of the connection and the
    verdict of the guard. The adapter of a connection not yet connected
    connects first: the guard reads the query after that, and the error is
    the same. *)
Theorem rejected_query_is_never_run (m : Manager.manager) (w : world) (cname q : string)
    (limit : Z) (format : string) (timeout : Z) (kw : kwargs) (tool : adapter) (e : exn) :
  PyDict.get cname (Manager.connections m) = Some tool ->
  Guard._validate_query q = Raise e ->
  let rejected :=
    Raise (DatabaseQueryError
             ("Query failed on " +:+ cname +:+ ": Query execution failed: " +:+ exn_msg e)) in
  (_is_connected tool = true ->
     Manager.execute m w cname q limit format timeout kw = (m, w, rejected)) /\
  (forall a1 w1,
     _is_connected tool = false -> Adapter.connect tool w = (a1, w1, Ok tt) ->
     Manager.execute m w cname q limit format timeout kw
     = ({| Manager.connections := PyDict.set cname a1 (Manager.connections m) |}, w1, rejected)
     /\ objs w1 = objs w /\ _is_connected a1 = true).
Proof.
  intros Hget Hv rejected. subst rejected. unfold Manager.execute. rewrite Hget.
  rewrite (tool_execute_rejected _ _ _ _ _ _ _ _ Hv). split.
  - intros ->. rewrite (set_same _ _ _ Hget), manager_eta. reflexivity.
  - intros a1 w1 -> Hc. rewrite Hc. split; [reflexivity|].
    apply connect_frame in Hc as [(Ho & _) Hcon]. rewrite app_nil_r in Ho.
    split; [exact Ho|]. apply (Hcon tt). reflexivity.
Qed.

(** X5: a connection that cannot be opened is reported as a query error, not
    as a connection error, whatever the query is (the guard has not read it
    yet): the message names the connection, then the failure of [execute],
    then the failure of [connect] with the text of the driver. The adapter
    stays disconnected, so that the next call tries again, and no row object
    is made. *)
Theorem failed_connection_is_a_query_error (m : Manager.manager) (w : world)
    (cname q : string) (limit : Z) (format : string) (timeout : Z) (kw : kwargs)
    (tool : adapter) (d : db) (msg : string) :
  PyDict.get cname (Manager.connections m) = Some tool ->
  _is_connected tool = false ->
  (Adapter.is_snowflake tool = false ->
   sql_connect (database_type tool) (deref (objs w) (connection_params tool)) (dbs w)
   = (d, Some msg) ->
   Manager.execute m w cname q limit format timeout kw
   = (m, Adapter.set_dbs d w,
      Raise (DatabaseQueryError
               ("Query failed on " +:+ cname +:+
                ": Query execution failed: Failed to connect to " +:+
                database_type tool +:+ ": " +:+ msg)))) /\
  (Adapter.is_snowflake tool = true ->
   snowflake_connect (deref (objs w) (connection_params tool)) (dbs w) = (d, Some msg) ->
   Manager.execute m w cname q limit format timeout kw
   = (m, Adapter.set_dbs d w,
      Raise (DatabaseQueryError
               ("Query failed on " +:+ cname +:+
                ": Query execution failed: Failed to connect to Snowflake: " +:+ msg)))).
Proof.
  intros Hget Hcon.
  assert (set_connected false tool = tool) as Hsame.
  { rewrite <- Hcon. apply set_connected_same. }
  split; intros Hsf Hdrv; unfold Manager.execute, Manager.tool_execute,
    Adapter.snowflake_execute, Adapter.base_execute, Adapter.connect,
    Adapter.snowflake_tool_connect, Adapter.sql_tool_connect;
    rewrite Hget, Hsf, Hcon, ?Hsf, Hdrv, Hsame; cbn;
    rewrite (set_same _ _ _ Hget), manager_eta; reflexivity.
Qed.

End ExecuteErrorFacts.

(** A [DROP] on the connected adapter of [A]. *)
Lemma rejected_query_is_never_run_witness :
  @Manager.execute Cases.runtime Cases.connected_manager
    (Cases.world_of None [Demo.one_row] [Demo.sqlite_descriptor] None)
    "A" "DROP TABLE t" 100 "table" 30 no_kwargs
  = (Cases.connected_manager, Cases.world_of None [Demo.one_row] [Demo.sqlite_descriptor] None,
     Raise (DatabaseQueryError
              "Query failed on A: Query execution failed: Query contains forbidden operation: DROP")).
Proof.
  exact (proj1 (@rejected_query_is_never_run Cases.runtime Cases.connected_manager
                  (Cases.world_of None [Demo.one_row] [Demo.sqlite_descriptor] None)
                  "A" "DROP TABLE t" 100 "table" 30 no_kwargs
                  (set_connected true (Demo.sqlite_adapter 0))
                  (DatabaseQueryError "Query contains forbidden operation: DROP")
                  eq_refl eq_refl) eq_refl).
Defined.

(** A query on [A] when no connection can be opened. *)
Lemma failed_connection_is_a_query_error_witness :
  @Manager.execute Cases.refusing_runtime Demo.manager0
    (Cases.world_of (Some "connection refused") [] [Demo.sqlite_descriptor] None)
    "A" "SELECT 1" 100 "table" 30 no_kwargs
  = (Demo.manager0, Cases.world_of (Some "connection refused") [] [Demo.sqlite_descriptor] None,
     Raise (DatabaseQueryError
              "Query failed on A: Query execution failed: Failed to connect to sqlite: connection refused")).
Proof.
  exact (proj1 (@failed_connection_is_a_query_error Cases.refusing_runtime Demo.manager0
                  (Cases.world_of (Some "connection refused") [] [Demo.sqlite_descriptor] None)
                  "A" "SELECT 1" 100 "table" 30 no_kwargs (Demo.sqlite_adapter 0) tt
                  "connection refused" eq_refl eq_refl) eq_refl eq_refl).
Defined.

(** ** A query that succeeds *)

Section ExecuteSuccessFacts.
Context `{Runtime}.

(** A successful [execute_query] of a connected SQL adapter. *)
Lemma sql_execute_query_ok (a a' : adapter) (w w' : world) (q : string) (timeout : Z)
    (rows : list loc) (cols : list string) :
  _is_connected a = true ->
  Adapter.sql_execute_query a w q timeout = (a', w', Ok (rows, cols)) ->
  a' = a /\ (rows = [] -> cols = []).
Proof.
  unfold Adapter.sql_execute_query, Adapter.sql_tool_connect. intros -> He.
  destruct (sql_run _ _ _ _ _) as [d [msg|[raw names]]]; [simplify_eq|].
  rewrite alloc_all_spec in He. simplify_eq. split; [reflexivity|].
  destruct raw; [reflexivity|discriminate].
Qed.

Lemma snowflake_execute_query_ok (a a' : adapter) (w w' : world) (q : string) (timeout : Z)
    (warehouse : option string) (cached : bool) (rows : list loc) (cols : list string) :
  _is_connected a = true ->
  Adapter.snowflake_execute_query a w q timeout warehouse cached = (a', w', Ok (rows, cols)) ->
  a' = a.
Proof.
  unfold Adapter.snowflake_execute_query, Adapter.snowflake_tool_connect. intros -> He.
  destruct (snowflake_run _ _ _ _ _ _) as [d [msg|[raw names]]]; [simplify_eq|].
  rewrite alloc_all_spec in He. simplify_eq. reflexivity.
Qed.

(** After a successful [execute] the adapter is connected; the one of a SQL
    adapter reports no column when it reports no row. *)
Lemma base_execute_ok (a a' : adapter) (w w' : world) (q : string) (limit : Z)
    (format : string) (timeout : Z) (r : query_result) :
  Adapter.base_execute a w q limit format timeout = (a', w', Ok r) ->
  _is_connected a' = true /\
  (Adapter.is_snowflake a = false -> row_count r = 0%nat -> columns r = []).
Proof.
  unfold Adapter.base_execute. intros He.
  destruct (if _is_connected a then _ else _) as [[a1 w1] [[]|e]] eqn:Hc;
    [|cbn in He; simplify_eq].
  apply (ensure_connected_frame _ _ _ _ _ Adapter.connect connect_frame) in Hc
    as [(_ & _ & Hcls & _) Hcon].
  specialize (Hcon tt eq_refl).
  destruct (Guard._validate_query q) as [[]|e]; [|cbn in He; simplify_eq].
  cbv zeta in He. unfold Adapter.execute_query in He.
  assert (Adapter.is_snowflake a1 = Adapter.is_snowflake a) as Hsf.
  { unfold Adapter.is_snowflake. rewrite Hcls. reflexivity. }
  rewrite Hsf in He. destruct (Adapter.is_snowflake a).
  - destruct (Adapter.snowflake_execute_query _ _ _ _ _ _) as [[a2 w2] [[rows cols]|e]] eqn:Hq;
      [|cbn in He; simplify_eq].
    apply snowflake_execute_query_ok in Hq as ->; [|exact Hcon].
    destruct (Formatter._format_results _ _ _ _); cbn in He; simplify_eq.
    split; [exact Hcon|discriminate].
  - destruct (Adapter.sql_execute_query _ _ _ _) as [[a2 w2] [[rows cols]|e]] eqn:Hq;
      [|cbn in He; simplify_eq].
    apply sql_execute_query_ok in Hq as [-> Hcols]; [|exact Hcon].
    destruct (Formatter._format_results _ _ _ _); cbn in He; simplify_eq.
    split; [exact Hcon|]. cbn. intros _ Hn. apply Hcols.
    destruct rows; [reflexivity|discriminate].
Qed.

Lemma snowflake_execute_ok (a a' : adapter) (w w' : world) (q : string) (limit : Z)
    (format : string) (timeout : Z) (warehouse : option string) (cached : bool)
    (r : query_result) :
  Adapter.snowflake_execute a w q limit format timeout warehouse cached = (a', w', Ok r) ->
  _is_connected a' = true.
Proof.
  unfold Adapter.snowflake_execute. intros He.
  destruct (if _is_connected a then _ else _) as [[a1 w1] [[]|e]] eqn:Hc;
    [|cbn in He; simplify_eq].
  apply (ensure_connected_frame _ _ _ _ _ Adapter.snowflake_tool_connect
           snowflake_tool_connect_frame) in Hc as [_ Hcon].
  specialize (Hcon tt eq_refl).
  destruct (Guard._validate_query q) as [[]|e]; [|cbn in He; simplify_eq].
  cbv zeta in He.
  destruct (Adapter.snowflake_execute_query _ _ _ _ _ _) as [[a2 w2] [[rows cols]|e]] eqn:Hq;
    [|cbn in He; simplify_eq].
  apply snowflake_execute_query_ok in Hq as ->; [|exact Hcon].
  destruct (Formatter._format_results _ _ _ _); cbn in He; simplify_eq. exact Hcon.
Qed.

(** X6: a SQL adapter reports the column names only with rows. When a
    successful [execute] of a PostgreSQL, MySQL, SQLite or generic SQL
    adapter counts no row, its list of columns is empty, whatever the
    statement selects. *)
Theorem empty_sql_result_has_no_columns (a a' : adapter) (w w' : world) (q : string)
    (limit : Z) (format : string) (timeout : Z) (r : query_result) :
  Adapter.is_snowflake a = false ->
  Adapter.base_execute a w q limit format timeout = (a', w', Ok r) ->
  row_count r = 0%nat ->
  columns r = [].
Proof. intros Hsf He. apply base_execute_ok in He as [_ Hcols]. apply Hcols, Hsf. Qed.

Lemma get_set_other {V : Type} (k k' : string) (v : V) (d : pydict V) :
  k' <> k -> PyDict.get k' (PyDict.set k v d) = PyDict.get k' d.
Proof. intros Hne. apply get_set_ne. congruence. Qed.

Lemma tool_execute_ok (a a' : adapter) (w w' : world) (q : string) (limit : Z)
    (format : string) (timeout : Z) (kw : kwargs) (r : query_result) :
  Manager.tool_execute a w q limit format timeout kw = (a', w', Ok r) ->
  _is_connected a' = true.
Proof.
  unfold Manager.tool_execute. destruct (Adapter.is_snowflake a); intros He.
  - eapply snowflake_execute_ok, He.
  - eapply base_execute_ok, He.
Qed.

Lemma types_set (k : string) (tool tool' : adapter) (d : pydict adapter) :
  PyDict.get k d = Some tool -> name tool' = name tool ->
  map (fun kv => (fst kv, name (snd kv))) (PyDict.set k tool' d)
  = map (fun kv => (fst kv, name (snd kv))) d.
Proof.
  intros Hget Hn. induction d as [|[k' v'] d IH]; simpl in *; [discriminate|].
  destruct (String.eqb k k') eqn:Hk.
  - apply String.eqb_eq in Hk as ->. injection Hget as ->. simpl. rewrite Hn. reflexivity.
  - simpl. rewrite IH; [reflexivity|exact Hget].
Qed.

(** X7: a call of [execute] of the manager keeps the registry as it is, but
    for the state of the one adapter it has used. The names and their order
    stay, every other adapter stays, and the adapter of the connection keeps
    its class, its name and its descriptor; after a success it is connected,
    and the result carries the name of the connection and the name of the
    adapter. *)
Theorem execute_keeps_registry (m m' : Manager.manager) (w w' : world) (cname q : string)
    (limit : Z) (format : string) (timeout : Z) (kw : kwargs) (out : res query_result) :
  Manager.execute m w cname q limit format timeout kw = (m', w', out) ->
  Manager.get_available_connections m' = Manager.get_available_connections m /\
  Manager.get_connection_types m' = Manager.get_connection_types m /\
  (forall k, k <> cname ->
     PyDict.get k (Manager.connections m') = PyDict.get k (Manager.connections m)) /\
  (forall tool, PyDict.get cname (Manager.connections m) = Some tool ->
     exists tool',
       PyDict.get cname (Manager.connections m') = Some tool' /\
       cls tool' = cls tool /\ name tool' = name tool /\
       connection_params tool' = connection_params tool /\
       forall r, out = Ok r ->
         _is_connected tool' = true /\
         connection_name r = Some cname /\ connection_type r = Some (name tool)).
Proof.
  unfold Manager.execute, Manager.get_available_connections, Manager.get_connection_types.
  destruct (PyDict.get cname (Manager.connections m)) as [tool|] eqn:Hget.
  - destruct (Manager.tool_execute tool w q limit format timeout kw) as [[tool' w1] out1] eqn:He.
    pose proof (tool_execute_heap _ _ _ _ _ _ _ _ _ _ He) as (new & (_ & _ & Hc & Hn & _ & Hp) & _).
    assert (forall r, out1 = Ok r -> _is_connected tool' = true) as Hcon.
    { intros r ->. eapply tool_execute_ok, He. }
    destruct out1 as [r1|e]; intros [= <- <- <-]; cbn [Manager.connections];
      (split; [apply keys_set_present; congruence|]);
      (split; [apply types_set with tool; assumption|]);
      (split; [intros k Hk; apply get_set_other, Hk|]);
      intros tool0 [= <-]; exists tool'; rewrite get_set_eq;
      (split; [reflexivity|]); (split; [exact Hc|]); (split; [exact Hn|]);
      (split; [exact Hp|]); intros r [= <-].
    rewrite <- Hn. split; [|split; reflexivity]. eapply Hcon. reflexivity.
  - intros [= <- <- <-]. split; [reflexivity|]. split; [reflexivity|].
    split; [reflexivity|]. intros tool [=].
Qed.

End ExecuteSuccessFacts.

(** A statement that returns no row, on a SQLite adapter. *)
Lemma empty_sql_result_has_no_columns_witness :
  let out := @Adapter.base_execute Cases.quiet_runtime (Demo.sqlite_adapter 0)
               (Cases.world_of None [] [Demo.sqlite_descriptor] None)
               "SELECT 1" 100 "json" 30 in
  exists r, snd out = Ok r /\ row_count r = 0%nat /\ columns r = [].
Proof.
  cbv zeta. eexists. split; [vm_compute; reflexivity|]. split; [reflexivity|].
  eapply (@empty_sql_result_has_no_columns Cases.quiet_runtime (Demo.sqlite_adapter 0) _
            (Cases.world_of None [] [Demo.sqlite_descriptor] None) _
            "SELECT 1" 100 "json" 30); [reflexivity|vm_compute; reflexivity|reflexivity].
Defined.

(** A query on [A]: the registry after it. *)
Lemma execute_keeps_registry_witness :
  let out := @Manager.execute Cases.runtime Demo.manager0
               (Cases.world_of None [Demo.one_row]
                  [Demo.sqlite_descriptor; Demo.sqlite_descriptor] None)
               "A" "SELECT 1" 100 "json" 30 no_kwargs in
  Manager.get_available_connections (fst (fst out)) = ["A"; "B"] /\
  Manager.get_connection_types (fst (fst out))
  = [("A", "sql_database_sqlite"); ("B", "sql_database_sqlite")].
Proof.
  cbv zeta.
  pose proof (@execute_keeps_registry Cases.runtime _ _ _ _ _ _ _ _ _ _ _
                (triple_eta (@Manager.execute Cases.runtime Demo.manager0
                   (Cases.world_of None [Demo.one_row]
                      [Demo.sqlite_descriptor; Demo.sqlite_descriptor] None)
                   "A" "SELECT 1" 100 "json" 30 no_kwargs))) as (Hn & Ht & _).
  split; [exact Hn|exact Ht].
Defined.

(** ** The registry of a new manager *)

Section RegistryFacts.
Context `{Runtime}.
Import RegistrySpec.

Lemma lower_char_idem (c : ascii) : PyStr.lower_char (PyStr.lower_char c) = PyStr.lower_char c.
Proof. destruct c as [[] [] [] [] [] [] [] []]; reflexivity. Qed.

Lemma lower_idem (s : string) : PyStr.lower (PyStr.lower s) = PyStr.lower s.
Proof. induction s as [|c s IH]; simpl; [|rewrite lower_char_idem, IH]; reflexivity. Qed.

Lemma normalise_idem (d : pydict value) : normalise (normalise d) = normalise d.
Proof.
  destruct (PyDict.get "database_type" d) as [[| | |s|]|] eqn:Hg;
    try (unfold normalise at 2; rewrite Hg; reflexivity).
  unfold normalise at 2 3. rewrite Hg.
  destruct (canonical (PyStr.lower s)) eqn:Hc; unfold normalise.
  - rewrite get_set_eq, lower_idem, Hc, set_set. reflexivity.
  - rewrite Hg, Hc. reflexivity.
Qed.

Lemma type_of_normalise (d : pydict value) : type_of (normalise d) = type_of d.
Proof.
  unfold type_of, normalise.
  destruct (PyDict.get "database_type" d) as [[| | |s|]|] eqn:Hg; rewrite ?Hg; try reflexivity.
  destruct (canonical (PyStr.lower s)); [|rewrite Hg; reflexivity].
  rewrite get_set_eq, lower_idem. reflexivity.
Qed.

(** ** The heap under [alter] *)

Lemma deref_alter (f : pydict value -> pydict value) (l l' : loc) (h : heap) :
  f [] = [] ->
  deref (alter f l' h) l = if decide (l = l') then f (deref h l) else deref h l.
Proof.
  intros Hf. unfold deref. destruct (decide (l = l')) as [->|Hne].
  - rewrite list_lookup_alter_eq. destruct (h !! l'); simpl; [reflexivity|]. rewrite Hf. reflexivity.
  - rewrite list_lookup_alter_ne; [reflexivity|congruence].
Qed.

Lemma alter_same_at (f : pydict value -> pydict value) (l : loc) (h : heap) :
  (forall d, h !! l = Some d -> f d = d) -> alter f l h = h.
Proof.
  intros Hf. apply list_eq. intros i. destruct (decide (i = l)) as [->|Hne].
  - rewrite list_lookup_alter_eq. destruct (h !! l) eqn:Hl; simpl; [|reflexivity].
    rewrite Hf; reflexivity.
  - rewrite list_lookup_alter_ne; [reflexivity|congruence].
Qed.

Lemma alter_ext_at (f g : pydict value -> pydict value) (l : loc) (h : heap) :
  (forall d, h !! l = Some d -> f d = g d) -> alter f l h = alter g l h.
Proof.
  intros Hf. apply list_eq. intros i. destruct (decide (i = l)) as [->|Hne].
  - rewrite !list_lookup_alter_eq. destruct (h !! l) eqn:Hl; simpl; [|reflexivity].
    rewrite Hf; reflexivity.
  - rewrite !list_lookup_alter_ne; [reflexivity|congruence|congruence].
Qed.

Lemma normalise_nil : normalise [] = [].
Proof. reflexivity. Qed.

Lemma deref_alter_at (f : pydict value -> pydict value) (l : loc) (h : heap) (d : pydict value) :
  h !! l = Some d -> deref (alter f l h) l = f d.
Proof. intros Hl. unfold deref. rewrite list_lookup_alter_eq, Hl. reflexivity. Qed.

Lemma deref_some (h : heap) (l : loc) (k : string) (v : value) :
  PyDict.get k (deref h l) = Some v -> h !! l = Some (deref h l).
Proof. unfold deref. destruct (h !! l); [reflexivity|discriminate]. Qed.

(** ** The construction of one tool *)

Lemma get_lower_type_of (d : pydict value) :
  Manager.get_lower "database_type" "postgresql" d
  = match type_of d with
    | Some t => Ok t
    | None => Raise (OtherError "object has no attribute 'lower'")
    end.
Proof.
  unfold Manager.get_lower, type_of.
  destruct (PyDict.get "database_type" d) as [[| | |s|]|]; reflexivity.
Qed.

(** What [SQLDatabaseTool.__init__] has checked when it returns, and the
    tool it returns. *)
Lemma sql_init_shape (c : tool_class) (h : heap) (l : loc) (a : adapter) :
  Manager.sql_database_tool_init c h l = Ok a ->
  exists t, type_of (deref h l) = Some t /\
    SQLALCHEMY_AVAILABLE = true /\
    (t = "postgresql" -> ASYNCPG_AVAILABLE = true) /\
    (t = "mysql" -> AIOMYSQL_AVAILABLE = true) /\
    (t = "sqlite" -> AIOSQLITE_AVAILABLE = true) /\
    a = {| cls := c; name := "sql_database_" +:+ t; database_type := t;
           connection_params := l; _is_connected := false |}.
Proof.
  unfold Manager.sql_database_tool_init, Manager.base_database_tool_init.
  rewrite get_lower_type_of.
  destruct SQLALCHEMY_AVAILABLE; [|discriminate]. cbn [negb].
  destruct (type_of (deref h l)) as [t|]; [|discriminate].
  destruct (String.eqb t "postgresql") eqn:Hpg; cbn [andb].
  { apply String.eqb_eq in Hpg as ->. destruct ASYNCPG_AVAILABLE; [|discriminate]. cbn.
    destruct (base_tool_init _ _); [discriminate|]. intros [= <-].
    exists "postgresql". repeat split; auto; discriminate. }
  apply String.eqb_neq in Hpg.
  destruct (String.eqb t "mysql") eqn:Hmy; cbn [andb].
  { apply String.eqb_eq in Hmy as ->. destruct AIOMYSQL_AVAILABLE; [|discriminate]. cbn.
    destruct (base_tool_init _ _); [discriminate|]. intros [= <-].
    exists "mysql". repeat split; auto; discriminate. }
  apply String.eqb_neq in Hmy.
  destruct (String.eqb t "sqlite") eqn:Hsq; cbn [andb].
  { apply String.eqb_eq in Hsq as ->. destruct AIOSQLITE_AVAILABLE; [|discriminate]. cbn.
    destruct (base_tool_init _ _); [discriminate|]. intros [= <-].
    exists "sqlite". repeat split; auto; discriminate. }
  apply String.eqb_neq in Hsq.
  destruct (base_tool_init _ _); [discriminate|]. intros [= <-].
  exists t. repeat split; auto; congruence.
Qed.

Lemma sql_init_ext (c : tool_class) (h h' : heap) (l : loc) :
  deref h l = deref h' l ->
  Manager.sql_database_tool_init c h l = Manager.sql_database_tool_init c h' l.
Proof. unfold Manager.sql_database_tool_init. intros ->. reflexivity. Qed.

(** The branch [make_tool] takes, by the database type the descriptor names. *)
Lemma make_tool_cases (h : heap) (l : loc) :
  Manager.make_tool h l
  = match PyDict.get "database_type" (deref h l) with
    | Some (VStr s) =>
        let t := PyStr.lower s in
        if String.eqb t "postgresql"
        then Manager.sql_subclass_init PostgreSQLTool "postgresql" h l
        else if String.eqb t "mysql"
        then Manager.sql_subclass_init MySQLTool "mysql" h l
        else if String.eqb t "sqlite"
        then Manager.sql_subclass_init SQLiteTool "sqlite" h l
        else if String.eqb t "snowflake"
        then (h, Manager.snowflake_tool_init l)
        else (h, Manager.sql_database_tool_init SQLDatabaseTool h l)
    | None => (h, Manager.sql_database_tool_init SQLDatabaseTool h l)
    | Some _ => (h, Raise (OtherError "object has no attribute 'lower'"))
    end.
Proof.
  unfold Manager.make_tool, Manager.get_lower.
  destruct (PyDict.get "database_type" (deref h l)) as [[| | |s|]|]; reflexivity.
Qed.

(** The heap after the construction of a tool: the descriptor has its
    database type in canonical form. *)
Lemma make_tool_heap (h : heap) (l : loc) :
  fst (Manager.make_tool h l) = alter normalise l h.
Proof.
  rewrite make_tool_cases.
  destruct (PyDict.get "database_type" (deref h l)) as [v|] eqn:Hg.
  - pose proof (deref_some _ _ _ _ Hg) as Hl.
    assert (forall s t, v = VStr s -> PyStr.lower s = t -> canonical t = true ->
              alter (PyDict.set "database_type" (VStr t)) l h = alter normalise l h) as Hsub.
    { intros s t -> Ht Hcan. apply alter_ext_at. intros d Hd.
      rewrite Hl in Hd. injection Hd as <-. unfold normalise. rewrite Hg, Ht, Hcan.
      reflexivity. }
    assert (normalise (deref h l) = deref h l -> h = alter normalise l h) as Hsame.
    { intros Hn. symmetry. apply alter_same_at. intros d Hd.
      rewrite Hl in Hd. injection Hd as <-. exact Hn. }
    destruct v as [| | |s|]; try (apply Hsame; unfold normalise; rewrite Hg; reflexivity).
    cbv zeta.
    destruct (String.eqb (PyStr.lower s) "postgresql") eqn:H1.
    { apply String.eqb_eq in H1. apply (Hsub s); auto. }
    destruct (String.eqb (PyStr.lower s) "mysql") eqn:H2.
    { apply String.eqb_eq in H2. apply (Hsub s); auto. }
    destruct (String.eqb (PyStr.lower s) "sqlite") eqn:H3.
    { apply String.eqb_eq in H3. apply (Hsub s); auto. }
    assert (normalise (deref h l) = deref h l) as Hn.
    { unfold normalise, canonical. rewrite Hg, H1, H2, H3. reflexivity. }
    destruct (String.eqb (PyStr.lower s) "snowflake"); apply Hsame, Hn.
  - cbn [fst]. symmetry. apply alter_same_at. intros d Hd.
    unfold deref in Hg. rewrite Hd in Hg. simpl in Hg. unfold normalise. rewrite Hg. reflexivity.
Qed.

Lemma subclass_result_ext (c : tool_class) (t : string) (h h' : heap) (l : loc)
    (d d' : pydict value) :
  h !! l = Some d -> h' !! l = Some d' ->
  PyDict.set "database_type" (VStr t) d' = PyDict.set "database_type" (VStr t) d ->
  snd (Manager.sql_subclass_init c t h' l) = snd (Manager.sql_subclass_init c t h l).
Proof.
  intros Hd Hd' Heq. unfold Manager.sql_subclass_init. cbn [snd]. apply sql_init_ext.
  rewrite (deref_alter_at _ _ _ _ Hd), (deref_alter_at _ _ _ _ Hd'). exact Heq.
Qed.

(** The tool built for a descriptor does not depend on whether its database
    type is already in canonical form. *)
Lemma make_tool_result_stable (h h' : heap) (l : loc) :
  deref h' l = deref h l \/ deref h' l = normalise (deref h l) ->
  snd (Manager.make_tool h' l) = snd (Manager.make_tool h l).
Proof.
  intros Hd. rewrite !make_tool_cases.
  destruct (PyDict.get "database_type" (deref h l)) as [v|] eqn:Hg.
  - pose proof (deref_some _ _ _ _ Hg) as Hl.
    assert (exists v', PyDict.get "database_type" (deref h' l) = Some v' /\
              (forall s, v = VStr s -> exists s', v' = VStr s' /\ PyStr.lower s' = PyStr.lower s) /\
              ((forall s, v <> VStr s) -> v' = v) /\
              forall t, PyDict.set "database_type" (VStr t) (deref h' l)
                        = PyDict.set "database_type" (VStr t) (deref h l))
      as (v' & Hg' & Hstr & Hoth & Hset).
    { destruct Hd as [->|Hd]; [exists v; repeat split; eauto|].
      assert ((exists s, v = VStr s /\ canonical (PyStr.lower s) = true /\
                 deref h' l = PyDict.set "database_type" (VStr (PyStr.lower s)) (deref h l)) \/
              deref h' l = deref h l) as [(s & -> & Hcan & ->)| ->].
      { rewrite Hd. unfold normalise. rewrite Hg. destruct v as [| | |s|]; auto.
        destruct (canonical (PyStr.lower s)) eqn:Hcan; eauto. }
      - exists (VStr (PyStr.lower s)). rewrite get_set_eq.
        split; [reflexivity|]. split; [|split].
        + intros s0 [= <-]. eexists. split; [reflexivity|apply lower_idem].
        + intros Hv. destruct (Hv s). reflexivity.
        + intros t. apply set_set.
      - exists v. repeat split; eauto. }
    pose proof (deref_some _ _ _ _ Hg') as Hl'. rewrite Hg'.
    destruct v as [| | |s|]; try (rewrite (Hoth ltac:(discriminate)); reflexivity).
    destruct (Hstr s eq_refl) as (s' & -> & Hlow). cbv zeta. rewrite Hlow.
    repeat (destruct (String.eqb (PyStr.lower s) _);
            [eapply subclass_result_ext; eauto|]).
    destruct (String.eqb (PyStr.lower s) _); [reflexivity|].
    cbn [snd]. unfold Manager.sql_database_tool_init. rewrite !get_lower_type_of.
    assert (type_of (deref h' l) = type_of (deref h l)) as ->; [|reflexivity].
    destruct Hd as [->| ->]; [reflexivity|apply type_of_normalise].
  - assert (deref h' l = deref h l) as Hsame.
    { destruct Hd as [->| ->]; [reflexivity|]. unfold normalise. rewrite Hg. reflexivity. }
    rewrite Hsame, Hg. cbn [snd]. apply sql_init_ext. exact Hsame.
Qed.

(** ** The loop over the store *)

(** The heap when every descriptor of [s] has had its tool built. *)
Lemma initialize_connections_heap (s : pydict loc) (conns : pydict adapter) (h : heap) :
  snd (Manager._initialize_connections s conns h)
  = fold_left (fun h kv => alter normalise (snd kv) h) s h.
Proof.
  revert conns h. induction s as [|[cname config] rest IH]; intros conns h; [reflexivity|].
  cbn [Manager._initialize_connections fold_left snd].
  pose proof (make_tool_heap h config) as Hh.
  destruct (Manager.make_tool h config) as [h1 [tool|e]]; cbn [fst] in Hh; subst h1; apply IH.
Qed.

Lemma deref_normalised (s : pydict loc) (h : heap) (l : loc) :
  deref (fold_left (fun h kv => alter normalise (snd kv) h) s h) l
  = if decide (l ∈ map snd s) then normalise (deref h l) else deref h l.
Proof.
  revert h. induction s as [|[cname config] rest IH]; intros h; [reflexivity|].
  cbn [fold_left map snd]. rewrite IH, (deref_alter _ _ _ _ normalise_nil).
  destruct (decide (l ∈ map snd rest)) as [Hin|Hin];
    destruct (decide (l = config)) as [->|Hne];
    destruct (decide (_ ∈ _ :: _)) as [Hin'|Hin'];
    rewrite ?normalise_idem; try reflexivity; exfalso;
    rewrite elem_of_cons in Hin'; intuition congruence.
Qed.

Lemma length_normalised (s : pydict loc) (h : heap) :
  length (fold_left (fun h kv => alter normalise (snd kv) h) s h) = length h.
Proof.
  revert h. induction s as [|kv rest IH]; intros h; [reflexivity|].
  cbn [fold_left]. rewrite IH. apply length_alter.
Qed.

(** The registry when every descriptor of [s] has had its tool built; [h0]
    is the heap at the start. *)
Lemma initialize_connections_registry (s : pydict loc) (conns : pydict adapter) (h h0 : heap) :
  (forall l, deref h l = deref h0 l \/ deref h l = normalise (deref h0 l)) ->
  List.NoDup (PyDict.keys conns ++ PyDict.keys s) ->
  fst (Manager._initialize_connections s conns h) = conns ++ omap (built h0) s.
Proof.
  revert conns h. induction s as [|[cname config] rest IH]; intros conns h Hh Hnd.
  - simpl. rewrite app_nil_r. reflexivity.
  - cbn [Manager._initialize_connections omap list_omap].
    pose proof (make_tool_heap h config) as Hh1.
    pose proof (make_tool_result_stable h0 h config (Hh config)) as Hres.
    unfold built at 1. cbn [fst snd]. rewrite <- Hres.
    assert (forall l, deref (alter normalise config h) l = deref h0 l \/
                      deref (alter normalise config h) l = normalise (deref h0 l)) as Hh'.
    { intros l. rewrite (deref_alter _ _ _ _ normalise_nil).
      destruct (decide (l = config)) as [->|_]; [|apply Hh]. right.
      destruct (Hh config) as [->| ->]; [reflexivity|apply normalise_idem]. }
    assert (PyDict.get cname conns = None) as Hfresh.
    { apply get_none_not_in. intros Hin. simpl in Hnd.
      apply List.NoDup_remove_2 in Hnd. apply Hnd, in_or_app. left. exact Hin. }
    destruct (Manager.make_tool h config) as [h1 [tool|e]]; cbn [fst snd] in *; subst h1.
    + rewrite (set_fresh _ _ _ Hfresh), (IH _ _ Hh'), <- app_assoc; [reflexivity|].
      unfold PyDict.keys in *. rewrite map_app, <- app_assoc. exact Hnd.
    + apply (IH _ _ Hh'). unfold PyDict.keys in *. simpl in Hnd.
      apply List.NoDup_remove_1 in Hnd. exact Hnd.
Qed.

Lemma get_built (s : pydict loc) (h : heap) (cname : string) :
  PyDict.wf s ->
  PyDict.get cname (omap (built h) s)
  = match PyDict.get cname s with
    | Some l => match snd (Manager.make_tool h l) with
                | Ok tool => Some tool
                | Raise _ => None
                end
    | None => None
    end.
Proof.
  induction s as [|[k l] rest IH]; intros Hwf; [reflexivity|].
  apply List.NoDup_cons_iff in Hwf as [Hk Hwf]. specialize (IH Hwf). cbn [fst] in Hk.
  cbn [omap list_omap PyDict.get]. unfold built at 1. cbn [fst snd].
  destruct (String.eqb cname k) eqn:Hc.
  - apply String.eqb_eq in Hc as ->.
    destruct (snd (Manager.make_tool h l)); simpl; [rewrite String.eqb_refl; reflexivity|].
    rewrite IH. apply get_none_not_in in Hk. rewrite Hk. reflexivity.
  - destruct (snd (Manager.make_tool h l)); simpl; [rewrite Hc|]; exact IH.
Qed.

Lemma keys_built_sublist (s : pydict loc) (h : heap) :
  sublist (PyDict.keys (omap (built h) s)) (PyDict.keys s).
Proof.
  induction s as [|[k l] rest IH]; [constructor|].
  cbn [omap list_omap]. unfold built at 1. cbn [fst snd].
  destruct (snd (Manager.make_tool h l)); simpl; constructor; exact IH.
Qed.

Lemma manager_new_ok (s : pydict loc) (h h' : heap) (m : Manager.manager) :
  Manager.new s h = (h', Ok m) ->
  h' = snd (Manager._initialize_connections s [] h) /\
  Manager.connections m = fst (Manager._initialize_connections s [] h).
Proof.
  unfold Manager.new. destruct (base_tool_init _ _); [discriminate|].
  destruct (Manager._initialize_connections s [] h) as [conns h1]. intros [= <- <-]. auto.
Qed.

Lemma view_normalised (s : pydict loc) (h : heap) :
  Config.view s (fold_left (fun h kv => alter normalise (snd kv) h) s h)
  = map (fun kv => (fst kv, normalise (snd kv))) (Config.view s h).
Proof.
  unfold Config.view. rewrite map_map. apply map_ext_in. intros [k l] Hin. cbn [fst snd].
  rewrite deref_normalised. destruct (decide _) as [_|Hn]; [reflexivity|].
  destruct Hn. apply list_elem_of_In, in_map_iff. exists (k, l). auto.
Qed.

(** X8: building the manager writes into the descriptors of the store. The
    database type of every descriptor that names PostgreSQL, MySQL or SQLite
    in any letter case is replaced, in the descriptor object itself, by the
    name in lower case; nothing else changes: the other fields, the other
    descriptors and every other dict object stay as they are. *)
Theorem manager_normalises_database_types (s : pydict loc) (h h' : heap)
    (m : Manager.manager) :
  Manager.new s h = (h', Ok m) ->
  length h' = length h /\
  (forall l, In l (map snd s) -> deref h' l = normalise (deref h l)) /\
  (forall l, ~ In l (map snd s) -> deref h' l = deref h l) /\
  Config.view s h' = map (fun kv => (fst kv, normalise (snd kv))) (Config.view s h).
Proof.
  intros Hnew. apply manager_new_ok in Hnew as [-> _].
  rewrite initialize_connections_heap. split; [apply length_normalised|].
  split; [|split].
  - intros l Hin. rewrite deref_normalised. apply list_elem_of_In in Hin.
    destruct (decide _); [reflexivity|tauto].
  - intros l Hin. rewrite deref_normalised.
    destruct (decide _) as [Hd|_]; [|reflexivity]. apply list_elem_of_In in Hd. tauto.
  - apply view_normalised.
Qed.

(** X9: the registry of a new manager follows the store. It holds, in the
    order of the store, one adapter for every descriptor whose tool can be
    built, under the name of the descriptor; a descriptor whose tool cannot
    be built is left out and hinders no other. *)
Theorem registry_follows_the_store (s : pydict loc) (h h' : heap) (m : Manager.manager) :
  PyDict.wf s ->
  Manager.new s h = (h', Ok m) ->
  Manager.connections m = omap (built h) s /\
  (forall cname,
     PyDict.get cname (Manager.connections m)
     = match PyDict.get cname s with
       | Some l => match snd (Manager.make_tool h l) with
                   | Ok tool => Some tool
                   | Raise _ => None
                   end
       | None => None
       end) /\
  sublist (Manager.get_available_connections m) (PyDict.keys s).
Proof.
  intros Hwf Hnew. apply manager_new_ok in Hnew as [_ Hm].
  assert (Manager.connections m = omap (built h) s) as Hc.
  { rewrite Hm. apply (initialize_connections_registry s [] h h); [auto|exact Hwf]. }
  unfold Manager.get_available_connections. rewrite Hc.
  split; [reflexivity|]. split; [|apply keys_built_sublist].
  intros cname. apply get_built, Hwf.
Qed.

(** ** The tool of one descriptor *)

Lemma sql_init_complete (c : tool_class) (h : heap) (l : loc) (t : string) :
  (forall n d, base_tool_init n d = None) ->
  type_of (deref h l) = Some t ->
  drivers_available t = true -> String.eqb t "snowflake" = false ->
  Manager.sql_database_tool_init c h l
  = Ok {| cls := c; name := "sql_database_" +:+ t; database_type := t;
          connection_params := l; _is_connected := false |}.
Proof.
  intros Hinit Ht Hdrv Hsf.
  unfold Manager.sql_database_tool_init, Manager.base_database_tool_init.
  rewrite get_lower_type_of, Ht, Hinit. unfold drivers_available in Hdrv. rewrite Hsf in Hdrv.
  apply andb_true_iff in Hdrv as [-> Hdrv]. cbn [negb].
  destruct (String.eqb t "postgresql") eqn:H1;
    [apply String.eqb_eq in H1 as ->; rewrite Hdrv; reflexivity|].
  destruct (String.eqb t "mysql") eqn:H2;
    [apply String.eqb_eq in H2 as ->; rewrite Hdrv; reflexivity|].
  destruct (String.eqb t "sqlite") eqn:H3;
    [apply String.eqb_eq in H3 as ->; rewrite Hdrv; reflexivity|]. reflexivity.
Qed.

Lemma sql_init_drivers (c : tool_class) (h : heap) (l : loc) (a : adapter) :
  Manager.sql_database_tool_init c h l = Ok a ->
  exists t, type_of (deref h l) = Some t /\
    (String.eqb t "snowflake" = false -> drivers_available t = true) /\
    a = {| cls := c; name := "sql_database_" +:+ t; database_type := t;
           connection_params := l; _is_connected := false |}.
Proof.
  intros Hi. apply sql_init_shape in Hi as (t & Ht & Hsa & Hpg & Hmy & Hsq & ->).
  exists t. split; [exact Ht|]. split; [|reflexivity].
  intros Hsf. unfold drivers_available. rewrite Hsf, Hsa. cbn [andb].
  destruct (String.eqb t "postgresql") eqn:H1; [apply String.eqb_eq in H1; auto|].
  destruct (String.eqb t "mysql") eqn:H2; [apply String.eqb_eq in H2; auto|].
  destruct (String.eqb t "sqlite") eqn:H3; [apply String.eqb_eq in H3; auto|]. reflexivity.
Qed.

Lemma snowflake_init_shape (l : loc) (a : adapter) :
  Manager.snowflake_tool_init l = Ok a ->
  SNOWFLAKE_AVAILABLE = true /\
  a = {| cls := SnowflakeTool; name := "snowflake"; database_type := "";
         connection_params := l; _is_connected := false |}.
Proof.
  unfold Manager.snowflake_tool_init, Manager.base_database_tool_init.
  destruct SNOWFLAKE_AVAILABLE; [|discriminate]. cbn [negb].
  destruct (base_tool_init _ _); [discriminate|]. intros [= <-]. auto.
Qed.

(** The descriptor a subclass of [SQLDatabaseTool] hands to its parent. *)
Lemma type_of_subclass (h : heap) (l : loc) (t : string) (v : value) :
  PyDict.get "database_type" (deref h l) = Some v -> PyStr.lower t = t ->
  type_of (deref (alter (PyDict.set "database_type" (VStr t)) l h) l) = Some t.
Proof.
  intros Hg Ht. rewrite (deref_alter_at _ _ _ _ (deref_some _ _ _ _ Hg)).
  unfold type_of. rewrite get_set_eq, Ht. reflexivity.
Qed.

(** What a tool that [make_tool] has built looks like, with the database
    type [t] its descriptor stands for. *)
Lemma make_tool_shape (h h' : heap) (l : loc) (a : adapter) :
  Manager.make_tool h l = (h', Ok a) ->
  exists t, type_of (deref h l) = Some t /\ drivers_available t = true /\
    if String.eqb t "snowflake"
    then a = {| cls := SnowflakeTool; name := "snowflake"; database_type := "";
                connection_params := l; _is_connected := false |}
    else exists c, c <> SnowflakeTool /\
           a = {| cls := c; name := "sql_database_" +:+ t; database_type := t;
                  connection_params := l; _is_connected := false |}.
Proof.
  rewrite make_tool_cases. unfold type_of.
  destruct (PyDict.get "database_type" (deref h l)) as [v|] eqn:Hg.
  - destruct v as [| | |s|]; try discriminate. cbv zeta.
    assert (forall c t, c <> SnowflakeTool -> PyStr.lower s = t -> PyStr.lower t = t ->
              String.eqb t "snowflake" = false ->
              Manager.sql_subclass_init c t h l = (h', Ok a) ->
              exists t, Some (PyStr.lower s) = Some t /\ drivers_available t = true /\
                if String.eqb t "snowflake"
                then a = {| cls := SnowflakeTool; name := "snowflake"; database_type := "";
                            connection_params := l; _is_connected := false |}
                else exists c, c <> SnowflakeTool /\
                       a = {| cls := c; name := "sql_database_" +:+ t; database_type := t;
                              connection_params := l; _is_connected := false |}) as Hsub.
    { intros c t Hc Hs Ht Hsf. unfold Manager.sql_subclass_init. intros [= _ Hi].
      apply sql_init_drivers in Hi as (t' & Ht' & Hdrv & ->).
      rewrite (type_of_subclass _ _ _ _ Hg Ht) in Ht'. injection Ht' as <-.
      exists t. rewrite Hs, Hsf. split; [reflexivity|]. split; [auto|]. exists c. auto. }
    destruct (String.eqb (PyStr.lower s) "postgresql") eqn:H1.
    { apply String.eqb_eq in H1. apply (Hsub PostgreSQLTool); auto; discriminate. }
    destruct (String.eqb (PyStr.lower s) "mysql") eqn:H2.
    { apply String.eqb_eq in H2. apply (Hsub MySQLTool); auto; discriminate. }
    destruct (String.eqb (PyStr.lower s) "sqlite") eqn:H3.
    { apply String.eqb_eq in H3. apply (Hsub SQLiteTool); auto; discriminate. }
    destruct (String.eqb (PyStr.lower s) "snowflake") eqn:H4.
    + intros [= _ Hi]. apply snowflake_init_shape in Hi as [Hsn ->].
      exists (PyStr.lower s). rewrite H4. split; [reflexivity|]. split; [|reflexivity].
      unfold drivers_available. rewrite H4. exact Hsn.
    + intros [= _ Hi]. apply sql_init_drivers in Hi as (t & Ht & Hdrv & ->).
      unfold type_of in Ht. rewrite Hg in Ht. injection Ht as <-.
      exists (PyStr.lower s). rewrite H4. split; [reflexivity|]. split; [auto|].
      exists SQLDatabaseTool. split; [discriminate|reflexivity].
  - intros [= _ Hi]. apply sql_init_drivers in Hi as (t & Ht & Hdrv & ->).
    unfold type_of in Ht. rewrite Hg in Ht. injection Ht as <-.
    exists "postgresql". split; [reflexivity|]. split; [auto|].
    exists SQLDatabaseTool. split; [discriminate|reflexivity].
Qed.

(** X10: the tool built for a descriptor. It holds the descriptor object
    itself, not a copy, and is not connected. A descriptor that names the
    type snowflake, in any letter case, gets the Snowflake tool, called
    [snowflake]; any other gets a SQL tool called [sql_database_<type>] with
    the type in lower case, a descriptor that names no type being taken for
    PostgreSQL. The drivers of the type are installed. *)
Theorem built_tool_shape (h h' : heap) (l : loc) (a : adapter) :
  Manager.make_tool h l = (h', Ok a) ->
  connection_params a = l /\ _is_connected a = false /\
  exists t, type_of (deref h l) = Some t /\ drivers_available t = true /\
    Adapter.is_snowflake a = String.eqb t "snowflake" /\
    name a = (if String.eqb t "snowflake" then "snowflake" else "sql_database_" +:+ t) /\
    (String.eqb t "snowflake" = false -> database_type a = t).
Proof.
  intros Hm. apply make_tool_shape in Hm as (t & Ht & Hdrv & Ha).
  destruct (String.eqb t "snowflake") eqn:Hsf.
  - subst a. split; [reflexivity|]. split; [reflexivity|].
    exists t. rewrite Hsf. repeat split; auto. discriminate.
  - destruct Ha as (c & Hc & ->). split; [reflexivity|]. split; [reflexivity|].
    exists t. rewrite Hsf. repeat split; auto.
    unfold Adapter.is_snowflake. cbn. destruct c; congruence.
Qed.

(** X11: whether a descriptor gets a tool is a matter of its database type and
    of the drivers only. When [BaseTool.__init__] accepts every tool, a tool
    is built exactly when the database type is a text or is missing and the
    drivers of that type are installed: the Snowflake connector for
    snowflake; SQLAlchemy for every other type, with asyncpg for postgresql
    (and for a missing type), aiomysql for mysql, aiosqlite for sqlite, and
    nothing more for a type the code does not know. *)
Theorem tool_is_built_when_drivers_are_there (h : heap) (l : loc) :
  (forall n d, base_tool_init n d = None) ->
  (exists a, snd (Manager.make_tool h l) = Ok a) <->
  (exists t, type_of (deref h l) = Some t /\ drivers_available t = true).
Proof.
  intros Hinit. split.
  - intros [a Ha]. destruct (Manager.make_tool h l) as [h' r] eqn:Hm. cbn in Ha. subst r.
    apply make_tool_shape in Hm as (t & Ht & Hdrv & _). eauto.
  - intros (t & Ht & Hdrv). rewrite make_tool_cases. unfold type_of in Ht.
    destruct (PyDict.get "database_type" (deref h l)) as [v|] eqn:Hg.
    + destruct v as [| | |s|]; try discriminate. injection Ht as <-. cbv zeta.
      assert (forall c t, PyStr.lower s = t -> PyStr.lower t = t ->
                String.eqb t "snowflake" = false ->
                exists a, snd (Manager.sql_subclass_init c t h l) = Ok a) as Hsub.
      { intros c t Hs Ht Hsf. unfold Manager.sql_subclass_init. cbn [snd].
        erewrite sql_init_complete; eauto using type_of_subclass. rewrite <- Hs. exact Hdrv. }
      destruct (String.eqb (PyStr.lower s) "postgresql") eqn:H1.
      { apply String.eqb_eq in H1. apply Hsub; auto. }
      destruct (String.eqb (PyStr.lower s) "mysql") eqn:H2.
      { apply String.eqb_eq in H2. apply Hsub; auto. }
      destruct (String.eqb (PyStr.lower s) "sqlite") eqn:H3.
      { apply String.eqb_eq in H3. apply Hsub; auto. }
      destruct (String.eqb (PyStr.lower s) "snowflake") eqn:H4.
      * cbn [snd]. unfold Manager.snowflake_tool_init, Manager.base_database_tool_init.
        unfold drivers_available in Hdrv. rewrite H4 in Hdrv. rewrite Hdrv, Hinit. eauto.
      * cbn [snd]. erewrite sql_init_complete; eauto. unfold type_of. rewrite Hg. reflexivity.
    + injection Ht as <-. cbn [snd]. erewrite sql_init_complete; eauto.
      unfold type_of. rewrite Hg. reflexivity.
Qed.

End RegistryFacts.

(** A manager for the one descriptor that names [PostgreSQL]. *)
Lemma manager_normalises_database_types_witness :
  let out := @Manager.new Cases.runtime [("pg", 0%nat)] [Cases.mixed_descriptor] in
  exists m, snd out = Ok m /\
    Config.view [("pg", 0%nat)] (fst out)
    = [("pg", [("database_type", VStr "postgresql"); ("host", VStr "localhost")])].
Proof.
  cbv zeta. eexists. split; [vm_compute; reflexivity|].
  refine (proj2 (proj2 (proj2 (@manager_normalises_database_types Cases.runtime
            [("pg", 0%nat)] [Cases.mixed_descriptor] _ _ _)))).
  vm_compute. reflexivity.
Defined.

(** The registry for two SQLite descriptors. *)
Lemma registry_follows_the_store_witness :
  let s := [("A", 0%nat); ("B", 1%nat)] in
  let h := [Demo.sqlite_descriptor; Demo.sqlite_descriptor] in
  exists m, snd (@Manager.new Cases.runtime s h) = Ok m /\
    Manager.connections m = omap (@RegistrySpec.built Cases.runtime h) s.
Proof.
  cbv zeta. eexists. split; [vm_compute; reflexivity|].
  refine (proj1 (@registry_follows_the_store Cases.runtime [("A", 0%nat); ("B", 1%nat)]
            [Demo.sqlite_descriptor; Demo.sqlite_descriptor] _ _ _ _)).
  - repeat constructor; simpl; intuition discriminate.
  - vm_compute. reflexivity.
Defined.

(** The tool of a SQLite descriptor. *)
Lemma built_tool_shape_witness :
  exists a, snd (@Manager.make_tool Cases.runtime [Demo.sqlite_descriptor] 0) = Ok a /\
    connection_params a = 0%nat /\ _is_connected a = false /\
    name a = "sql_database_sqlite".
Proof.
  eexists. split; [vm_compute; reflexivity|].
  destruct (@built_tool_shape Cases.runtime [Demo.sqlite_descriptor] _ 0 _
              ltac:(vm_compute; reflexivity)) as (Hp & Hc & _).
  split; [exact Hp|]. split; [exact Hc|reflexivity].
Defined.

(** A SQLite descriptor when every driver is installed. *)
Lemma tool_is_built_when_drivers_are_there_witness :
  (exists a, snd (@Manager.make_tool Cases.runtime [Demo.sqlite_descriptor] 0) = Ok a) <->
  (exists t, RegistrySpec.type_of (deref [Demo.sqlite_descriptor] 0) = Some t /\
             @RegistrySpec.drivers_available Cases.runtime t = true).
Proof.
  apply (@tool_is_built_when_drivers_are_there Cases.runtime [Demo.sqlite_descriptor] 0).
  intros n d. reflexivity.
Defined.

(** ** The combined rows, counted *)

Section FanCountFacts.
Context `{Runtime}.
Import FanSpec FanCount.

(** The rows a successful [execute] hands out are as many as it counts. *)
Lemma manager_execute_row_count (m m' : Manager.manager) (w w' : world) (cname q : string)
    (limit : Z) (format : string) (timeout : Z) (kw : kwargs) (r : query_result)
    (rows : list loc) :
  Manager.execute m w cname q limit format timeout kw = (m', w', Ok r) ->
  results r = FRows rows -> length rows = row_count r.
Proof.
  unfold Manager.execute. intros He.
  destruct (PyDict.get cname (Manager.connections m)) as [tool|]; [|discriminate].
  destruct (Manager.tool_execute tool w q limit format timeout kw) as [[a' w1] [r1|e]] eqn:Ha;
    [|discriminate].
  apply tool_execute_heap in Ha as (new & _ & Hr). injection He as <- <- <-.
  destruct (Hr r1 eq_refl) as (Hn & Hrows & _). cbn. intros Hres.
  rewrite (Hrows rows Hres), length_seq, Hn. reflexivity.
Qed.

Lemma length_json_rows (m : Manager.manager) (w : world) (queries : list query_spec)
    (i : nat) (sp : query_spec) :
  length (json_rows sp (outcome true m w queries i sp))
  = counted sp (outcome true m w queries i sp).
Proof.
  unfold outcome, run_spec.
  destruct (Manager.execute _ _ _ _ _ _ _ _) as [[m' w'] [r|e]] eqn:He; [|reflexivity].
  cbn [json_rows counted].
  destruct (String.eqb (default "json" (qs_format sp)) "json") eqn:Hf; [|reflexivity].
  apply String.eqb_eq in Hf. rewrite Hf in He.
  destruct (manager_execute_json _ _ _ _ _ _ _ _ _ _ He) as [rows Hrows]. rewrite Hrows.
  eapply manager_execute_row_count; eauto.
Qed.

Lemma length_combined_upto (m : Manager.manager) (w : world) (queries : list query_spec)
    (n : nat) :
  length (combined_upto true m w queries n) = counted_upto m w queries n.
Proof.
  induction n as [|n IH]; [reflexivity|]. cbn [combined_upto counted_upto].
  rewrite length_app, IH. destruct (queries !! n); [|reflexivity].
  rewrite length_json_rows. reflexivity.
Qed.

(** X12: with [combine_results], [total_rows] of the combined entry is the sum
    of the [row_count] of the queries that succeeded in format [json]; a
    query that failed, or that asked for another format, adds nothing. *)
Theorem total_rows_is_sum_of_row_counts (m : Manager.manager) (w : world)
    (queries : list query_spec) :
  exists data,
    PyDict.get "combined_results"
      (snd (Manager.execute_cross_database_query m w queries true))
    = Some (ECombined (counted_upto m w queries (length queries)) data) /\
    length data = counted_upto m w queries (length queries).
Proof.
  exists (combined_upto true m w queries (length queries)).
  rewrite cross_database_results, get_app, entries_no_combined, length_combined_upto.
  split; reflexivity.
Qed.

End FanCountFacts.

(** ** Changes of the store *)

Section StoreFacts.
Context `{Runtime}.
Import ConfigSpec RegistrySpec StoreSpec.

Lemma view_set (s : pydict loc) (h : heap) (k : string) (l : loc) :
  Config.view (PyDict.set k l s) h = PyDict.set k (deref h l) (Config.view s h).
Proof.
  unfold Config.view. induction s as [|[k' l'] s IH]; [reflexivity|]. simpl.
  destruct (String.eqb k k'); [reflexivity|]. simpl. rewrite IH. reflexivity.
Qed.

Lemma get_del {V : Type} (k k' : string) (d : pydict V) :
  PyDict.wf d ->
  PyDict.get k' (PyDict.del k d) = if String.eqb k' k then None else PyDict.get k' d.
Proof.
  induction d as [|[k0 v0] d IH]; intros Hwf.
  - simpl. destruct (String.eqb k' k); reflexivity.
  - apply List.NoDup_cons_iff in Hwf as [Hk0 Hwf]. cbn [fst] in Hk0. specialize (IH Hwf).
    simpl. destruct (String.eqb k k0) eqn:Hk.
    + apply String.eqb_eq in Hk as <-. destruct (String.eqb k' k) eqn:Hk'; [|reflexivity].
      apply String.eqb_eq in Hk' as ->. apply get_none_not_in, Hk0.
    + simpl. rewrite IH. destruct (String.eqb k' k0) eqn:Hk0'; [|reflexivity].
      apply String.eqb_eq in Hk0' as ->. rewrite String.eqb_sym, Hk. reflexivity.
Qed.

Lemma length_del {V : Type} (k : string) (d : pydict V) :
  PyDict.get k d <> None -> length (PyDict.del k d) = Nat.pred (length d).
Proof.
  induction d as [|[k0 v0] d IH]; simpl; [congruence|].
  destruct (String.eqb k k0); [reflexivity|]. intros Hg. simpl. rewrite (IH Hg).
  destruct d; [simpl in Hg; congruence|reflexivity].
Qed.


Lemma save_to_file_objs (t : Config.config_tool) (w : world) :
  objs (Config._save_to_file t w) = objs w.
Proof. unfold Config._save_to_file. destruct (Config.config_file t); reflexivity. Qed.


(** ** Adding a connection *)

Lemma add_connection_success (cname : string) (config : pydict value)
    (t t' : Config.config_tool) (w w' : world) (r : action_result) :
  Config._add_connection cname config t w = (t', w', r) -> status r = "success" ->
  PyDict.get cname (Config.database_configs t) = None /\
  exists h2 m,
    Manager.new (PyDict.set cname (length (objs w)) (Config.database_configs t))
      (objs w ++ [config]) = (h2, Ok m) /\
    Config.database_configs t'
    = PyDict.set cname (length (objs w)) (Config.database_configs t) /\
    Config.manager t' = Some m /\ Config.config_file t' = Config.config_file t /\
    objs w' = h2.
Proof.
  unfold Config._add_connection.
  destruct (PyDict.has cname _) eqn:Hhas; [intros [= <- <- <-]; discriminate|].
  destruct (PyDict.has "database_type" config); cbn [negb];
    [|intros [= <- <- <-]; discriminate].
  cbn [alloc]. destruct (Manager.new _ _) as [h2 [m|e]];
    intros [= <- <- <-]; [|discriminate]. intros _.
  split; [apply has_false, Hhas|]. exists h2, m. rewrite save_to_file_objs. auto.
Qed.

Lemma manager_new_heap (s : pydict loc) (h h' : heap) (out : res Manager.manager) :
  Manager.new s h = (h', out) ->
  Config.view s h' = normalised_view s h \/ h' = h.
Proof.
  unfold Manager.new. destruct (base_tool_init _ _); [intros [= <- _]; auto|].
  pose proof (initialize_connections_heap s [] h) as Hh.
  destruct (Manager._initialize_connections s [] h) as [conns h1]. cbn [snd] in Hh.
  intros [= <- _]. left. rewrite Hh. apply view_normalised.
Qed.

Lemma view_of_added (s : pydict loc) (h h2 : heap) (cname : string)
    (config : pydict value) (m : Manager.manager) :
  locs_valid s h -> PyDict.get cname s = None ->
  Manager.new (PyDict.set cname (length h) s) (h ++ [config]) = (h2, Ok m) ->
  Config.view (PyDict.set cname (length h) s) h2
  = normalised_view s h ++ [(cname, normalise config)] /\
  Config.view s h2 = normalised_view s h.
Proof.
  intros Hval Hfresh Hnew. apply manager_new_ok in Hnew as [-> _].
  rewrite initialize_connections_heap.
  assert (Config.view (PyDict.set cname (length h) s)
            (fold_left (fun h kv => alter normalise (snd kv) h)
               (PyDict.set cname (length h) s) (h ++ [config]))
          = normalised_view s h ++ [(cname, normalise config)]) as Hview.
  { rewrite view_normalised, (set_fresh _ _ _ Hfresh). unfold normalised_view, Config.view.
    rewrite !map_app, !map_map. cbn [map fst snd]. rewrite deref_alloc. f_equal.
    apply map_ext_in. intros [k l] Hin. cbn [fst snd]. rewrite deref_app_l; [reflexivity|].
    unfold locs_valid in Hval. rewrite Forall_forall in Hval.
    apply (Hval (k, l)), list_elem_of_In, Hin. }
  split; [exact Hview|].
  rewrite (set_fresh _ _ _ Hfresh) in Hview. rewrite (set_fresh _ _ _ Hfresh).
  unfold Config.view in *. rewrite map_app in Hview.
  apply app_inj_1 in Hview as [Hv _]; [exact Hv|].
  unfold normalised_view, Config.view. rewrite !length_map. reflexivity.
Qed.

Lemma fold_set_self {V : Type} (l : pydict V) :
  PyDict.wf l -> fold_left (fun a e => PyDict.set (fst e) (snd e) a) l [] = l.
Proof.
  intros Hwf. rewrite (fold_set_fresh snd l []); [|exact Hwf]. simpl.
  rewrite <- (map_id l) at 2. apply map_ext. intros [k v]. reflexivity.
Qed.

Lemma listed_of_view (t : Config.config_tool) (w : world) :
  PyDict.wf (Config.database_configs t) ->
  listed (Config._list_connections t w)
  = map (fun e => (fst e, Config.redact (snd e)))
      (Config.view (Config.database_configs t) (objs w)).
Proof.
  intros Hwf. rewrite list_connections_view. apply fold_set_self.
  unfold PyDict.wf, PyDict.keys, Config.view in *. rewrite !map_map. cbn [fst]. exact Hwf.
Qed.

(** X14: a connection that has been added is stored and listed last. After
    [_add_connection] has answered success, the store has the new name after
    the names it had, the store reads as before with the new descriptor at
    the end, and [_list_connections] lists just that, secrets hidden. Every
    descriptor is read with its database type in canonical form, as the new
    manager has left it. *)
Theorem added_connection_is_listed (cname : string) (config : pydict value)
    (t t' : Config.config_tool) (w w' : world) (r : action_result) :
  PyDict.wf (Config.database_configs t) ->
  locs_valid (Config.database_configs t) (objs w) ->
  Config._add_connection cname config t w = (t', w', r) ->
  status r = "success" ->
  let stored :=
    normalised_view (Config.database_configs t) (objs w) ++ [(cname, normalise config)] in
  PyDict.keys (Config.database_configs t') = PyDict.keys (Config.database_configs t) ++ [cname] /\
  Config.view (Config.database_configs t') (objs w') = stored /\
  listed (Config._list_connections t' w')
  = map (fun e => (fst e, Config.redact (snd e))) stored /\
  total_connections (Config._list_connections t' w')
  = S (length (Config.database_configs t)).
Proof.
  intros Hwf Hval Hadd Hok stored. subst stored.
  apply add_connection_success in Hadd as (Hfresh & h2 & m & Hnew & Hs & _ & _ & Hh);
    [|exact Hok].
  destruct (view_of_added _ _ _ _ _ _ Hval Hfresh Hnew) as [Hview _].
  assert (PyDict.wf (Config.database_configs t')) as Hwf'.
  { rewrite Hs. apply wf_set, Hwf. }
  split; [|split; [|split]].
  - rewrite Hs, (set_fresh _ _ _ Hfresh). unfold PyDict.keys. rewrite map_app. reflexivity.
  - rewrite Hs, Hh. exact Hview.
  - rewrite (listed_of_view _ _ Hwf'), Hs, Hh, Hview. reflexivity.
  - rewrite list_connections_eta. cbn [total_connections].
    rewrite (listed_of_view _ _ Hwf'), length_map. unfold Config.view. rewrite length_map, Hs.
    rewrite (set_fresh _ _ _ Hfresh), length_app. simpl. lia.
Qed.

(** ** Updating a connection *)

Lemma get_update {V : Type} (e d : pydict V) (k : string) :
  PyDict.wf e ->
  PyDict.get k (PyDict.update e d)
  = match PyDict.get k e with Some v => Some v | None => PyDict.get k d end.
Proof.
  unfold PyDict.update. revert d. induction e as [|[k0 v0] e IH]; intros d Hwf; [reflexivity|].
  apply List.NoDup_cons_iff in Hwf as [Hk0 Hwf]. cbn [fst] in Hk0.
  cbn [fold_left fst snd PyDict.get]. rewrite (IH _ Hwf).
  destruct (String.eqb k k0) eqn:Hk.
  - apply String.eqb_eq in Hk as ->. apply get_none_not_in in Hk0. rewrite Hk0.
    apply get_set_eq.
  - destruct (PyDict.get k e); [reflexivity|]. apply get_set_ne.
    intros ->. rewrite String.eqb_refl in Hk. discriminate.
Qed.

Lemma in_get {V : Type} (k : string) (v : V) (d : pydict V) :
  PyDict.wf d -> In (k, v) d -> PyDict.get k d = Some v.
Proof.
  induction d as [|[k0 v0] d IH]; intros Hwf Hin; [destruct Hin|].
  apply List.NoDup_cons_iff in Hwf as [Hk0 Hwf]. cbn [fst] in Hk0. simpl.
  destruct Hin as [[= -> ->]|Hin]; [rewrite String.eqb_refl; reflexivity|].
  destruct (String.eqb k k0) eqn:Hk; [|apply IH; assumption].
  apply String.eqb_eq in Hk as ->. destruct Hk0. apply in_map_iff. exists (k0, v). auto.
Qed.

Lemma get_in {V : Type} (k : string) (v : V) (d : pydict V) :
  PyDict.get k d = Some v -> In (k, v) d.
Proof.
  induction d as [|[k0 v0] d IH]; simpl; [discriminate|].
  destruct (String.eqb k k0) eqn:Hk; [|auto].
  apply String.eqb_eq in Hk as ->. intros [= ->]. auto.
Qed.

Lemma same_loc_same_name (s : pydict loc) (k k' : string) (l : loc) :
  List.NoDup (map snd s) -> In (k, l) s -> In (k', l) s -> k = k'.
Proof.
  induction s as [|[k0 l0] s IH]; intros Hnd Hin Hin'; [destruct Hin|].
  apply List.NoDup_cons_iff in Hnd as [Hl0 Hnd]. cbn [snd] in Hl0.
  assert (forall k1, In (k1, l0) s -> False) as Hno.
  { intros k1 Hk1. apply Hl0, in_map_iff. exists (k1, l0). auto. }
  destruct Hin as [Heq|Hin], Hin' as [Heq'|Hin'].
  - congruence.
  - injection Heq as _ ->. destruct (Hno _ Hin').
  - injection Heq' as _ ->. destruct (Hno _ Hin).
  - apply IH; assumption.
Qed.

(** The store after a change, in place, of the descriptor of [cname]. *)
Lemma view_alter (s : pydict loc) (h : heap) (f : pydict value -> pydict value)
    (cname : string) (l : loc) (d : pydict value) :
  store_ok s h -> PyDict.get cname s = Some l ->
  Config.view s (alter f l (h ++ [d]))
  = map (fun kv => (fst kv, if String.eqb (fst kv) cname then f (snd kv) else snd kv))
      (Config.view s h).
Proof.
  intros (Hwf & Hval & Hnd) Hget. unfold Config.view. rewrite map_map.
  apply map_ext_in. intros [k l'] Hin. cbn [fst snd]. f_equal.
  assert (l' < length h)%nat as Hl'.
  { unfold locs_valid in Hval. rewrite Forall_forall in Hval.
    apply (Hval (k, l')), list_elem_of_In, Hin. }
  destruct (String.eqb k cname) eqn:Hk.
  - apply String.eqb_eq in Hk as ->. rewrite (in_get _ _ _ Hwf Hin) in Hget.
    injection Hget as ->. apply deref_alter_at. unfold deref.
    rewrite lookup_app_l by exact Hl'. destruct (lookup_lt_is_Some_2 h l Hl') as [x ->].
    reflexivity.
  - apply deref_alter_copy; [exact Hl'|]. intros ->.
    rewrite (same_loc_same_name s k cname l Hnd Hin (get_in _ _ _ Hget)) in Hk.
    rewrite String.eqb_refl in Hk. discriminate.
Qed.

Lemma update_connection_success (cname : string) (config : pydict value)
    (t t' : Config.config_tool) (w w' : world) (r : action_result) :
  Config._update_connection cname config t w = (t', w', r) -> status r = "success" ->
  exists l h3 m,
    PyDict.get cname (Config.database_configs t) = Some l /\
    Manager.new (Config.database_configs t)
      (alter (PyDict.update config) l (objs w ++ [deref (objs w) l])) = (h3, Ok m) /\
    Config.database_configs t' = Config.database_configs t /\
    Config.manager t' = Some m /\ objs w' = h3.
Proof.
  unfold Config._update_connection.
  destruct (PyDict.get cname _) as [l|] eqn:Hg; [|intros [= <- <- <-]; discriminate].
  cbn [alloc]. destruct (Manager.new _ _) as [h3 [m|e]] eqn:Hnew;
    intros [= <- <- <-]; [|discriminate]. intros _.
  exists l, h3, m. rewrite save_to_file_objs. auto.
Qed.

(** X15: a successful [_update_connection] merges the given fields into the
    descriptor of the connection and touches no other. The store keeps its
    names and its descriptor objects; the descriptor of the connection reads
    as [dict.update] leaves it (a field that is given has the given value,
    every other field stays), every other descriptor reads as before, all
    with their database type in canonical form. *)
Theorem update_merges_into_descriptor (cname : string) (config : pydict value)
    (t t' : Config.config_tool) (w w' : world) (r : action_result) :
  store_ok (Config.database_configs t) (objs w) ->
  Config._update_connection cname config t w = (t', w', r) ->
  status r = "success" ->
  Config.database_configs t' = Config.database_configs t /\
  Config.view (Config.database_configs t') (objs w')
  = map (fun kv => (fst kv,
                    normalise (if String.eqb (fst kv) cname
                               then PyDict.update config (snd kv) else snd kv)))
      (Config.view (Config.database_configs t) (objs w)) /\
  (PyDict.wf config ->
   forall d k, PyDict.get k (PyDict.update config d)
               = match PyDict.get k config with
                 | Some v => Some v
                 | None => PyDict.get k d
                 end).
Proof.
  intros Hok Hup Hs.
  apply update_connection_success in Hup as (l & h3 & m & Hget & Hnew & Hst & _ & Hh);
    [|exact Hs].
  split; [exact Hst|]. split; [|intros Hwf d k; apply get_update, Hwf].
  apply manager_new_ok in Hnew as [-> _]. rewrite Hst, Hh, initialize_connections_heap.
  rewrite view_normalised, (view_alter _ _ _ cname _ _ Hok Hget), map_map. reflexivity.
Qed.

(** ** Removing a connection *)

Lemma in_keys_del {V : Type} (k k0 : string) (d : pydict V) :
  In k0 (PyDict.keys (PyDict.del k d)) -> In k0 (PyDict.keys d).
Proof.
  induction d as [|[k1 v1] d IH]; [auto|]. simpl.
  destruct (String.eqb k k1); [auto|]. simpl. intros [->|Hin]; auto.
Qed.

Lemma wf_del {V : Type} (k : string) (d : pydict V) :
  PyDict.wf d -> PyDict.wf (PyDict.del k d).
Proof.
  unfold PyDict.wf. induction d as [|[k0 v0] d IH]; intros Hwf; [exact Hwf|].
  apply List.NoDup_cons_iff in Hwf as [Hk0 Hwf]. simpl.
  destruct (String.eqb k k0); [exact Hwf|]. simpl. apply List.NoDup_cons; [|apply IH, Hwf].
  intros Hin. apply Hk0. eapply in_keys_del, Hin.
Qed.

Lemma remove_connection_store (cname : string) (t : Config.config_tool) (w : world) :
  PyDict.has cname (Config.database_configs t) = true ->
  let '(t', w', r) := Config._remove_connection cname t w in
  status r = "success" /\
  Config.database_configs t' = PyDict.del cname (Config.database_configs t) /\
  (Config.database_configs t' = [] -> Config.manager t' = None) /\
  (Config.view (Config.database_configs t') (objs w')
   = normalised_view (Config.database_configs t') (objs w) \/ objs w' = objs w).
Proof.
  intros Hhas. unfold Config._remove_connection. rewrite Hhas. cbn [negb].
  destruct (Config.database_configs (Config.set_store _ t)) as [|e rest] eqn:Hs.
  - cbn [Config.set_store Config.database_configs] in Hs. rewrite save_to_file_objs.
    cbn. rewrite Hs. auto.
  - cbn [Config.set_store Config.database_configs] in Hs.
    destruct (Manager.new (e :: rest) (objs w)) as [h [m|err]] eqn:Hnew;
      rewrite save_to_file_objs; cbn; rewrite Hs;
      (split; [reflexivity|]); (split; [reflexivity|]); (split; [discriminate|]);
      apply manager_new_heap in Hnew; exact Hnew.
Qed.

(** X16: a connection that has been removed is gone from the store and from
    the listing, and only that one. [_remove_connection] of a stored name
    answers success; then the name has no descriptor, every other name has
    the descriptor object it had, the listing is one shorter and does not
    show the name, and a store left empty has no manager. *)
Theorem removed_connection_is_gone (cname : string) (t : Config.config_tool) (w : world) :
  PyDict.wf (Config.database_configs t) ->
  PyDict.has cname (Config.database_configs t) = true ->
  let '(t', w', r) := Config._remove_connection cname t w in
  status r = "success" /\
  PyDict.get cname (Config.database_configs t') = None /\
  (forall k, k <> cname ->
     PyDict.get k (Config.database_configs t') = PyDict.get k (Config.database_configs t)) /\
  PyDict.get cname (listed (Config._list_connections t' w')) = None /\
  total_connections (Config._list_connections t' w')
  = Nat.pred (length (Config.database_configs t)) /\
  (Config.database_configs t' = [] -> Config.manager t' = None).
Proof.
  intros Hwf Hhas. pose proof (remove_connection_store cname t w Hhas) as Hrem.
  destruct (Config._remove_connection cname t w) as [[t' w'] r].
  destruct Hrem as (Hst & Hs & Hm & _).
  assert (PyDict.wf (Config.database_configs t')) as Hwf'.
  { rewrite Hs. apply wf_del, Hwf. }
  assert (PyDict.get cname (Config.database_configs t') = None) as Hgone.
  { rewrite Hs, (get_del _ _ _ Hwf), String.eqb_refl. reflexivity. }
  split; [exact Hst|]. split; [exact Hgone|]. split; [|split; [|split; [|exact Hm]]].
  - intros k Hk. rewrite Hs, (get_del _ _ _ Hwf).
    destruct (String.eqb k cname) eqn:Hkc; [|reflexivity].
    apply String.eqb_eq in Hkc. contradiction.
  - rewrite (listed_of_view _ _ Hwf'). apply get_none_not_in.
    unfold PyDict.keys, Config.view. rewrite !map_map. cbn [fst].
    apply get_none_not_in in Hgone. exact Hgone.
  - rewrite list_connections_eta. cbn [total_connections].
    rewrite (listed_of_view _ _ Hwf'), length_map. unfold Config.view.
    rewrite length_map, Hs. apply length_del. apply has_true, Hhas.
Qed.

(** X17: adding a connection and removing it again gives the store back.
    After a successful [_add_connection] of a name, [_remove_connection] of
    that name answers success, and the store holds the names and the
    descriptor objects it held before the two calls; read by value it is as
    before, up to the canonical form of the database types. *)
Theorem add_then_remove_restores_store (cname : string) (config : pydict value)
    (t t1 : Config.config_tool) (w w1 : world) (r1 : action_result) :
  locs_valid (Config.database_configs t) (objs w) ->
  Config._add_connection cname config t w = (t1, w1, r1) ->
  status r1 = "success" ->
  let '(t2, w2, r2) := Config._remove_connection cname t1 w1 in
  status r2 = "success" /\
  Config.database_configs t2 = Config.database_configs t /\
  Config.view (Config.database_configs t2) (objs w2)
  = normalised_view (Config.database_configs t) (objs w).
Proof.
  intros Hval Hadd Hok.
  apply add_connection_success in Hadd as (Hfresh & h2 & m & Hnew & Hs & _ & _ & Hh);
    [|exact Hok].
  destruct (view_of_added _ _ _ _ _ _ Hval Hfresh Hnew) as [_ Hview].
  assert (PyDict.has cname (Config.database_configs t1) = true) as Hhas.
  { apply has_true. rewrite Hs, get_set_eq. discriminate. }
  pose proof (remove_connection_store cname t1 w1 Hhas) as Hrem.
  destruct (Config._remove_connection cname t1 w1) as [[t2 w2] r2].
  destruct Hrem as (Hst & Hs2 & _ & Hheap).
  rewrite Hs, (del_set_fresh _ _ _ Hfresh) in Hs2.
  split; [exact Hst|]. split; [exact Hs2|]. rewrite Hs2 in *. rewrite Hh in Hheap.
  destruct Hheap as [->| ->]; [|exact Hview].
  unfold normalised_view. rewrite Hview. unfold normalised_view. rewrite map_map.
  apply map_ext. intros [k d]. cbn [fst snd]. rewrite normalise_idem. reflexivity.
Qed.

End StoreFacts.


(** The connection [lite] added to the store of [pg]. *)
Lemma added_connection_is_listed_witness :
  let w := Cases.world_of None [Demo.one_row] [Demo.postgres_descriptor] None in
  let out := @Config._add_connection Cases.runtime "lite" Demo.sqlite_descriptor
               Demo.pg_tool w in
  status (snd out) = "success" /\
  PyDict.keys (Config.database_configs (fst (fst out))) = ["pg"; "lite"] /\
  listed (@Config._list_connections Cases.runtime (fst (fst out)) (snd (fst out)))
  = [("pg", [("database_type", VStr "postgresql"); ("host", VStr "localhost");
             ("port", VInt 5432); ("password", VStr "***hidden***")]);
     ("lite", Demo.sqlite_descriptor)].
Proof.
  cbv zeta. split; [reflexivity|].
  pose proof (@added_connection_is_listed Cases.runtime "lite" Demo.sqlite_descriptor
                Demo.pg_tool _
                (Cases.world_of None [Demo.one_row] [Demo.postgres_descriptor] None) _ _
                ltac:(repeat constructor; simpl; tauto)
                ltac:(repeat constructor; simpl; lia)
                (triple_eta _) eq_refl) as (Hk & _ & Hl & _).
  split; [exact Hk|exact Hl].
Defined.

(** A new host for [pg]. *)
Lemma update_merges_into_descriptor_witness :
  let w := Cases.world_of None [Demo.one_row] [Demo.postgres_descriptor] None in
  let out := @Config._update_connection Cases.runtime "pg" [("host", VStr "elsewhere")]
               Demo.pg_tool w in
  status (snd out) = "success" /\
  Config.view (Config.database_configs (fst (fst out))) (objs (snd (fst out)))
  = [("pg", [("database_type", VStr "postgresql"); ("host", VStr "elsewhere");
             ("port", VInt 5432); ("password", VStr "secret")])].
Proof.
  cbv zeta. split; [reflexivity|].
  refine (proj1 (proj2 (@update_merges_into_descriptor Cases.runtime "pg"
            [("host", VStr "elsewhere")] Demo.pg_tool _
            (Cases.world_of None [Demo.one_row] [Demo.postgres_descriptor] None) _ _
            _ (triple_eta _) eq_refl))).
  split; [|split]; repeat constructor; simpl; solve [tauto | lia].
Defined.

(** The only connection of the store removed. *)
Lemma removed_connection_is_gone_witness :
  let w := Cases.world_of None [Demo.one_row] [Demo.postgres_descriptor] None in
  let out := @Config._remove_connection Cases.runtime "pg" Demo.pg_tool w in
  status (snd out) = "success" /\
  PyDict.get "pg" (Config.database_configs (fst (fst out))) = None /\
  total_connections (@Config._list_connections Cases.runtime (fst (fst out)) (snd (fst out)))
  = 0%nat /\
  Config.manager (fst (fst out)) = None.
Proof.
  cbv zeta.
  pose proof (@removed_connection_is_gone Cases.runtime "pg" Demo.pg_tool
                (Cases.world_of None [Demo.one_row] [Demo.postgres_descriptor] None)
                ltac:(repeat constructor; simpl; tauto) eq_refl) as Hrem.
  rewrite (triple_eta (Config._remove_connection _ _ _)) in Hrem.
  destruct Hrem as (Hs & Hg & _ & _ & Ht & Hm).
  split; [exact Hs|]. split; [exact Hg|]. split; [exact Ht|]. apply Hm. reflexivity.
Defined.

(** [lite] added to the store of [pg], and removed again. *)
Lemma add_then_remove_restores_store_witness :
  let w := Cases.world_of None [Demo.one_row] [Demo.postgres_descriptor] None in
  let added := @Config._add_connection Cases.runtime "lite" Demo.sqlite_descriptor
                 Demo.pg_tool w in
  let out := @Config._remove_connection Cases.runtime "lite" (fst (fst added))
               (snd (fst added)) in
  status (snd added) = "success" /\
  Config.database_configs (fst (fst out)) = Config.database_configs Demo.pg_tool /\
  Config.view (Config.database_configs (fst (fst out))) (objs (snd (fst out)))
  = [("pg", Demo.postgres_descriptor)].
Proof.
  cbv zeta. split; [reflexivity|].
  pose proof (@add_then_remove_restores_store Cases.runtime "lite" Demo.sqlite_descriptor
                Demo.pg_tool _
                (Cases.world_of None [Demo.one_row] [Demo.postgres_descriptor] None) _ _
                ltac:(repeat constructor; simpl; lia) (triple_eta _) eq_refl) as Hrt.
  rewrite (triple_eta (Config._remove_connection _ _ _)) in Hrt.
  destruct Hrt as (_ & Hs & Hv). split; [exact Hs|exact Hv].
Defined.

(** ** Loading the store *)

Section LoadFacts.
Context `{Runtime}.
Import ConfigSpec RegistrySpec StoreSpec.

(** ** Loading the config file *)

Lemma file_fold_view (fc : pydict (pydict value)) (s s' : pydict loc) (h h' : heap) :
  locs_valid s h ->
  fold_left Config.file_step fc (s, h) = (s', h') ->
  locs_valid s' h' /\
  Config.view s' h' = PyDict.update fc (Config.view s h).
Proof.
  revert s h. induction fc as [|[k d] fc IH]; intros s h Hval.
  - intros [= <- <-]. auto.
  - cbn [fold_left Config.file_step alloc fst snd]. intros Hfold.
    apply IH in Hfold as [Hval' Hview].
    + split; [exact Hval'|]. rewrite Hview. unfold PyDict.update. cbn [fold_left fst snd].
      rewrite view_set, deref_alloc, (view_app_valid _ _ _ Hval). reflexivity.
    + apply locs_valid_set; [apply locs_valid_app, Hval|]. rewrite length_app. simpl. lia.
Qed.

(** X18: the config file takes precedence, descriptor by descriptor. After
    [_load_from_file] the store reads as [dict.update] of the file over what
    the store held: a name the file has reads as the descriptor of the file,
    whole (no field of an earlier descriptor of that name is kept), and any
    other name reads as before. Without a path or without a file nothing
    changes. *)
Theorem file_takes_precedence (t : Config.config_tool) (w : world) :
  locs_valid (Config.database_configs t) (objs w) ->
  (Config.config_file t = None \/ Config.config_file t = Some "" \/ file w = None ->
   Config._load_from_file t w = (t, w)) /\
  (forall path file_configs,
     Config.config_file t = Some path -> path <> "" -> file w = Some file_configs ->
     let '(t', w') := Config._load_from_file t w in
     Config.view (Config.database_configs t') (objs w')
     = PyDict.update file_configs (Config.view (Config.database_configs t) (objs w)) /\
     (PyDict.wf file_configs ->
      forall cname,
        PyDict.get cname (Config.view (Config.database_configs t') (objs w'))
        = match PyDict.get cname file_configs with
          | Some d => Some d
          | None => PyDict.get cname (Config.view (Config.database_configs t) (objs w))
          end)).
Proof.
  intros Hval. unfold Config._load_from_file. split.
  - intros [->|[->| ->]]; [reflexivity|destruct (file w); reflexivity|].
    destruct (Config.config_file t); reflexivity.
  - intros path fc -> Hne ->. apply String.eqb_neq in Hne. rewrite Hne.
    destruct (fold_left Config.file_step fc _) as [s' h'] eqn:Hfold.
    apply (file_fold_view _ _ _ _ _ Hval) in Hfold as [_ Hview].
    cbn [Config.set_store Config.database_configs Adapter.set_objs objs].
    split; [exact Hview|]. intros Hwf cname. rewrite Hview. apply get_update, Hwf.
Qed.

(** ** Variables the environment loader passes over *)

Lemma split_two (r : string) :
  (2 <= length (PyStr.split "_" r))%nat -> exists n s, r = n +:+ "_" +:+ s.
Proof.
  induction r as [|c r IH]; [simpl; lia|]. cbn [PyStr.split].
  destruct (ascii_dec c "_") as [->|Hc].
  - intros _. exists "", r. reflexivity.
  - pose proof (split_nonempty "_" r) as Hne.
    destruct (PyStr.split "_" r) as [|p ps]; [contradiction|]. intros Hlen.
    destruct (IH Hlen) as (n & s & ->). exists (String c n), s. reflexivity.
Qed.

Lemma env_step_unrelated (db_vars : pydict (pydict value)) (key value : string) :
  (forall n s, key <> "DB_" +:+ n +:+ "_" +:+ s) ->
  Config.env_step db_vars (key, value) = db_vars.
Proof.
  intros Hkey. unfold Config.env_step.
  destruct (PyStr.startswith key "DB_") eqn:Hp; [|reflexivity].
  apply prefix_iff in Hp as [rest ->].
  change ("DB_" +:+ rest) with ("DB" +:+ "_" +:+ rest).
  rewrite (split_first "DB") by reflexivity.
  destruct (Nat.leb 3 (length ("DB" :: PyStr.split "_" rest))) eqn:Hlen; [|reflexivity].
  apply Nat.leb_le in Hlen. destruct (split_two rest) as (n & s & ->); [simpl in Hlen; lia|].
  destruct (Hkey n s). reflexivity.
Qed.

(** X19: a variable whose name is not of the form [DB_<name>_<setting>] plays
    no role, wherever it stands in the environment: the loader gives the same
    store with it and without it. Such are the names that do not start with
    [DB_] in capitals, and those with no underscore after the prefix. *)
Theorem unrelated_variables_are_ignored (before after : list (string * string))
    (key value : string) (t : Config.config_tool) (w : world) :
  (forall n s, key <> "DB_" +:+ n +:+ "_" +:+ s) ->
  Config._load_from_environment (before ++ (key, value) :: after) t w
  = Config._load_from_environment (before ++ after) t w.
Proof.
  intros Hkey. unfold Config._load_from_environment.
  rewrite !fold_left_app. cbn [fold_left]. rewrite (env_step_unrelated _ _ _ Hkey).
  reflexivity.
Qed.

(** ** A new tool on a saved file *)




End LoadFacts.

(** The store of [pg] and a file that describes [pg] anew and [lite]. *)
Lemma file_takes_precedence_witness :
  let w := Cases.world_of None [Demo.one_row] [Demo.postgres_descriptor]
             (Some Cases.file_configs) in
  let out := @Config._load_from_file Cases.runtime Cases.file_tool w in
  Config.view (Config.database_configs (fst out)) (objs (snd out)) = Cases.file_configs.
Proof.
  cbv zeta.
  pose proof (proj2 (@file_takes_precedence Cases.runtime Cases.file_tool
                (Cases.world_of None [Demo.one_row] [Demo.postgres_descriptor]
                   (Some Cases.file_configs))
                ltac:(repeat constructor; simpl; lia))
                "db.json" Cases.file_configs eq_refl ltac:(discriminate) eq_refl) as Hf.
  rewrite (pair_eta (Config._load_from_file _ _)) in Hf. exact (proj1 Hf).
Defined.

(** [PATH] between two variables of the connection [prod]. *)
Lemma unrelated_variables_are_ignored_witness :
  let w := Cases.world_of None [Demo.one_row] [] None in
  @Config._load_from_environment Cases.runtime
    ([("DB_PROD_DATABASE_TYPE", "sqlite")] ++ ("PATH", "/usr/bin") :: [("DB_PROD_PORT", "1")])
    Demo.empty_tool w
  = @Config._load_from_environment Cases.runtime
      ([("DB_PROD_DATABASE_TYPE", "sqlite")] ++ [("DB_PROD_PORT", "1")])
      Demo.empty_tool w.
Proof.
  cbv zeta.
  apply (@unrelated_variables_are_ignored Cases.runtime [("DB_PROD_DATABASE_TYPE", "sqlite")]
           [("DB_PROD_PORT", "1")] "PATH" "/usr/bin").
  intros n s. discriminate.
Defined.


(** ** The port of a connection *)

Section PortFacts.
Context `{Runtime}.
Import ConfigSpec.







End PortFacts.


(** ** What a result says of its query *)

Section ResultFacts.
Context `{Runtime}.

(** What the result of a successful [execute] of an adapter says about the
    query. *)
Lemma tool_execute_result (a a' : adapter) (w w' : world) (q : string) (limit : Z)
    (format : string) (timeout : Z) (kw : kwargs) (r : query_result) :
  Manager.tool_execute a w q limit format timeout kw = (a', w', Ok r) ->
  Guard._validate_query q = Ok tt /\
  query r = Guard._apply_limit q limit /\
  meta r = {| md_database_type := name a; md_limit_applied := limit; md_format := format;
              md_snowflake :=
                if Adapter.is_snowflake a
                then Some (kw_warehouse kw, default true (kw_use_cached_result kw))
                else None |}.
Proof.
  intros He. pose proof (tool_execute_heap _ _ _ _ _ _ _ _ _ _ He)
    as (new & (_ & _ & _ & Hn & _) & _).
  revert He. unfold Manager.tool_execute, Adapter.snowflake_execute, Adapter.base_execute.
  destruct (Adapter.is_snowflake a) eqn:Hsf.
  - destruct (if _is_connected a then _ else _) as [[a1 w1] [[]|e]];
      [|cbn; intros; simplify_eq].
    destruct (Guard._validate_query q) as [[]|e]; [|cbn; intros; simplify_eq]. cbv zeta.
    destruct (Adapter.snowflake_execute_query _ _ _ _ _ _) as [[a2 w2] [[rows cols]|e]];
      [|cbn; intros; simplify_eq].
    destruct (Formatter._format_results _ _ _ _); cbn; intros; simplify_eq.
    cbn. rewrite Hn. auto.
  - destruct (if _is_connected a then _ else _) as [[a1 w1] [[]|e]] eqn:Hc;
      [|cbn; intros; simplify_eq].
    apply (ensure_connected_frame _ _ _ _ _ Adapter.connect connect_frame) in Hc
      as [(_ & _ & Hcls & _) _].
    destruct (Guard._validate_query q) as [[]|e]; [|cbn; intros; simplify_eq]. cbv zeta.
    destruct (Adapter.execute_query _ _ _ _) as [[a2 w2] [[rows cols]|e]];
      [|cbn; intros; simplify_eq].
    destruct (Formatter._format_results _ _ _ _); cbn; intros; simplify_eq.
    cbn. rewrite Hn. split; [reflexivity|]. split; [|reflexivity].
    unfold Adapter.apply_limit, Adapter.is_snowflake in *. rewrite Hcls, Hsf. reflexivity.
Qed.

(** X22: a result is always the result of a query that the guard has
    accepted and that carries a limit. After a successful [execute] of the
    manager the guard accepts the query as given; the query the result
    reports is the one [_apply_limit] returns, which contains LIMIT, and is
    the query as given when that already contained LIMIT; and the metadata
    name the adapter, the limit and the format as given, the limit also when
    the query had its own and was sent unchanged. *)
Theorem result_describes_the_query (m m' : Manager.manager) (w w' : world) (cname q : string)
    (limit : Z) (format : string) (timeout : Z) (kw : kwargs) (r : query_result) :
  Manager.execute m w cname q limit format timeout kw = (m', w', Ok r) ->
  Guard._validate_query q = Ok tt /\
  query r = Guard._apply_limit q limit /\
  PyStr.contains "LIMIT" (PyStr.upper (query r)) = true /\
  (PyStr.contains "LIMIT" (PyStr.upper q) = true -> query r = q) /\
  exists tool,
    PyDict.get cname (Manager.connections m) = Some tool /\
    md_database_type (meta r) = name tool /\
    md_limit_applied (meta r) = limit /\ md_format (meta r) = format /\
    md_snowflake (meta r)
    = if Adapter.is_snowflake tool
      then Some (kw_warehouse kw, default true (kw_use_cached_result kw))
      else None.
Proof.
  unfold Manager.execute.
  destruct (PyDict.get cname (Manager.connections m)) as [tool|]; [|discriminate].
  destruct (Manager.tool_execute tool w q limit format timeout kw) as [[a' w1] [r1|e]] eqn:He;
    [|discriminate].
  intros [= <- <- <-]. apply tool_execute_result in He as (Hv & Hq & Hm). cbn.
  split; [exact Hv|]. split; [exact Hq|]. rewrite Hq, Hm.
  split; [apply apply_limit_has_limit|]. split.
  - intros Hl. unfold Guard._apply_limit. rewrite Hl. reflexivity.
  - exists tool. cbn. auto.
Qed.

End ResultFacts.

(** A query on [A] that has its own limit. *)
Lemma result_describes_the_query_witness :
  let out := @Manager.execute Cases.runtime Demo.manager0
               (Cases.world_of None [Demo.one_row]
                  [Demo.sqlite_descriptor; Demo.sqlite_descriptor] None)
               "A" "select 1 limit 5" 100 "json" 30 no_kwargs in
  exists r, snd out = Ok r /\ query r = "select 1 limit 5" /\ md_limit_applied (meta r) = 100.
Proof.
  cbv zeta. eexists. split; [vm_compute; reflexivity|].
  destruct (@result_describes_the_query Cases.runtime Demo.manager0 _
              (Cases.world_of None [Demo.one_row]
                 [Demo.sqlite_descriptor; Demo.sqlite_descriptor] None) _
              "A" "select 1 limit 5" 100 "json" 30 no_kwargs _
              ltac:(vm_compute; reflexivity)) as (_ & _ & _ & Hq & tool & _ & _ & Hl & _).
  split; [apply Hq; reflexivity|exact Hl].
Defined.

(** ** The fan-out without combined rows *)

Section FanFrameFacts.
Context `{Runtime}.
Import FanSpec.

(** Without [combine_results] the heap only grows along the loop: it
    starts with the heap at the start, and with the heap every query has
    left. *)
Lemma fan_loop_grows (m : Manager.manager) (w : world) (queries : list query_spec) :
  let st := Manager.fan_loop false 0 queries (init_state m w) in
  (exists rest, objs (Manager.fs_world st) = objs w ++ rest) /\
  forall i sp, queries !! i = Some sp ->
    exists rest,
      objs (Manager.fs_world st) = objs (world_of (outcome false m w queries i sp)) ++ rest.
Proof.
  induction queries as [|x queries IH] using rev_ind; cbv zeta in *.
  - split; [exists []; rewrite app_nil_r; reflexivity|].
    intros i sp Hi. rewrite lookup_nil in Hi. discriminate Hi.
  - destruct IH as (IHw & IHq). rewrite fan_loop_snoc. cbn [Nat.add].
    set (st := Manager.fan_loop false 0 queries (init_state m w)) in *.
    assert (outcome false m w queries (length queries) x = run_spec st x) as Hout.
    { unfold outcome. rewrite state_before_all. reflexivity. }
    destruct (fan_step_spec false (length queries) x st) as (_ & _ & _ & new & Ho & Ho' & _).
    cbn [andb] in Ho'. split.
    + destruct IHw as [rest Hrest]. exists (rest ++ new). rewrite Ho', Hrest, app_assoc.
      reflexivity.
    + intros i sp Hi. apply lookup_snoc_Some in Hi as [[Hlt Hi]|[-> <-]].
      * rewrite outcome_snoc by lia. destruct (IHq i sp Hi) as [rest Hrest].
        exists (rest ++ new). rewrite Ho', Hrest, app_assoc. reflexivity.
      * rewrite outcome_snoc, Hout by reflexivity. exists []. rewrite Ho', Ho, app_nil_r.
        reflexivity.
Qed.

(** X23: without [combine_results] the fan-out writes into no dict object.
    When it returns, every object that was there at the start reads as it
    did, and every object that was there when a query returned, the rows of
    that query among them, reads as it did then. *)
Theorem plain_fan_out_changes_no_object (m : Manager.manager) (w : world)
    (queries : list query_spec) :
  let run := Manager.execute_cross_database_query m w queries false in
  (forall l, (l < length (objs w))%nat ->
     deref (objs (snd (fst run))) l = deref (objs w) l) /\
  (forall i sp l, queries !! i = Some sp ->
     (l < length (objs (world_of (outcome false m w queries i sp))))%nat ->
     deref (objs (snd (fst run))) l
     = deref (objs (world_of (outcome false m w queries i sp))) l) /\
  (forall i sp r rows l, queries !! i = Some sp ->
     snd (outcome false m w queries i sp) = Ok r -> results r = FRows rows -> In l rows ->
     (l < length (objs (world_of (outcome false m w queries i sp))))%nat).
Proof.
  cbv zeta. unfold Manager.execute_cross_database_query. cbn [fst snd].
  fold (init_state m w). destruct (fan_loop_grows m w queries) as [[rest Hw] Hq].
  split; [|split].
  - intros l Hl. rewrite Hw. apply deref_app_l, Hl.
  - intros i sp l Hi Hl. destruct (Hq i sp Hi) as [rest' ->]. apply deref_app_l, Hl.
  - intros i sp r rows l Hi Hout Hres Hl. unfold outcome, run_spec, world_of in *.
    destruct (Manager.execute _ _ _ _ _ _ _ _) as [[m' w'] out] eqn:He. cbn [fst snd] in *.
    subst out. apply manager_execute_heap in He as (new & Ho & Hrows).
    rewrite (Hrows r rows eq_refl Hres) in Hl. apply in_seq in Hl.
    rewrite Ho, length_app. lia.
Qed.

End FanFrameFacts.
